(** * XSD to LAMMPS converter: a shallow embedding of [xsd_to_lammps.py]

    The development follows the Python class [XSDtoLAMMPS] method by method.
    Python values are modelled as follows.

    - [int] is [Z]; [str] is [string] (the UTF-8 bytes of the text, whose
      byte-wise order is the code-point order Python compares by);
      [float] is the kernel's binary64 [float].
    - A [dict] whose iteration order the code observes ([self.atoms],
      [self.atom_types], [self.bond_types]) is an insertion-ordered
      association list ([Dict]); the attribute dictionary of an XML element
      and [self.xsd_id_to_lammps_idx], which are only looked up, are [gmap]s;
      the local [processed_bonds] is a [gset].
    - Methods that mutate [self] or may raise are computations of the monad
      [M S A = S -> (exn + A) * S]: the state survives a raised exception,
      as the object does in Python.
    - The built-in conversions whose full grammar lives in the interpreter
      ([int(s)], [float(s)], [s.strip()], the [:.nf] format) are the fields
      of the class [Builtins]; every general theorem holds for all of them.
    - The six box bounds are floats: the integers 0 they start as are
      rendered by [:.6f] as the float 0.0 is. The two assignments of lines
      92-93 to an atom's record are one update, as nothing can raise between
      them.
    - [print] calls are not modelled: nothing reads standard output back.
      [ET.parse] is outside the model: [parse_xsd] takes the root element. *)

From Stdlib Require Import ZArith String Ascii List Floats Uint63.
From stdpp Require Import gmap strings list pretty sorting.

Set Warnings "-inexact-float,-register-all".
Open Scope Z_scope.
Open Scope string_scope.

(** ** Exceptions and built-ins *)

Inductive exn : Type :=
| TypeError
| ValueError
| KeyError.

Class Builtins : Type := {
  (** [int(s)] on a string; [None] stands for [ValueError]. *)
  py_int : string -> option Z;
  (** [float(s)] on a string; [None] stands for [ValueError]. *)
  py_float : string -> option float;
  (** [s.strip()]. *)
  py_strip : string -> string;
  (** [f"{v:.nf}"]. *)
  py_format_f : nat -> float -> string
}.

(** ** The state and exception monad *)

Definition M (S A : Type) : Type := S -> (exn + A) * S.

Definition ret {S A} (a : A) : M S A := fun s => (inr a, s).

Definition bind {S A B} (m : M S A) (k : A -> M S B) : M S B :=
  fun s => match m s with
           | (inl e, s') => (inl e, s')
           | (inr a, s') => k a s'
           end.

Definition raise {S A} (e : exn) : M S A := fun s => (inl e, s).

Definition gets {S A} (f : S -> A) : M S A := fun s => (inr (f s), s).

Definition modify {S} (f : S -> S) : M S unit := fun s => (inr tt, f s).

Declare Scope py_scope.
Delimit Scope py_scope with py.
Notation "x <- m ;; k" := (bind m (fun x => k))
  (at level 100, m at next level, right associativity) : py_scope.
Notation "m ;;; k" := (bind m (fun _ => k))
  (at level 100, right associativity) : py_scope.
Open Scope py_scope.

(** [for v in l: body(v)], with the loop's local variables threaded as [acc]. *)
Fixpoint for_fold {S B L} (body : L -> B -> M S L) (l : list B) (acc : L) : M S L :=
  match l with
  | [] => ret acc
  | v :: l' => acc' <- body acc v ;; for_fold body l' acc'
  end.

Definition for_each {S B} (body : B -> M S unit) (l : list B) : M S unit :=
  for_fold (fun _ v => body v) l tt.

(** ** Insertion-ordered dictionaries *)

Abbreviation dict K V := (list (K * V)).

Module Dict.
Section ops.
Context {K V : Type} `{EqDecision K}.

Fixpoint get (k : K) (d : dict K V) : option V :=
  match d with
  | [] => None
  | (k', v) :: d' => if decide (k = k') then Some v else get k d'
  end.

(** [k in d] *)
Definition mem (k : K) (d : dict K V) : bool :=
  match get k d with Some _ => true | None => false end.

(** [d[k] = v]: a present key keeps its position, a new one goes last. *)
Fixpoint set (k : K) (v : V) (d : dict K V) : dict K V :=
  match d with
  | [] => [(k, v)]
  | (k', v') :: d' =>
      if decide (k = k') then (k', v) :: d' else (k', v') :: set k v d'
  end.

Definition keys (d : dict K V) : list K := map fst d.
Definition values (d : dict K V) : list V := map snd d.
Definition len (d : dict K V) : Z := Z.of_nat (length d).
End ops.
End Dict.

(** ** XML trees as [xml.etree.ElementTree] presents them *)

Inductive Element : Type :=
| Elem (tag : string) (attrib : gmap string string) (text : option string)
       (children : list Element).

Definition tag (e : Element) : string :=
  match e with Elem t _ _ _ => t end.
Definition attrib (e : Element) : gmap string string :=
  match e with Elem _ a _ _ => a end.
Definition text (e : Element) : option string :=
  match e with Elem _ _ t _ => t end.
Definition children (e : Element) : list Element :=
  match e with Elem _ _ _ c => c end.

(** [e.iter()]: the element and its descendants in document order. *)
Fixpoint iter (e : Element) : list Element :=
  match e with
  | Elem _ _ _ cs => e :: flat_map iter cs
  end.

Definition tag_is (t : string) (e : Element) : bool := String.eqb (tag e) t.

(** [e.findall('.//t')]: the proper descendants named [t]. *)
Definition findall_desc (t : string) (e : Element) : list Element :=
  List.filter (tag_is t) (flat_map iter (children e)).

(** [e.find('.//t')] *)
Definition find_desc (t : string) (e : Element) : option Element :=
  head (findall_desc t e).

(** [e.find('./t')]: the first direct child named [t]. *)
Definition find_child (t : string) (e : Element) : option Element :=
  head (List.filter (tag_is t) (children e)).

(** [e.get(k)] and [e.get(k, default)] *)
Definition attr (k : string) (e : Element) : option string := attrib e !! k.
Definition attr_or (k dflt : string) (e : Element) : string :=
  default dflt (attr k e).

(** ** String helpers *)

(** [s.split(',')] for a one-character separator: never an empty list. *)
Fixpoint split_on (sep : ascii) (s : string) : list string :=
  match s with
  | EmptyString => [""]
  | String c s' =>
      if Ascii.eqb c sep then "" :: split_on sep s'
      else match split_on sep s' with
           | p :: ps => String c p :: ps
           | [] => [String c ""]
           end
  end.

(** [tuple(sorted([a, b]))] for two values compared by [lt]. *)
Definition sorted2 {A} (lt : A -> A -> bool) (a b : A) : A * A :=
  if lt b a then (b, a) else (a, b).

(** [d[k]], raising [KeyError] on a missing key. *)
Definition getitem {S K V} `{EqDecision K} (k : K) (d : dict K V) : M S V :=
  match Dict.get k d with
  | Some v => ret v
  | None => raise KeyError
  end.

(** ** The model held by one [XSDtoLAMMPS] object *)

Record Atom : Type := {
  a_id : string;
  a_name : option string;
  a_element : string;
  a_forcefield_type : string;
  a_charge : float;
  a_x : float;
  a_y : float;
  a_z : float;
  a_atom_type : option Z;     (* None until the type is interned *)
  a_type_key : option string  (* key absent until the type is interned *)
}.

Record Bond : Type := {
  b_id : Z;
  b_type : Z;
  b_atom1 : Z;
  b_atom2 : Z;
  b_order : string;
  b_elements : string * string * string
}.

Record Box : Type := {
  xlo : float; xhi : float;
  ylo : float; yhi : float;
  zlo : float; zhi : float
}.

Record Converter : Type := {
  xsd_file : string;
  atoms : dict Z Atom;
  bonds : list Bond;
  angles : list unit;
  dihedrals : list unit;
  atom_types : dict string Z;
  bond_types : dict (string * string * string) Z;
  angle_types : dict unit Z;
  dihedral_types : dict unit Z;
  atom_type_counter : Z;
  bond_type_counter : Z;
  angle_type_counter : Z;
  dihedral_type_counter : Z;
  box_bounds : Box;
  xsd_id_to_lammps_idx : gmap Z Z
}.

(** [XSDtoLAMMPS.__init__] *)
Definition init (path : string) : Converter := {|
  xsd_file := path;
  atoms := [];
  bonds := [];
  angles := [];
  dihedrals := [];
  atom_types := [];
  bond_types := [];
  angle_types := [];
  dihedral_types := [];
  atom_type_counter := 0;
  bond_type_counter := 0;
  angle_type_counter := 0;
  dihedral_type_counter := 0;
  box_bounds := {| xlo := 0%float; xhi := 0%float; ylo := 0%float;
                   yhi := 0%float; zlo := 0%float; zhi := 0%float |};
  xsd_id_to_lammps_idx := ∅
|}.

(** In-place updates of the object's attributes. *)
Definition upd_atoms (f : dict Z Atom -> dict Z Atom) (c : Converter) : Converter :=
  {| xsd_file := xsd_file c; atoms := f (atoms c); bonds := bonds c;
     angles := angles c; dihedrals := dihedrals c;
     atom_types := atom_types c; bond_types := bond_types c;
     angle_types := angle_types c; dihedral_types := dihedral_types c;
     atom_type_counter := atom_type_counter c;
     bond_type_counter := bond_type_counter c;
     angle_type_counter := angle_type_counter c;
     dihedral_type_counter := dihedral_type_counter c;
     box_bounds := box_bounds c;
     xsd_id_to_lammps_idx := xsd_id_to_lammps_idx c |}.

Definition upd_bonds (f : list Bond -> list Bond) (c : Converter) : Converter :=
  {| xsd_file := xsd_file c; atoms := atoms c; bonds := f (bonds c);
     angles := angles c; dihedrals := dihedrals c;
     atom_types := atom_types c; bond_types := bond_types c;
     angle_types := angle_types c; dihedral_types := dihedral_types c;
     atom_type_counter := atom_type_counter c;
     bond_type_counter := bond_type_counter c;
     angle_type_counter := angle_type_counter c;
     dihedral_type_counter := dihedral_type_counter c;
     box_bounds := box_bounds c;
     xsd_id_to_lammps_idx := xsd_id_to_lammps_idx c |}.

Definition upd_atom_types (f : dict string Z -> dict string Z) (c : Converter) : Converter :=
  {| xsd_file := xsd_file c; atoms := atoms c; bonds := bonds c;
     angles := angles c; dihedrals := dihedrals c;
     atom_types := f (atom_types c); bond_types := bond_types c;
     angle_types := angle_types c; dihedral_types := dihedral_types c;
     atom_type_counter := atom_type_counter c;
     bond_type_counter := bond_type_counter c;
     angle_type_counter := angle_type_counter c;
     dihedral_type_counter := dihedral_type_counter c;
     box_bounds := box_bounds c;
     xsd_id_to_lammps_idx := xsd_id_to_lammps_idx c |}.

Definition upd_bond_types
    (f : dict (string * string * string) Z -> dict (string * string * string) Z)
    (c : Converter) : Converter :=
  {| xsd_file := xsd_file c; atoms := atoms c; bonds := bonds c;
     angles := angles c; dihedrals := dihedrals c;
     atom_types := atom_types c; bond_types := f (bond_types c);
     angle_types := angle_types c; dihedral_types := dihedral_types c;
     atom_type_counter := atom_type_counter c;
     bond_type_counter := bond_type_counter c;
     angle_type_counter := angle_type_counter c;
     dihedral_type_counter := dihedral_type_counter c;
     box_bounds := box_bounds c;
     xsd_id_to_lammps_idx := xsd_id_to_lammps_idx c |}.

Definition upd_atom_type_counter (f : Z -> Z) (c : Converter) : Converter :=
  {| xsd_file := xsd_file c; atoms := atoms c; bonds := bonds c;
     angles := angles c; dihedrals := dihedrals c;
     atom_types := atom_types c; bond_types := bond_types c;
     angle_types := angle_types c; dihedral_types := dihedral_types c;
     atom_type_counter := f (atom_type_counter c);
     bond_type_counter := bond_type_counter c;
     angle_type_counter := angle_type_counter c;
     dihedral_type_counter := dihedral_type_counter c;
     box_bounds := box_bounds c;
     xsd_id_to_lammps_idx := xsd_id_to_lammps_idx c |}.

Definition upd_bond_type_counter (f : Z -> Z) (c : Converter) : Converter :=
  {| xsd_file := xsd_file c; atoms := atoms c; bonds := bonds c;
     angles := angles c; dihedrals := dihedrals c;
     atom_types := atom_types c; bond_types := bond_types c;
     angle_types := angle_types c; dihedral_types := dihedral_types c;
     atom_type_counter := atom_type_counter c;
     bond_type_counter := f (bond_type_counter c);
     angle_type_counter := angle_type_counter c;
     dihedral_type_counter := dihedral_type_counter c;
     box_bounds := box_bounds c;
     xsd_id_to_lammps_idx := xsd_id_to_lammps_idx c |}.

Definition upd_box_bounds (f : Box -> Box) (c : Converter) : Converter :=
  {| xsd_file := xsd_file c; atoms := atoms c; bonds := bonds c;
     angles := angles c; dihedrals := dihedrals c;
     atom_types := atom_types c; bond_types := bond_types c;
     angle_types := angle_types c; dihedral_types := dihedral_types c;
     atom_type_counter := atom_type_counter c;
     bond_type_counter := bond_type_counter c;
     angle_type_counter := angle_type_counter c;
     dihedral_type_counter := dihedral_type_counter c;
     box_bounds := f (box_bounds c);
     xsd_id_to_lammps_idx := xsd_id_to_lammps_idx c |}.

Definition upd_xsd_id_to_lammps_idx (f : gmap Z Z -> gmap Z Z) (c : Converter) : Converter :=
  {| xsd_file := xsd_file c; atoms := atoms c; bonds := bonds c;
     angles := angles c; dihedrals := dihedrals c;
     atom_types := atom_types c; bond_types := bond_types c;
     angle_types := angle_types c; dihedral_types := dihedral_types c;
     atom_type_counter := atom_type_counter c;
     bond_type_counter := bond_type_counter c;
     angle_type_counter := angle_type_counter c;
     dihedral_type_counter := dihedral_type_counter c;
     box_bounds := box_bounds c;
     xsd_id_to_lammps_idx := f (xsd_id_to_lammps_idx c) |}.

(** [atom['atom_type'] = t; atom['type_key'] = k] on one atom record. *)
Definition with_type (t : Z) (k : string) (a : Atom) : Atom :=
  {| a_id := a_id a; a_name := a_name a; a_element := a_element a;
     a_forcefield_type := a_forcefield_type a; a_charge := a_charge a;
     a_x := a_x a; a_y := a_y a; a_z := a_z a;
     a_atom_type := Some t; a_type_key := Some k |}.

(** ** Reading one atom element *)

Definition ns : string := "{http://www.accelrys.com/xsd}".

(** [bool(e)] of an element: true when it has children. *)
Definition truthy (e : Element) : bool :=
  match children e with [] => false | _ :: _ => true end.

(** [atom_elem.find('.//Components') or atom_elem.find('./{ns}Components')] *)
Definition components_lookup (atom_elem : Element) : option Element :=
  match find_desc "Components" atom_elem with
  | Some e => if truthy e then Some e else find_child (ns ++ "Components") atom_elem
  | None => find_child (ns ++ "Components") atom_elem
  end.

(** Lines 61-67: the element symbol of an atom. *)
Definition resolve_element (atom_elem : Element) : string :=
  match components_lookup atom_elem with
  | Some components_elem =>
      match text components_elem with
      | Some (String c t) => String c t
      | _ => "X"
      end
  | None => attr_or "Components" "X" atom_elem
  end.

(** Lines 155-156: the key a bond type is interned under. *)
Definition bond_type_key (elem1 elem2 bond_order : string) : string * string * string :=
  let elem_pair := sorted2 String.ltb elem1 elem2 in
  (elem_pair.1, elem_pair.2, bond_order).

(** Lines 83-86: the key an atom type is interned under. *)
Definition atom_type_key (forcefield_type element : string) : string :=
  if String.eqb forcefield_type "unknown" || String.eqb forcefield_type ""
  then element else forcefield_type.

Section Parse.
Context `{Builtins}.

(** Lines 55-58. [x, y, z = map(float, parts)] succeeds exactly when there
    are three parts and each converts; any failure is caught by the bare
    [except]. *)
Definition parse_xyz (xyz_str : string) : float * float * float :=
  match map py_float (split_on "," xyz_str) with
  | [Some x; Some y; Some z] => (x, y, z)
  | _ => (0%float, 0%float, 0%float)
  end.

(** [int(atom_elem.get('ID'))] *)
Definition int_of_attr (v : option string) : M Converter Z :=
  match v with
  | None => raise TypeError
  | Some s => match py_int s with
              | Some n => ret n
              | None => raise ValueError
              end
  end.

(** [float(atom_elem.get('Charge', 0.0))] *)
Definition float_of_attr (v : option string) : M Converter float :=
  match v with
  | None => ret 0%float
  | Some s => match py_float s with
              | Some q => ret q
              | None => raise ValueError
              end
  end.

(** The body of the loop at lines 46-93. *)
Definition parse_atom (idx : Z) (atom_elem : Element) : M Converter unit :=
  let atom_id := attr "ID" atom_elem in
  n <- int_of_attr atom_id ;;
  modify (upd_xsd_id_to_lammps_idx (insert n idx)) ;;;
  let atom_name := attr "Name" atom_elem in
  let forcefield_type := attr_or "ForcefieldType" "unknown" atom_elem in
  charge <- float_of_attr (attr "Charge" atom_elem) ;;
  let xyz_str := attr_or "XYZ" "0,0,0" atom_elem in
  let '(x, y, z) := parse_xyz xyz_str in
  let element := resolve_element atom_elem in
  modify (upd_atoms (Dict.set idx
    {| a_id := default "" atom_id (* a string here: [int(None)] raised *);
       a_name := atom_name;
       a_element := element;
       a_forcefield_type := forcefield_type; a_charge := charge;
       a_x := x; a_y := y; a_z := z;
       a_atom_type := None; a_type_key := None |})) ;;;
  let type_key := atom_type_key forcefield_type element in
  known <- gets (fun c => Dict.mem type_key (atom_types c)) ;;
  (if known then ret tt
   else modify (upd_atom_type_counter (fun n => n + 1)) ;;;
        n' <- gets atom_type_counter ;;
        modify (upd_atom_types (Dict.set type_key n'))) ;;;
  tys <- gets atom_types ;;
  t <- getitem type_key tys ;;
  ats <- gets atoms ;;
  a <- getitem idx ats ;;
  modify (upd_atoms (Dict.set idx (with_type t type_key a))).

(** [enumerate(l, start)] *)
Fixpoint enumerate {A} (start : Z) (l : list A) : list (Z * A) :=
  match l with
  | [] => []
  | v :: l' => (start, v) :: enumerate (start + 1) l'
  end.

(** [root.findall('.//t')], retried with the namespace when empty. *)
Definition select_elements (t : string) (root : Element) : list Element :=
  match findall_desc t root with
  | [] => findall_desc (ns ++ t) root
  | l => l
  end.

(** The body of the loop at lines 123-174, with the locals [bond_id] and
    [processed_bonds] threaded through. The [try] catches the [ValueError]
    of [int]; a [KeyError] is not caught. *)
Definition bond_step (loc : Z * gset (Z * Z)) (bond_elem : Element)
    : M Converter (Z * gset (Z * Z)) :=
  let '(bond_id, processed_bonds) := loc in
  let connects := attr_or "Connects" "" bond_elem in
  let bond_order := attr_or "Type" "Single" bond_elem in
  match connects with
  | EmptyString => ret loc
  | _ =>
    match mapM (fun p => py_int (py_strip p)) (split_on "," connects) with
    | Some [atom1_xsd_id; atom2_xsd_id] =>
        ids <- gets xsd_id_to_lammps_idx ;;
        match ids !! atom1_xsd_id, ids !! atom2_xsd_id with
        | Some atom1_idx, Some atom2_idx =>
            let bond_tuple := sorted2 Z.ltb atom1_idx atom2_idx in
            if decide (bond_tuple ∈ processed_bonds) then ret loc
            else
              let processed_bonds := {[bond_tuple]} ∪ processed_bonds in
              ats <- gets atoms ;;
              a1 <- getitem atom1_idx ats ;;
              a2 <- getitem atom2_idx ats ;;
              let bond_type_key :=
                bond_type_key (a_element a1) (a_element a2) bond_order in
              known <- gets (fun c => Dict.mem bond_type_key (bond_types c)) ;;
              (if known then ret tt
               else modify (upd_bond_type_counter (fun n => n + 1)) ;;;
                    n <- gets bond_type_counter ;;
                    modify (upd_bond_types (Dict.set bond_type_key n))) ;;;
              tys <- gets bond_types ;;
              t <- getitem bond_type_key tys ;;
              modify (upd_bonds (fun bs => (bs ++
                [{| b_id := bond_id; b_type := t;
                    b_atom1 := bond_tuple.1; b_atom2 := bond_tuple.2;
                    b_order := bond_order; b_elements := bond_type_key |}])%list)) ;;;
              ret (bond_id + 1, processed_bonds)
        | _, _ => ret loc
        end
    | _ => ret loc
    end
  end.

(** [_extract_bonds_from_bond_elements] *)
Definition extract_bonds_from_bond_elements (root : Element) : M Converter unit :=
  let bonds_list := select_elements "Bond" root in
  for_fold bond_step bonds_list (1, ∅) ;;; ret tt.

(** [min(l)] and [max(l)] on floats: the first extremal item, found with
    [item < current] and [item > current]. *)
Definition py_min (l : list float) : M Converter float :=
  match l with
  | [] => raise ValueError
  | v :: l' => ret (fold_left (fun m v => if PrimFloat.ltb v m then v else m) l' v)
  end.

Definition py_max (l : list float) : M Converter float :=
  match l with
  | [] => raise ValueError
  | v :: l' => ret (fold_left (fun m v => if PrimFloat.ltb m v then v else m) l' v)
  end.

Definition padding : float := 10%float.

(** [_calculate_box_bounds] *)
Definition calculate_box_bounds : M Converter unit :=
  ats <- gets atoms ;;
  match ats with
  | [] => ret tt
  | _ =>
    let x_coords := map a_x (Dict.values ats) in
    let y_coords := map a_y (Dict.values ats) in
    let z_coords := map a_z (Dict.values ats) in
    v <- py_min x_coords ;;
    modify (upd_box_bounds (fun b =>
      {| xlo := PrimFloat.sub v padding; xhi := xhi b; ylo := ylo b;
         yhi := yhi b; zlo := zlo b; zhi := zhi b |})) ;;;
    v <- py_max x_coords ;;
    modify (upd_box_bounds (fun b =>
      {| xlo := xlo b; xhi := PrimFloat.add v padding; ylo := ylo b;
         yhi := yhi b; zlo := zlo b; zhi := zhi b |})) ;;;
    v <- py_min y_coords ;;
    modify (upd_box_bounds (fun b =>
      {| xlo := xlo b; xhi := xhi b; ylo := PrimFloat.sub v padding;
         yhi := yhi b; zlo := zlo b; zhi := zhi b |})) ;;;
    v <- py_max y_coords ;;
    modify (upd_box_bounds (fun b =>
      {| xlo := xlo b; xhi := xhi b; ylo := ylo b;
         yhi := PrimFloat.add v padding; zlo := zlo b; zhi := zhi b |})) ;;;
    v <- py_min z_coords ;;
    modify (upd_box_bounds (fun b =>
      {| xlo := xlo b; xhi := xhi b; ylo := ylo b;
         yhi := yhi b; zlo := PrimFloat.sub v padding; zhi := zhi b |})) ;;;
    v <- py_max z_coords ;;
    modify (upd_box_bounds (fun b =>
      {| xlo := xlo b; xhi := xhi b; ylo := ylo b;
         yhi := yhi b; zlo := zlo b; zhi := PrimFloat.add v padding |}))
  end.

(** [parse_xsd], applied to the root of the parsed document. *)
Definition parse_xsd (root : Element) : M Converter Z :=
  let atoms_list := select_elements "Atom3d" root in
  for_each (fun '(idx, atom_elem) => parse_atom idx atom_elem)
           (enumerate 1 atoms_list) ;;;
  extract_bonds_from_bond_elements root ;;;
  calculate_box_bounds ;;;
  ats <- gets atoms ;;
  ret (Dict.len ats).

(** The same pipeline on the two element lists [parse_xsd] selects. *)
Definition parse_elements (atoms_list bonds_list : list Element) : M Converter Z :=
  for_each (fun '(idx, atom_elem) => parse_atom idx atom_elem)
           (enumerate 1 atoms_list) ;;;
  (for_fold bond_step bonds_list (1, ∅) ;;; ret tt) ;;;
  calculate_box_bounds ;;;
  ats <- gets atoms ;;
  ret (Dict.len ats).
End Parse.

(** ** Writing the data file *)

(** The object together with the files written so far. *)
Record World : Type := {
  self : Converter;
  fs : gmap string string
}.

(** [open(path, 'w')] truncates; [f.write(s)] appends. *)
Definition fopen (path : string) : M World unit :=
  modify (fun w => {| self := self w; fs := <[path := ""]> (fs w) |}).

Definition fwrite (path s : string) : M World unit :=
  modify (fun w => {| self := self w; fs := alter (fun old => old ++ s) path (fs w) |}).

Definition nl : string := String "010"%char "".

(** [str(n)] and the rendering of a possibly-[None] integer in an f-string. *)
Definition py_str (n : Z) : string := pretty n.
Definition py_str_opt (n : option Z) : string :=
  match n with Some v => py_str v | None => "None" end.

Definition is_ascii_letter (c : ascii) : bool :=
  let n := N_of_ascii c in
  ((65 <=? n) && (n <=? 90) || (97 <=? n) && (n <=? 122))%N.

Definition upper_char (c : ascii) : ascii :=
  let n := N_of_ascii c in
  if ((97 <=? n) && (n <=? 122))%N then ascii_of_N (n - 32) else c.

Definition lower_char (c : ascii) : ascii :=
  let n := N_of_ascii c in
  if ((65 <=? n) && (n <=? 90))%N then ascii_of_N (n + 32) else c.

Fixpoint string_filter (p : ascii -> bool) (s : string) : string :=
  match s with
  | EmptyString => EmptyString
  | String c s' => if p c then String c (string_filter p s') else string_filter p s'
  end.

Fixpoint string_map (f : ascii -> ascii) (s : string) : string :=
  match s with
  | EmptyString => EmptyString
  | String c s' => String (f c) (string_map f s')
  end.

(** [re.sub(r'[^a-zA-Z]', '', s)] *)
Definition letters_only (s : string) : string := string_filter is_ascii_letter s.

(** [s[0].upper()] of a non-empty string of letters. *)
Definition first_upper (s : string) : string :=
  match s with
  | EmptyString => EmptyString
  | String c _ => String (upper_char c) ""
  end.

(** [s[:2].capitalize()] of a string of letters. *)
Definition first2_capitalize (s : string) : string :=
  match s with
  | EmptyString => EmptyString
  | String c EmptyString => String (upper_char c) ""
  | String c (String c' _) => String (upper_char c) (String (lower_char c') "")
  end.

Definition atomic_masses : dict string float :=
  [("H", 1.008); ("C", 12.011); ("N", 14.007); ("O", 15.999);
   ("S", 32.065); ("P", 30.974); ("Cl", 35.45); ("F", 18.998);
   ("Br", 79.904); ("I", 126.904); ("Na", 22.990); ("K", 39.098);
   ("Ca", 40.078); ("Mg", 24.305); ("Al", 26.982); ("Si", 28.085)]%float.

(** Lines 244-251: the mass written for an atom-type key. *)
Definition mass_of_type (ff_type : string) : float :=
  let element := letters_only ff_type in
  let element := match element with EmptyString => "X" | _ => element end in
  let elem_key :=
    if (String.length element =? 1)%nat then first_upper element
    else first2_capitalize element in
  let elem_key :=
    if Dict.mem elem_key atomic_masses then elem_key else first_upper element in
  default 12.0%float (Dict.get elem_key atomic_masses).

(** [sorted(l, key=...)] is stable: an item goes before the sorted items whose
    key is not smaller. *)
Fixpoint insert_by {A} (key : A -> Z) (v : A) (l : list A) : list A :=
  match l with
  | [] => [v]
  | y :: l' => if Z.ltb (key y) (key v) then y :: insert_by key v l' else v :: y :: l'
  end.

Definition py_sorted_by {A} (key : A -> Z) (l : list A) : list A :=
  fold_right (insert_by key) [] l.

(** [sorted(l, key=lambda v: d[v])]: the keys are computed first and may raise. *)
Definition sorted_by_lookup {S K} `{EqDecision K} (d : dict K Z) (l : list K)
    : M S (list K) :=
  decorated <- for_fold (fun acc v => k <- getitem v d ;; ret (acc ++ [(v, k)])%list) l [] ;;
  ret (map fst (py_sorted_by snd decorated)).

Section Write.
Context `{Builtins}.

Definition mass_row (atom_type_id : Z) (ff_type : string) : string :=
  py_str atom_type_id ++ " " ++ py_format_f 3 (mass_of_type ff_type)
    ++ "  # " ++ ff_type ++ nl.

Definition bond_type_row (item : string * string * string * Z) : string :=
  let '(elem1, elem2, order, bond_num) := item in
  "#   Type " ++ py_str bond_num ++ ": " ++ elem1 ++ "-" ++ elem2
    ++ " (" ++ order ++ ")" ++ nl.

Definition atom_row (atom_idx : Z) (atom : Atom) : string :=
  py_str atom_idx ++ " 1 " ++ py_str_opt (a_atom_type atom) ++ " "
    ++ py_format_f 6 (a_charge atom) ++ " "
    ++ py_format_f 8 (a_x atom) ++ " " ++ py_format_f 8 (a_y atom) ++ " "
    ++ py_format_f 8 (a_z atom) ++ nl.

Definition bond_row (bond : Bond) : string :=
  py_str (b_id bond) ++ " " ++ py_str (b_type bond) ++ " "
    ++ py_str (b_atom1 bond) ++ " " ++ py_str (b_atom2 bond) ++ nl.

(** [write_lammps_data] *)
Definition write_lammps_data (output_file : string) : M World unit :=
  let f := output_file in
  fopen f ;;;
  fwrite f ("LAMMPS data file - converted from XSD" ++ nl) ;;;
  fwrite f nl ;;;
  c <- gets self ;;
  fwrite f (py_str (Dict.len (atoms c)) ++ " atoms" ++ nl) ;;;
  fwrite f (py_str (Z.of_nat (length (bonds c))) ++ " bonds" ++ nl) ;;;
  fwrite f (py_str (Z.of_nat (length (angles c))) ++ " angles" ++ nl) ;;;
  fwrite f (py_str (Z.of_nat (length (dihedrals c))) ++ " dihedrals" ++ nl) ;;;
  fwrite f ("0 impropers" ++ nl) ;;;
  fwrite f nl ;;;
  fwrite f (py_str (Dict.len (atom_types c)) ++ " atom types" ++ nl) ;;;
  fwrite f (py_str (Dict.len (bond_types c)) ++ " bond types" ++ nl) ;;;
  fwrite f (py_str (Dict.len (angle_types c)) ++ " angle types" ++ nl) ;;;
  fwrite f (py_str (Dict.len (dihedral_types c)) ++ " dihedral types" ++ nl) ;;;
  fwrite f nl ;;;
  b <- gets (fun w => box_bounds (self w)) ;;
  fwrite f (py_format_f 6 (xlo b) ++ " " ++ py_format_f 6 (xhi b) ++ " xlo xhi" ++ nl) ;;;
  fwrite f (py_format_f 6 (ylo b) ++ " " ++ py_format_f 6 (yhi b) ++ " ylo yhi" ++ nl) ;;;
  fwrite f (py_format_f 6 (zlo b) ++ " " ++ py_format_f 6 (zhi b) ++ " zlo zhi" ++ nl) ;;;
  fwrite f nl ;;;
  fwrite f ("Masses" ++ nl) ;;;
  fwrite f nl ;;;
  tys <- gets (fun w => atom_types (self w)) ;;
  ff_types <- sorted_by_lookup tys (Dict.keys tys) ;;
  for_each (fun ff_type =>
      tys <- gets (fun w => atom_types (self w)) ;;
      atom_type_id <- getitem ff_type tys ;;
      fwrite f (mass_row atom_type_id ff_type)) ff_types ;;;
  fwrite f nl ;;;
  btys <- gets (fun w => bond_types (self w)) ;;
  (match btys with
   | [] => ret tt
   | _ =>
     fwrite f ("# Bond Types Reference:" ++ nl) ;;;
     for_each (fun item => fwrite f (bond_type_row item)) (py_sorted_by snd btys) ;;;
     fwrite f nl
   end) ;;;
  fwrite f ("Atoms" ++ nl) ;;;
  fwrite f nl ;;;
  ats <- gets (fun w => atoms (self w)) ;;
  for_each (fun atom_idx =>
      ats <- gets (fun w => atoms (self w)) ;;
      atom <- getitem atom_idx ats ;;
      fwrite f (atom_row atom_idx atom)) (py_sorted_by id (Dict.keys ats)) ;;;
  fwrite f nl ;;;
  bs <- gets (fun w => bonds (self w)) ;;
  match bs with
  | [] => ret tt
  | _ =>
    fwrite f ("Bonds" ++ nl) ;;;
    fwrite f nl ;;;
    for_each (fun bond => fwrite f (bond_row bond)) bs ;;;
    fwrite f nl
  end.
End Write.

(** ** The batch driver, for one file *)

(** [s.replace(old, new)] for a non-empty [old]: occurrences are replaced
    left to right without overlap; [skip] counts the characters of an
    occurrence still to be dropped. *)
Fixpoint replace_from (skip : nat) (old new s : string) : string :=
  match s with
  | EmptyString => EmptyString
  | String c s' =>
      match skip with
      | S k => replace_from k old new s'
      | O =>
          if String.prefix old s
          then new ++ replace_from (String.length old - 1) old new s'
          else String c (replace_from O old new s')
      end
  end.

Definition py_replace (old new s : string) : string := replace_from O old new s.

Section Driver.
Context `{Builtins}.

(** The [try] block of [convert_all_xsd.main] for one input whose XML parses
    to [root]: the result is the flag stored in [results] and the files. *)
Definition convert_one (xsd_file : string) (root : Element)
    (files : gmap string string) : bool * gmap string string :=
  match parse_xsd root (init xsd_file) with
  | (inl _, _) => (false, files)
  | (inr num_atoms, converter) =>
      let output_file := py_replace ".xsd" ".data" xsd_file in
      match write_lammps_data output_file {| self := converter; fs := files |} with
      | (inl _, w) => (false, fs w)
      | (inr _, w) => (true, fs w)
      end
  end.
End Driver.

(** ** Reference built-ins for ASCII text

    Instances of the built-ins used to run the model on concrete documents.
    They cover ASCII input: blanks, an optional sign and decimal digits for
    [int]; plain decimal literals of at most fifteen digits for [float], where
    one division of two exactly represented integers is correctly rounded.
    The [:.nf] rendering is exact for every binary64 value. *)
Module Ref.

Definition is_space (c : ascii) : bool :=
  let n := N_of_ascii c in
  ((n =? 32) || (9 <=? n) && (n <=? 13) || (28 <=? n) && (n <=? 31))%N.

Fixpoint lstrip (s : string) : string :=
  match s with
  | String c s' => if is_space c then lstrip s' else s
  | EmptyString => EmptyString
  end.

Definition strip (s : string) : string :=
  String.rev (lstrip (String.rev (lstrip s))).

Definition digit (c : ascii) : option Z :=
  let n := Z.of_N (N_of_ascii c) in
  if ((48 <=? n) && (n <=? 57))%Z then Some (n - 48) else None.

(** The value of a non-empty run of digits, with [acc] read so far. *)
Fixpoint digits_from (acc : Z) (s : string) : option Z :=
  match s with
  | EmptyString => Some acc
  | String c s' => d ← digit c; digits_from (10 * acc + d) s'
  end.

Definition natural (s : string) : option Z :=
  match s with
  | EmptyString => None
  | _ => digits_from 0 s
  end.

(** A sign and the rest of the literal. *)
Definition signed (s : string) : bool * string :=
  match s with
  | String "-" s' => (true, s')
  | String "+" s' => (false, s')
  | _ => (false, s)
  end.

Definition to_int (s : string) : option Z :=
  let '(neg, body) := signed (strip s) in
  n ← natural body; Some (if neg then - n else n).

(** [digits] | [digits.digits] | [digits.] | [.digits] *)
Definition to_float (s : string) : option float :=
  let '(neg, body) := signed (strip s) in
  match split_on "." body with
  | [ip] => Some (ip, "")
  | [ip; fp] => Some (ip, fp)
  | _ => None
  end ≫= fun '(ip, fp) =>
  let all := ip ++ fp in
  n ← natural all;
  if (15 <? String.length all)%nat then None
  else
    let q := PrimFloat.div (of_uint63 (Uint63.of_Z n))
               (of_uint63 (Uint63.of_Z (10 ^ Z.of_nat (String.length fp)))) in
    Some (if neg then PrimFloat.opp q else q).

(** [n] rounded to the nearest multiple of [d], ties to even, over [d]. *)
Definition div_half_even (n d : Z) : Z :=
  let q := n / d in
  let r := n mod d in
  if (2 * r <? d)%Z then q
  else if (d <? 2 * r)%Z then q + 1
  else if Z.even q then q else q + 1.

(** [s] padded on the left with zeros to [width] characters. *)
Definition zero_pad (width : nat) (s : string) : string :=
  String.concat "" (repeat "0" (width - String.length s)) ++ s.

Definition fixed (neg : bool) (n : nat) (scaled : Z) : string :=
  let unit := 10 ^ Z.of_nat n in
  (if neg then "-" else "") ++ pretty (scaled / unit)
    ++ match n with
       | O => ""
       | _ => "." ++ zero_pad n (pretty (scaled mod unit))
       end.

Definition format_f (n : nat) (v : float) : string :=
  match Prim2SF v with
  | S754_nan => "nan"
  | S754_infinity neg => if neg then "-inf" else "inf"
  | S754_zero neg => fixed neg n 0
  | S754_finite neg m e =>
      let num := Z.pos m * 10 ^ Z.of_nat n in
      fixed neg n (if (0 <=? e)%Z then num * 2 ^ e else div_half_even num (2 ^ (- e)))
  end.

#[export] Instance builtins : Builtins := {|
  py_int := to_int;
  py_float := to_float;
  py_strip := strip;
  py_format_f := format_f
|}.
End Ref.

(** The text of a file written chunk by chunk. *)
Definition join (chunks : list string) : string := fold_right append "" chunks.

(** The keys [l] paired with their values in [d], as [sorted] decorates them. *)
Definition decorate {K} `{EqDecision K} (d : dict K Z) (l : list K) : list (K * Z) :=
  map (fun k => (k, default 0 (Dict.get k d))) l.

(** [sorted(d.keys(), key=lambda k: d[k])] *)
Definition by_number {K} `{EqDecision K} (d : dict K Z) : list K :=
  map fst (py_sorted_by snd (decorate d (Dict.keys d))).

Section Text.
Context `{Builtins}.

Definition masses_section (c : Converter) : list string :=
  omap (fun ff_type => (fun t => mass_row t ff_type) <$> Dict.get ff_type (atom_types c))
       (by_number (atom_types c)).

Definition bond_types_section (c : Converter) : list string :=
  match bond_types c with
  | [] => []
  | _ => ["# Bond Types Reference:" ++ nl]%string
         ++ map bond_type_row (py_sorted_by snd (bond_types c)) ++ [nl]
  end%list.

(** The rows written under [Atoms]. *)
Definition atoms_section (c : Converter) : list string :=
  omap (fun atom_idx => atom_row atom_idx <$> Dict.get atom_idx (atoms c))
       (py_sorted_by id (Dict.keys (atoms c))).

(** The rows written under [Bonds]. *)
Definition bonds_rows (c : Converter) : list string := map bond_row (bonds c).

Definition bonds_section (c : Converter) : list string :=
  match bonds c with
  | [] => []
  | _ => ["Bonds" ++ nl; nl]%string ++ bonds_rows c ++ [nl]
  end%list.

Definition header_section (c : Converter) : list string :=
  let b := box_bounds c in
  ["LAMMPS data file - converted from XSD" ++ nl; nl;
   py_str (Dict.len (atoms c)) ++ " atoms" ++ nl;
   py_str (Z.of_nat (length (bonds c))) ++ " bonds" ++ nl;
   py_str (Z.of_nat (length (angles c))) ++ " angles" ++ nl;
   py_str (Z.of_nat (length (dihedrals c))) ++ " dihedrals" ++ nl;
   "0 impropers" ++ nl; nl;
   py_str (Dict.len (atom_types c)) ++ " atom types" ++ nl;
   py_str (Dict.len (bond_types c)) ++ " bond types" ++ nl;
   py_str (Dict.len (angle_types c)) ++ " angle types" ++ nl;
   py_str (Dict.len (dihedral_types c)) ++ " dihedral types" ++ nl; nl;
   py_format_f 6 (xlo b) ++ " " ++ py_format_f 6 (xhi b) ++ " xlo xhi" ++ nl;
   py_format_f 6 (ylo b) ++ " " ++ py_format_f 6 (yhi b) ++ " ylo yhi" ++ nl;
   py_format_f 6 (zlo b) ++ " " ++ py_format_f 6 (zhi b) ++ " zlo zhi" ++ nl; nl]%string.

(** Everything [write_lammps_data] writes, in order. *)
Definition file_chunks (c : Converter) : list string :=
  (header_section c
   ++ ["Masses" ++ nl; nl]%string ++ masses_section c ++ [nl]
   ++ bond_types_section c
   ++ ["Atoms" ++ nl; nl]%string ++ atoms_section c ++ [nl]
   ++ bonds_section c)%list.
End Text.

(** A computation over the object and the files leaves the object alone,
    whether it returns or raises. *)
Definition reads_only {A} (m : M World A) : Prop :=
  ∀ w, self (m w).2 = self w.

(** The files after [s] is appended to [path]. *)
Definition append_file (path s : string) (w : World) : World :=
  {| self := self w; fs := alter (fun old => old ++ s)%string path (fs w) |}.

(** The object [c] and the files [m], with [chunks] written to [path] so far. *)
Definition writing (path : string) (c : Converter) (m : gmap string string)
    (chunks : list string) : World :=
  {| self := c; fs := <[path := join chunks]> m |}.

(** ** The element symbol as the specification words it

    Prefer the text of a child Components element when that child exists and
    its text is non-empty; otherwise the Components attribute; otherwise X. *)
Definition spec_components_child (atom_elem : Element) : option Element :=
  head (List.filter (fun e => tag_is "Components" e || tag_is (ns ++ "Components") e)
                    (children atom_elem)).

Definition spec_resolve_element (atom_elem : Element) : string :=
  match spec_components_child atom_elem ≫= text with
  | Some (String c t) => String c t
  | _ => attr_or "Components" "X" atom_elem
  end.

(** ** Documents used in the examples *)

Definition attrs (l : list (string * string)) : gmap string string := list_to_map l.

(** Two atoms with source IDs 5 and 9, carbon and hydrogen, and one bond. *)
Definition scenario_doc : Element :=
  Elem "XSD" (attrs [("Version", "4.0")]) None
    [Elem "AtomisticTreeRoot" (attrs [("ID", "1")]) None
      [Elem "Molecule" (attrs [("ID", "2")]) None
        [Elem "Atom3d" (attrs [("ID", "5"); ("Components", "C")]) None [];
         Elem "Atom3d" (attrs [("ID", "9"); ("Components", "H")]) None [];
         Elem "Bond" (attrs [("ID", "10"); ("Connects", "5,9"); ("Type", "Single")])
              None []]]].

(** An atom whose namespaced Components child is empty, with the attribute. *)
Definition empty_child_atom : Element :=
  Elem (ns ++ "Atom3d") (attrs [("ID", "5"); ("Components", "C")]) None
    [Elem (ns ++ "Components") ∅ None []].

(** The scenario with an unreadable position on the first atom. *)
Definition bad_xyz_atom : Element :=
  Elem "Atom3d" (attrs [("ID", "5"); ("Components", "C"); ("XYZ", "bad,data")]) None [].

Definition bad_xyz_doc : Element :=
  Elem "XSD" ∅ None
    [bad_xyz_atom;
     Elem "Atom3d" (attrs [("ID", "9"); ("Components", "H"); ("XYZ", "1.5,-2,0.25")])
          None [];
     Elem "Bond" (attrs [("Connects", "5,9")]) None []].

(** The scenario with a bond to a source ID no atom has, and a repeated bond. *)
Definition dangling_bond : Element :=
  Elem "Bond" (attrs [("Connects", "5,77"); ("Type", "Double")]) None [].

Definition dangling_doc : Element :=
  Elem "XSD" ∅ None
    [Elem "Atom3d" (attrs [("ID", "5"); ("Components", "C")]) None [];
     Elem "Atom3d" (attrs [("ID", "9"); ("Components", "H")]) None [];
     dangling_bond;
     Elem "Bond" (attrs [("Connects", "9,5"); ("Type", "Single")]) None [];
     Elem "Bond" (attrs [("Connects", "5,9"); ("Type", "Single")]) None []].

(** An atom element without a source ID. *)
Definition anonymous_atom : Element :=
  Elem "Atom3d" (attrs [("Components", "O")]) None [].

Definition anonymous_doc : Element :=
  Elem "XSD" ∅ None
    [Elem "Atom3d" (attrs [("ID", "5"); ("Components", "C")]) None [];
     anonymous_atom].

(** ** Vocabulary of the statements *)

(** The distinct keys of a sequence, in order of first appearance. *)
Definition first_seen {K} `{EqDecision K} (ks : list K) : list K :=
  fold_left (fun acc k => if decide (k ∈ acc) then acc else acc ++ [k])%list ks [].

(** The keys [ds] numbered 1, 2, ... in order. *)
Definition numbered {K} (ds : list K) : dict K Z :=
  zip ds (seqZ 1 (Z.of_nat (length ds))).

(** The interning table a run over the keys [ks] builds. *)
Definition intern_table {K} `{EqDecision K} (ks : list K) : dict K Z :=
  numbered (first_seen ks).

Definition zero_box : Box :=
  {| xlo := 0%float; xhi := 0%float; ylo := 0%float;
     yhi := 0%float; zlo := 0%float; zhi := 0%float |}.

(** [m] is an item of [l] that no item is strictly below (above). *)
Definition is_min (m : float) (l : list float) : Prop :=
  m ∈ l ∧ ∀ v, v ∈ l → PrimFloat.ltb v m = false.
Definition is_max (m : float) (l : list float) : Prop :=
  m ∈ l ∧ ∀ v, v ∈ l → PrimFloat.ltb m v = false.

(** The two endpoints of a stored bond. *)
Definition endpoints (b : Bond) : Z * Z := (b_atom1 b, b_atom2 b).

(** The object [c] with the stored bonds [bs] and the bond types they intern. *)
Definition with_bonds (c : Converter) (bs : list Bond) : Converter :=
  {| xsd_file := xsd_file c; atoms := atoms c;
     bonds := bs;
     angles := angles c; dihedrals := dihedrals c;
     atom_types := atom_types c;
     bond_types := intern_table (map b_elements bs);
     angle_types := angle_types c; dihedral_types := dihedral_types c;
     atom_type_counter := atom_type_counter c;
     bond_type_counter := Dict.len (intern_table (map b_elements bs));
     angle_type_counter := angle_type_counter c;
     dihedral_type_counter := dihedral_type_counter c;
     box_bounds := box_bounds c;
     xsd_id_to_lammps_idx := xsd_id_to_lammps_idx c |}.

(** What holds of the bonds stored over the atoms [ats]. *)
Record bonds_ok (ats : dict Z Atom) (bs : list Bond) : Prop := {
  ids_ok : map b_id bs = seqZ 1 (Z.of_nat (length bs));
  pairs_ok : NoDup (map endpoints bs);
  bond_ok : ∀ b, b ∈ bs →
    b_atom1 b <= b_atom2 b ∧
    (∃ a1 a2, Dict.get (b_atom1 b) ats = Some a1 ∧
              Dict.get (b_atom2 b) ats = Some a2 ∧
              b_elements b = bond_type_key (a_element a1) (a_element a2) (b_order b)) ∧
    Dict.get (b_elements b) (intern_table (map b_elements bs)) = Some (b_type b)
}.

(** Every source ID in the lookup leads to a stored atom. *)
Definition ids_resolve (c : Converter) : Prop :=
  ∀ n i, xsd_id_to_lammps_idx c !! n = Some i → is_Some (Dict.get i (atoms c)).


(** [min] and [max] of a non-empty list of floats, from its first item. *)
Definition fold_min (v : float) (l : list float) : float :=
  fold_left (fun m v => if PrimFloat.ltb v m then v else m) l v.
Definition fold_max (v : float) (l : list float) : float :=
  fold_left (fun m v => if PrimFloat.ltb m v then v else m) l v.

(** The box around the atoms [ats], or [b] when there are none. *)
Definition box_around (ats : list Atom) (b : Box) : Box :=
  match ats with
  | [] => b
  | a :: ats' =>
      {| xlo := PrimFloat.sub (fold_min (a_x a) (map a_x ats')) 10%float;
         xhi := PrimFloat.add (fold_max (a_x a) (map a_x ats')) 10%float;
         ylo := PrimFloat.sub (fold_min (a_y a) (map a_y ats')) 10%float;
         yhi := PrimFloat.add (fold_max (a_y a) (map a_y ats')) 10%float;
         zlo := PrimFloat.sub (fold_min (a_z a) (map a_z ats')) 10%float;
         zhi := PrimFloat.add (fold_max (a_z a) (map a_z ats')) 10%float |}
  end.

(** The loop locals after the bonds [bs] were stored. *)
Definition bond_locals (bs : list Bond) : Z * gset (Z * Z) :=
  (Z.of_nat (length bs) + 1, list_to_set (map endpoints bs)).

Section Vocabulary.
Context `{Builtins}.

(** What one atom element contributes. *)
Definition source_id (e : Element) : option Z := attr "ID" e ≫= py_int.

Definition charge_of (e : Element) : option float :=
  match attr "Charge" e with
  | None => Some 0%float
  | Some s => py_float s
  end.

Definition type_key_of (e : Element) : string :=
  atom_type_key (attr_or "ForcefieldType" "unknown" e) (resolve_element e).

Definition position_of (e : Element) : float * float * float :=
  parse_xyz (attr_or "XYZ" "0,0,0" e).

(** The atom element can be read: its ID and charge convert. *)
Definition readable (e : Element) : bool :=
  bool_decide (is_Some (source_id e)) && bool_decide (is_Some (charge_of e)).

(** The record stored for a readable atom element under the table [tbl]. *)
Definition record_of (tbl : dict string Z) (e : Element) : Atom :=
  {| a_id := default "" (attr "ID" e);
     a_name := attr "Name" e;
     a_element := resolve_element e;
     a_forcefield_type := attr_or "ForcefieldType" "unknown" e;
     a_charge := default 0%float (charge_of e);
     a_x := (position_of e).1.1;
     a_y := (position_of e).1.2;
     a_z := (position_of e).2;
     a_atom_type := Dict.get (type_key_of e) tbl;
     a_type_key := Some (type_key_of e) |}.

(** The source-ID lookup after the atoms [es], numbered from [start]. *)
Definition id_map (start : Z) (es : list Element) : gmap Z Z :=
  fold_left (fun m '(idx, e) => <[default 0 (source_id e) := idx]> m)
            (enumerate start es) ∅.

(** The object after the atom loop over readable elements [es]. *)
Definition atoms_state (path : string) (es : list Element) : Converter :=
  let tbl := intern_table (map type_key_of es) in
  {| xsd_file := path;
     atoms := enumerate 1 (map (record_of tbl) es);
     bonds := []; angles := []; dihedrals := [];
     atom_types := tbl;
     bond_types := []; angle_types := []; dihedral_types := [];
     atom_type_counter := Dict.len tbl;
     bond_type_counter := 0; angle_type_counter := 0;
     dihedral_type_counter := 0;
     box_bounds := zero_box;
     xsd_id_to_lammps_idx := id_map 1 es |}.

(** The object after one more readable atom. *)
Definition store_atom (idx : Z) (e : Element) (c : Converter) : Converter :=
  let key := type_key_of e in
  let known := Dict.mem key (atom_types c) in
  let counter := if known then atom_type_counter c else atom_type_counter c + 1 in
  let tbl := if known then atom_types c else Dict.set key counter (atom_types c) in
  {| xsd_file := xsd_file c;
     atoms := Dict.set idx (record_of tbl e) (atoms c);
     bonds := bonds c; angles := angles c; dihedrals := dihedrals c;
     atom_types := tbl;
     bond_types := bond_types c; angle_types := angle_types c;
     dihedral_types := dihedral_types c;
     atom_type_counter := counter;
     bond_type_counter := bond_type_counter c;
     angle_type_counter := angle_type_counter c;
     dihedral_type_counter := dihedral_type_counter c;
     box_bounds := box_bounds c;
     xsd_id_to_lammps_idx := <[default 0 (source_id e) := idx]> (xsd_id_to_lammps_idx c) |}.

(** The object [parse_xsd] leaves for readable atoms [es] and stored
    bonds [bs]. *)
Definition final_state (path : string) (es : list Element) (bs : list Bond)
    : Converter :=
  let c0 := atoms_state path es in
  upd_box_bounds (box_around (Dict.values (atoms c0))) (with_bonds c0 bs).

(** The source IDs a bond element names, when there are exactly two. *)
Definition connects_of (e : Element) : option (Z * Z) :=
  match mapM (fun p => py_int (py_strip p)) (split_on "," (attr_or "Connects" "" e)) with
  | Some [i; j] => Some (i, j)
  | _ => None
  end.

(** The object after one more accepted bond between the atoms [a1] and
    [a2] of dense indices [i1] and [i2]. *)
Definition add_bond (bond_id i1 i2 : Z) (a1 a2 : Atom) (bond_order : string)
    (c : Converter) : Converter :=
  let key := bond_type_key (a_element a1) (a_element a2) bond_order in
  let known := Dict.mem key (bond_types c) in
  let counter := if known then bond_type_counter c else bond_type_counter c + 1 in
  let tbl := if known then bond_types c else Dict.set key counter (bond_types c) in
  {| xsd_file := xsd_file c; atoms := atoms c;
     bonds := bonds c ++
       [{| b_id := bond_id; b_type := default 0 (Dict.get key tbl);
           b_atom1 := (sorted2 Z.ltb i1 i2).1; b_atom2 := (sorted2 Z.ltb i1 i2).2;
           b_order := bond_order; b_elements := key |}];
     angles := angles c; dihedrals := dihedrals c;
     atom_types := atom_types c;
     bond_types := tbl;
     angle_types := angle_types c; dihedral_types := dihedral_types c;
     atom_type_counter := atom_type_counter c;
     bond_type_counter := counter;
     angle_type_counter := angle_type_counter c;
     dihedral_type_counter := dihedral_type_counter c;
     box_bounds := box_bounds c;
     xsd_id_to_lammps_idx := xsd_id_to_lammps_idx c |}.

(** The XYZ attribute does not read as three floats. *)
Definition bad_xyz (e : Element) : Prop :=
  ∀ x y z, map py_float (split_on "," (attr_or "XYZ" "0,0,0" e))
           ≠ [Some x; Some y; Some z].
(** The bond element [e] names two source IDs that lead to the pair [p]. *)
Definition resolves_to (ids : gmap Z Z) (e : Element) (p : Z * Z) : Prop :=
  ∃ i j i1 i2, connects_of e = Some (i, j) ∧ ids !! i = Some i1 ∧ ids !! j = Some i2
               ∧ p = sorted2 Z.ltb i1 i2.

(** How the bonds [bs] stored so far come from the elements [l] read so far. *)
Definition traced (ids : gmap Z Z) (l : list Element) (bs : list Bond) : Prop :=
  (∀ b, b ∈ bs →
     ∃ l1 e l2, l = (l1 ++ e :: l2)%list ∧ resolves_to ids e (endpoints b)
                ∧ b_order b = default "Single" (attr "Type" e)
                ∧ ∀ e', e' ∈ l1 → ¬ resolves_to ids e' (endpoints b))
  ∧ (∀ e p, e ∈ l → resolves_to ids e p → p ∈ map endpoints bs)
  ∧ (length bs <= length l)%nat.

End Vocabulary.

(** ** The batch driver, for a directory *)

Section Batch.
Context `{Builtins}.

(** [ET.parse] on the text of a file: [None] when it is not well-formed XML. *)
Variable parse_xml : string -> option Element.

(** One turn of the loop at lines 29-56 of [convert_all_xsd.py]. The file is
    read when its turn comes; a missing or malformed file raises inside the
    [try], as a failed parse does. *)
Definition convert_file (xsd_file : string) (files : gmap string string)
    : bool * gmap string string :=
  match files !! xsd_file ≫= parse_xml with
  | None => (false, files)
  | Some root => convert_one xsd_file root files
  end.

(** The loop of [main] over [xsd_files], the sorted names [glob] found: the
    [results] dictionary and the files at the end. *)
Definition run_batch (xsd_files : list string) (files : gmap string string)
    : dict string bool * gmap string string :=
  fold_left (fun '(results, files) xsd_file =>
               let '(ok, files') := convert_file xsd_file files in
               (Dict.set xsd_file ok results, files'))
            xsd_files ([], files).

(** [sum(1 for v in results.values() if v)] and [len(results)] *)
Definition passed (results : dict string bool) : Z :=
  Z.of_nat (length (List.filter (fun v : bool => v) (Dict.values results))).

Definition total (results : dict string bool) : Z := Dict.len results.
End Batch.

(** * Properties *)

Open Scope list_scope.

(** ** The monad *)

Lemma for_fold_app {S B L} (body : L -> B -> M S L) (l1 l2 : list B) acc s :
  for_fold body (l1 ++ l2) acc s =
  match for_fold body l1 acc s with
  | (inl e, s') => (inl e, s')
  | (inr acc', s') => for_fold body l2 acc' s'
  end.
Proof.
  revert acc s. induction l1 as [|v l1 IH]; intros acc s; simpl; [done|].
  unfold bind. destruct (body acc v s) as [[e|acc'] s']; [done|]. apply IH.
Qed.

(** A loop whose body keeps an invariant and never raises runs to the end. *)
Lemma for_fold_invariant {S B L} (I : L -> S -> Prop) (body : L -> B -> M S L) l :
  (∀ acc v s, v ∈ l → I acc s → ∃ acc' s', body acc v s = (inr acc', s') ∧ I acc' s') →
  ∀ acc s, I acc s → ∃ acc' s', for_fold body l acc s = (inr acc', s') ∧ I acc' s'.
Proof.
  induction l as [|v l IH]; intros Hstep acc s HI; simpl.
  - by exists acc, s.
  - destruct (Hstep acc v s) as (acc1 & s1 & Hb & HI1); [left|done|].
    unfold bind. rewrite Hb. apply IH; [|done].
    intros acc2 v2 s2 Hin. apply Hstep. by right.
Qed.

(** ** Dictionaries *)

Section dict_facts.
Context {K V : Type} `{EqDecision K}.
Implicit Types (d : dict K V) (k : K) (v : V).

Lemma get_set_eq k v d : Dict.get k (Dict.set k v d) = Some v.
Proof.
  induction d as [|[k' v'] d IH]; simpl.
  - by rewrite decide_True.
  - destruct (decide (k = k')) as [->|Hne]; simpl.
    + by rewrite decide_True.
    + by rewrite decide_False.
Qed.

Lemma get_set_ne k k' v d : k ≠ k' → Dict.get k' (Dict.set k v d) = Dict.get k' d.
Proof.
  intros Hne. induction d as [|[k1 v1] d IH]; simpl.
  - by rewrite decide_False.
  - destruct (decide (k = k1)) as [->|Hne1]; simpl.
    + by rewrite !decide_False.
    + destruct (decide (k' = k1)); [done|apply IH].
Qed.

Lemma set_set k v v' d : Dict.set k v (Dict.set k v' d) = Dict.set k v d.
Proof.
  induction d as [|[k1 v1] d IH]; simpl.
  - by rewrite decide_True.
  - destruct (decide (k = k1)) as [->|Hne]; simpl.
    + by rewrite decide_True.
    + rewrite decide_False by done. by rewrite IH.
Qed.

Lemma get_None k d : Dict.get k d = None ↔ k ∉ Dict.keys d.
Proof.
  unfold Dict.keys. induction d as [|[k1 v1] d IH]; simpl.
  - split; [intros _; apply not_elem_of_nil|done].
  - rewrite not_elem_of_cons. destruct (decide (k = k1)); naive_solver.
Qed.

Lemma get_Some_keys k v d : Dict.get k d = Some v → k ∈ Dict.keys d.
Proof.
  intros Hg. destruct (decide (k ∈ Dict.keys d)) as [|Hn]; [done|].
  apply get_None in Hn. congruence.
Qed.

Lemma get_is_Some k d : k ∈ Dict.keys d → is_Some (Dict.get k d).
Proof.
  intros Hin. destruct (Dict.get k d) eqn:E; [by eexists|].
  by apply get_None in E.
Qed.

Lemma set_fresh k v d : Dict.get k d = None → Dict.set k v d = d ++ [(k, v)].
Proof.
  induction d as [|[k1 v1] d IH]; simpl; [done|].
  destruct (decide (k = k1)); [done|]. intros Hg. by rewrite IH.
Qed.

Lemma mem_true k d : Dict.mem k d = true ↔ k ∈ Dict.keys d.
Proof.
  unfold Dict.mem. destruct (Dict.get k d) eqn:E.
  - split; [intros _; by eapply get_Some_keys|done].
  - apply get_None in E. split; [done|tauto].
Qed.

Lemma get_app_l k d d' :
  k ∈ Dict.keys d → Dict.get k (d ++ d') = Dict.get k d.
Proof.
  unfold Dict.keys. induction d as [|[k1 v1] d IH]; simpl.
  - by intros ?%elem_of_nil.
  - intros Hin. destruct (decide (k = k1)); [done|].
    apply IH. apply elem_of_cons in Hin. naive_solver.
Qed.

Lemma get_app_r k d d' :
  k ∉ Dict.keys d → Dict.get k (d ++ d') = Dict.get k d'.
Proof.
  unfold Dict.keys. induction d as [|[k1 v1] d IH]; simpl; [done|].
  rewrite not_elem_of_cons. intros [Hne Hn].
  rewrite decide_False by done. by apply IH.
Qed.
End dict_facts.

(** ** Interning tables *)

Section intern_facts.
Context {K : Type} `{EqDecision K}.
Implicit Types (k : K) (ks ds : list K).

Lemma first_seen_snoc ks k :
  first_seen (ks ++ [k]) =
  if decide (k ∈ first_seen ks) then first_seen ks else first_seen ks ++ [k].
Proof. unfold first_seen. by rewrite fold_left_app. Qed.

Lemma first_seen_elem_of ks k : k ∈ first_seen ks ↔ k ∈ ks.
Proof.
  induction ks as [|k' ks IH] using rev_ind.
  - done.
  - rewrite first_seen_snoc, elem_of_app, list_elem_of_singleton.
    destruct (decide (k' ∈ first_seen ks)) as [Hin|Hn].
    + rewrite IH. split; [tauto|]. intros [?| ->]; [done|]. by apply IH.
    + rewrite elem_of_app, list_elem_of_singleton. by rewrite IH.
Qed.

Lemma first_seen_NoDup ks : NoDup (first_seen ks).
Proof.
  induction ks as [|k ks IH] using rev_ind.
  - constructor.
  - rewrite first_seen_snoc. case_decide; [done|].
    apply NoDup_app. split_and!; [done| |apply NoDup_singleton].
    intros x Hx ->%list_elem_of_singleton. done.
Qed.

Lemma numbered_snoc ds k :
  numbered (ds ++ [k]) = numbered ds ++ [(k, Z.of_nat (length ds) + 1)].
Proof.
  unfold numbered. rewrite length_app. simpl length.
  rewrite Nat2Z.inj_add. change (Z.of_nat 1) with 1.
  rewrite seqZ_app by lia. rewrite zip_with_app by (by rewrite length_seqZ, Nat2Z.id).
  f_equal. simpl. do 2 f_equal. lia.
Qed.

Lemma numbered_keys ds : Dict.keys (numbered ds) = ds.
Proof.
  unfold Dict.keys, numbered. apply fst_zip.
  rewrite length_seqZ. lia.
Qed.

Lemma numbered_length ds : length (numbered ds) = length ds.
Proof. by rewrite <-(numbered_keys ds) at 2; unfold Dict.keys; rewrite length_map. Qed.

(** The number of a key is its 1-based position among the distinct keys. *)
Lemma numbered_get ds (i : nat) k :
  NoDup ds → ds !! i = Some k → Dict.get k (numbered ds) = Some (Z.of_nat i + 1).
Proof.
  induction ds as [|k' ds IH] using rev_ind; [done|].
  intros Hnd Hl. rewrite numbered_snoc.
  apply NoDup_app in Hnd as (Hnd & Hdisj & _).
  destruct (decide (i < length ds)%nat) as [Hlt|Hge].
  - rewrite lookup_app_l in Hl by done.
    rewrite get_app_l; [by apply IH|].
    rewrite numbered_keys. by eapply list_elem_of_lookup_2.
  - rewrite lookup_app_r in Hl by lia.
    apply list_lookup_singleton_Some in Hl as [Hi ->].
    rewrite get_app_r.
    + simpl. rewrite decide_True by done. f_equal. lia.
    + rewrite numbered_keys. intros Hin. eapply Hdisj; [done|]. by left.
Qed.

(** One interning step, as lines 88-90 and 159-161 perform it. *)
Lemma intern_step ks k :
  (if Dict.mem k (intern_table ks) then intern_table ks
   else Dict.set k (Dict.len (intern_table ks) + 1) (intern_table ks))
  = intern_table (ks ++ [k]).
Proof.
  unfold intern_table. rewrite first_seen_snoc.
  destruct (Dict.mem k (numbered (first_seen ks))) eqn:E.
  - apply mem_true in E. rewrite numbered_keys in E. by rewrite decide_True.
  - assert (k ∉ first_seen ks) as Hn.
    { intros Hin. rewrite <-(numbered_keys (first_seen ks)) in Hin.
      apply mem_true in Hin. congruence. }
    rewrite decide_False by done. rewrite numbered_snoc.
    rewrite set_fresh.
    + unfold Dict.len. by rewrite numbered_length.
    + apply get_None. by rewrite numbered_keys.
Qed.

Lemma intern_table_get_snoc ks k k' :
  k' ∈ ks → Dict.get k' (intern_table (ks ++ [k])) = Dict.get k' (intern_table ks).
Proof.
  intros Hin. unfold intern_table. rewrite first_seen_snoc.
  case_decide; [done|]. rewrite numbered_snoc.
  apply get_app_l. rewrite numbered_keys. by apply first_seen_elem_of.
Qed.

Lemma intern_table_get_is_Some ks k :
  k ∈ ks → is_Some (Dict.get k (intern_table ks)).
Proof.
  intros Hin. apply get_is_Some. unfold intern_table.
  rewrite numbered_keys. by apply first_seen_elem_of.
Qed.
End intern_facts.

(** ** The atom loop *)

Lemma enumerate_app {A} (start : Z) (l1 l2 : list A) :
  enumerate start (l1 ++ l2) =
  enumerate start l1 ++ enumerate (start + Z.of_nat (length l1)) l2.
Proof.
  revert start. induction l1 as [|v l1 IH]; intros start; simpl.
  - f_equal. lia.
  - rewrite IH. do 3 f_equal. lia.
Qed.

Lemma enumerate_keys {A} (start : Z) (l : list A) :
  Dict.keys (enumerate start l) = seqZ start (Z.of_nat (length l)).
Proof.
  revert start. induction l as [|v l IH]; intros start; [done|].
  simpl length. rewrite Nat2Z.inj_succ, seqZ_cons by lia.
  unfold Dict.keys in *. simpl. rewrite IH. do 2 f_equal; lia.
Qed.


Lemma enumerate_length {A} (start : Z) (l : list A) :
  length (enumerate start l) = length l.
Proof. revert start. induction l; intros; simpl; auto. Qed.

Lemma enumerate_lookup {A} (start : Z) (l : list A) (i : nat) :
  enumerate start l !! i = (fun v => (start + Z.of_nat i, v)) <$> l !! i.
Proof.
  revert start i. induction l as [|v l IH]; intros start [|i]; simpl; try done.
  - do 2 f_equal. lia.
  - rewrite IH. destruct (l !! i); simpl; [|done]. do 2 f_equal. lia.
Qed.

Lemma enumerate_get {A} (start : Z) (l : list A) (i : nat) v :
  l !! i = Some v → Dict.get (start + Z.of_nat i) (enumerate start l) = Some v.
Proof.
  revert start i. induction l as [|w l IH]; intros start [|i]; simpl; try done.
  - intros [= ->]. rewrite decide_True by lia. done.
  - intros Hl. rewrite decide_False by lia.
    rewrite <-(IH (start + 1) i Hl). f_equal. lia.
Qed.

Section atom_loop.
Context `{Builtins}.

Lemma parse_atom_readable idx e c :
  readable e = true → parse_atom idx e c = (inr tt, store_atom idx e c).
Proof.
  unfold readable, source_id, charge_of. intros Hr.
  apply andb_true_iff in Hr as [[n Hn]%bool_decide_eq_true [q Hq]%bool_decide_eq_true].
  unfold parse_atom, store_atom, record_of, source_id, charge_of, position_of, type_key_of.
  destruct (attr "ID" e) as [s|] eqn:Hs; [|done]. simpl in Hn.
  unfold bind at 1. simpl. rewrite Hn. simpl.
  unfold bind at 1. simpl.
  unfold bind at 1. replace (float_of_attr (attr "Charge" e)) with (@ret Converter _ q).
  2:{ unfold float_of_attr. destruct (attr "Charge" e); [by rewrite Hq|congruence]. }
  simpl.
  destruct (parse_xyz (attr_or "XYZ" "0,0,0" e)) as [[x y] z] eqn:Hxyz.
  set (key := atom_type_key _ _).
  unfold bind, modify, gets, ret; simpl.
  destruct (Dict.mem key (atom_types c)) eqn:Hmem; simpl.
  - unfold getitem. destruct (Dict.get key (atom_types c)) as [t|] eqn:Ht.
    2:{ unfold Dict.mem in Hmem. by rewrite Ht in Hmem. }
    simpl. rewrite get_set_eq. simpl. unfold upd_atoms; simpl.
    rewrite set_set. unfold with_type; simpl. rewrite Hq. done.
  - unfold getitem. rewrite get_set_eq. simpl. rewrite get_set_eq. simpl.
    unfold upd_atoms; simpl. rewrite set_set. unfold with_type; simpl.
    rewrite Hq. done.
Qed.

Lemma parse_atom_unreadable idx e c :
  readable e = false → ∃ ex c', parse_atom idx e c = (inl ex, c').
Proof.
  unfold readable, source_id, charge_of, parse_atom. intros Hr.
  destruct (attr "ID" e) as [s|] eqn:Hs; simpl; [|by eexists _, _].
  unfold bind at 1. simpl in *.
  destruct (py_int s) as [n|] eqn:Hn; simpl; [|by eexists _, _].
  unfold bind at 1. simpl. unfold bind at 1.
  rewrite bool_decide_eq_true_2 in Hr by (by eexists). simpl in Hr.
  apply bool_decide_eq_false in Hr.
  destruct (attr "Charge" e) as [s'|]; simpl.
  - destruct (py_float s') eqn:Hq; [exfalso; apply Hr; by eexists|].
    by eexists _, _.
  - exfalso; apply Hr; by eexists.
Qed.
End atom_loop.

Section atom_loop_run.
Context `{Builtins}.

Lemma id_map_snoc start es e :
  id_map start (es ++ [e]) =
  <[default 0 (source_id e) := start + Z.of_nat (length es)]> (id_map start es).
Proof. unfold id_map. by rewrite enumerate_app, fold_left_app. Qed.

Lemma record_of_snoc es e e' :
  e' ∈ es →
  record_of (intern_table (map type_key_of (es ++ [e]))) e' =
  record_of (intern_table (map type_key_of es)) e'.
Proof.
  intros Hin. unfold record_of. f_equal.
  rewrite map_app. simpl. apply intern_table_get_snoc.
  apply list_elem_of_In, in_map, list_elem_of_In, Hin.
Qed.

Lemma store_atom_atoms_state path es e :
  store_atom (1 + Z.of_nat (length es)) e (atoms_state path es)
  = atoms_state path (es ++ [e]).
Proof.
  unfold store_atom, atoms_state. simpl.
  set (ks := map type_key_of es). set (k := type_key_of e).
  assert (map type_key_of (es ++ [e]) = ks ++ [k]) as -> by apply map_app.
  pose proof (intern_step ks k) as Hstep.
  assert ((if Dict.mem k (intern_table ks) then Dict.len (intern_table ks)
           else Dict.len (intern_table ks) + 1)
          = Dict.len (intern_table (ks ++ [k]))) as Hlen.
  { rewrite <-Hstep. destruct (Dict.mem k (intern_table ks)) eqn:E; [done|].
    rewrite set_fresh.
    - unfold Dict.len. rewrite length_app. simpl. lia.
    - unfold Dict.mem in E. by destruct (Dict.get k (intern_table ks)). }
  assert ((if Dict.mem k (intern_table ks) then intern_table ks
           else Dict.set k (if Dict.mem k (intern_table ks)
                            then Dict.len (intern_table ks)
                            else Dict.len (intern_table ks) + 1) (intern_table ks))
          = intern_table (ks ++ [k])) as Htbl.
  { rewrite <-Hstep. by destruct (Dict.mem k (intern_table ks)). }
  rewrite Htbl, Hlen. f_equal.
  - rewrite set_fresh.
    2:{ apply get_None. rewrite enumerate_keys, length_map.
        rewrite elem_of_seqZ. lia. }
    rewrite map_app, enumerate_app, length_map. simpl. f_equal.
    apply (f_equal (enumerate 1)). apply map_ext_in. intros e' Hin.
    symmetry. apply list_elem_of_In in Hin.
    pose proof (record_of_snoc es e e' Hin) as R.
    rewrite map_app in R. exact R.
  - by rewrite id_map_snoc.
Qed.

Lemma parse_atoms_readable path es :
  forallb readable es = true →
  for_each (fun '(idx, atom_elem) => parse_atom idx atom_elem) (enumerate 1 es)
    (init path) = (inr tt, atoms_state path es).
Proof.
  induction es as [|e es IH] using rev_ind; intros Hr.
  - done.
  - rewrite forallb_app in Hr. apply andb_true_iff in Hr as [Hes He].
    simpl in He. rewrite andb_true_r in He.
    unfold for_each in *. rewrite enumerate_app, for_fold_app, (IH Hes).
    simpl. unfold bind. rewrite parse_atom_readable by done.
    by rewrite store_atom_atoms_state.
Qed.

Lemma parse_atoms_unreadable path es :
  forallb readable es = false →
  ∃ ex c, for_each (fun '(idx, atom_elem) => parse_atom idx atom_elem)
            (enumerate 1 es) (init path) = (inl ex, c).
Proof.
  induction es as [|e es IH] using rev_ind; intros Hr; [done|].
  rewrite forallb_app in Hr. simpl in Hr. rewrite andb_true_r in Hr.
  unfold for_each in *. rewrite enumerate_app, for_fold_app.
  destruct (forallb readable es) eqn:Hes.
  - pose proof (parse_atoms_readable path es Hes) as Hrun.
    unfold for_each in Hrun. rewrite Hrun. simpl in *. unfold bind.
    destruct (parse_atom_unreadable (1 + Z.of_nat (length es)) e
                (atoms_state path es) Hr) as (ex & c & ->).
    by exists ex, c.
  - destruct (IH eq_refl) as (ex & c & ->). by exists ex, c.
Qed.
End atom_loop_run.

(** ** The bond loop *)

Section bond_step_facts.
Context `{Builtins}.
Implicit Types (c : Converter) (e : Element) (loc : Z * gset (Z * Z)).

(** A bond element that does not name two integers is skipped. *)
Lemma bond_step_unparsed loc e c :
  connects_of e = None → bond_step loc e c = (inr loc, c).
Proof.
  unfold connects_of, bond_step. destruct loc as [bond_id processed].
  destruct (attr_or "Connects" "" e) as [|ch s]; [done|].
  destruct (mapM _ _) as [[|i [|j [|k l]]]|]; try done.
Qed.

(** A bond element naming a source ID without an atom is skipped. *)
Lemma bond_step_unknown loc e c i j :
  connects_of e = Some (i, j) →
  xsd_id_to_lammps_idx c !! i = None ∨ xsd_id_to_lammps_idx c !! j = None →
  bond_step loc e c = (inr loc, c).
Proof.
  unfold connects_of, bond_step. destruct loc as [bond_id processed].
  destruct (attr_or "Connects" "" e) as [|ch s] eqn:Hc.
  { cbn. by destruct (py_int _). }
  destruct (mapM _ _) as [[|i' [|j' [|k l]]]|]; try done.
  intros [= -> ->] Hun. unfold bind, gets. simpl.
  destruct (xsd_id_to_lammps_idx c !! i), (xsd_id_to_lammps_idx c !! j);
    try done. by destruct Hun.
Qed.

(** A bond element naming an already stored pair is skipped. *)
Lemma bond_step_duplicate bond_id processed e c i j i1 i2 :
  connects_of e = Some (i, j) →
  xsd_id_to_lammps_idx c !! i = Some i1 →
  xsd_id_to_lammps_idx c !! j = Some i2 →
  sorted2 Z.ltb i1 i2 ∈ processed →
  bond_step (bond_id, processed) e c = (inr (bond_id, processed), c).
Proof.
  unfold connects_of, bond_step.
  destruct (attr_or "Connects" "" e) as [|ch s] eqn:Hc.
  { cbn. by destruct (py_int _). }
  destruct (mapM _ _) as [[|i' [|j' [|k l]]]|]; try done.
  intros [= -> ->] Hi Hj Hin. unfold bind, gets. simpl.
  rewrite Hi, Hj. by rewrite decide_True.
Qed.

(** A bond element naming a new pair of atoms is stored. *)
Lemma bond_step_accepted bond_id processed e c i j i1 i2 a1 a2 :
  connects_of e = Some (i, j) →
  xsd_id_to_lammps_idx c !! i = Some i1 →
  xsd_id_to_lammps_idx c !! j = Some i2 →
  sorted2 Z.ltb i1 i2 ∉ processed →
  Dict.get i1 (atoms c) = Some a1 →
  Dict.get i2 (atoms c) = Some a2 →
  bond_step (bond_id, processed) e c =
  (inr (bond_id + 1, {[sorted2 Z.ltb i1 i2]} ∪ processed),
   add_bond bond_id i1 i2 a1 a2 (attr_or "Type" "Single" e) c).
Proof.
  unfold connects_of, bond_step.
  destruct (attr_or "Connects" "" e) as [|ch s] eqn:Hc.
  { cbn. by destruct (py_int _). }
  destruct (mapM _ _) as [[|i' [|j' [|k l]]]|]; try done.
  intros [= -> ->] Hi Hj Hin Ha1 Ha2. unfold bind at 1. unfold gets at 1.
  rewrite Hi, Hj. rewrite decide_False by done.
  unfold bind at 1. unfold gets at 1.
  unfold bind at 1. unfold getitem at 1. rewrite Ha1. simpl.
  unfold bind at 1. unfold getitem at 1. rewrite Ha2. simpl.
  set (key := bond_type_key _ _ _).
  unfold add_bond. fold key.
  unfold bind, gets, modify, ret. simpl.
  destruct (Dict.mem key (bond_types c)) eqn:Hmem; simpl.
  - unfold getitem. destruct (Dict.get key (bond_types c)) as [t|] eqn:Ht.
    2:{ unfold Dict.mem in Hmem. by rewrite Ht in Hmem. }
    done.
  - unfold getitem. rewrite !get_set_eq. done.
Qed.
End bond_step_facts.

Lemma sorted2_Z_le i j : (sorted2 Z.ltb i j).1 <= (sorted2 Z.ltb i j).2.
Proof. unfold sorted2. destruct (Z.ltb_spec j i); simpl; lia. Qed.

Lemma sorted2_Z_cases i j :
  sorted2 Z.ltb i j = (i, j) ∨ sorted2 Z.ltb i j = (j, i).
Proof. unfold sorted2. destruct (j <? i)%Z; auto. Qed.

Lemma sorted2_Z_comm i j : sorted2 Z.ltb i j = sorted2 Z.ltb j i.
Proof.
  unfold sorted2. destruct (Z.ltb_spec j i), (Z.ltb_spec i j); try done; try lia.
  f_equal; lia.
Qed.

(** Sorting the two element symbols makes the key symmetric. *)
Lemma bond_type_key_comm (e1 e2 o : string) :
  bond_type_key e1 e2 o = bond_type_key e2 e1 o.
Proof.
  unfold bond_type_key, sorted2, String.ltb.
  rewrite (String.compare_antisym e1 e2).
  destruct (String.compare e2 e1) eqn:E; simpl; try done.
  apply String.compare_eq_iff in E. by subst.
Qed.

(** The stored key has its two symbols in ascending order. *)
Lemma bond_type_key_sorted (e1 e2 o : string) :
  String.leb (bond_type_key e1 e2 o).1.1 (bond_type_key e1 e2 o).1.2 = true.
Proof.
  unfold bond_type_key, sorted2, String.ltb, String.leb.
  destruct (String.compare e2 e1) eqn:E; simpl.
  - by rewrite String.compare_antisym, E.
  - by rewrite E.
  - by rewrite String.compare_antisym, E.
Qed.

(** The key holds the two symbols, in one order or the other, and the order. *)
Lemma bond_type_key_cases (e1 e2 o : string) :
  bond_type_key e1 e2 o = (e1, e2, o) ∨ bond_type_key e1 e2 o = (e2, e1, o).
Proof. unfold bond_type_key, sorted2. destruct (String.ltb e2 e1); auto. Qed.

(** Two keys agree exactly when the unordered symbol pairs and the orders do. *)
Lemma bond_type_key_eq_iff (e1 e2 o e1' e2' o' : string) :
  bond_type_key e1 e2 o = bond_type_key e1' e2' o'
  ↔ ((e1 = e1' ∧ e2 = e2') ∨ (e1 = e2' ∧ e2 = e1')) ∧ o = o'.
Proof.
  split.
  - intros Hkey.
    destruct (bond_type_key_cases e1 e2 o) as [E|E],
             (bond_type_key_cases e1' e2' o') as [E'|E'];
      rewrite E, E' in Hkey; injection Hkey as -> -> ->; auto.
  - intros [[[-> ->]|[-> ->]] ->]; [done|apply bond_type_key_comm].
Qed.

Section bond_loop.
Context `{Builtins}.

Lemma add_bond_with_bonds c0 bs bond_id i1 i2 a1 a2 o :
  let key := bond_type_key (a_element a1) (a_element a2) o in
  add_bond bond_id i1 i2 a1 a2 o (with_bonds c0 bs) =
  with_bonds c0 (bs ++
    [{| b_id := bond_id;
        b_type := default 0 (Dict.get key (intern_table (map b_elements bs ++ [key])));
        b_atom1 := (sorted2 Z.ltb i1 i2).1; b_atom2 := (sorted2 Z.ltb i1 i2).2;
        b_order := o; b_elements := key |}]).
Proof.
  intros key. unfold add_bond, with_bonds. simpl. fold key.
  set (ks := map b_elements bs).
  rewrite map_app. simpl. fold ks.
  pose proof (intern_step ks key) as Hstep.
  assert ((if Dict.mem key (intern_table ks) then Dict.len (intern_table ks)
           else Dict.len (intern_table ks) + 1)
          = Dict.len (intern_table (ks ++ [key]))) as Hlen.
  { rewrite <-Hstep. destruct (Dict.mem key (intern_table ks)) eqn:E; [done|].
    rewrite set_fresh.
    - unfold Dict.len. rewrite length_app. simpl. lia.
    - unfold Dict.mem in E. by destruct (Dict.get key (intern_table ks)). }
  assert ((if Dict.mem key (intern_table ks) then intern_table ks
           else Dict.set key (if Dict.mem key (intern_table ks)
                              then Dict.len (intern_table ks)
                              else Dict.len (intern_table ks) + 1) (intern_table ks))
          = intern_table (ks ++ [key])) as Htbl.
  { rewrite <-Hstep. by destruct (Dict.mem key (intern_table ks)). }
  by rewrite Htbl, Hlen.
Qed.

Lemma bonds_ok_nil ats : bonds_ok ats [].
Proof.
  split; [done|constructor|]. by intros b ?%elem_of_nil.
Qed.

Lemma bonds_ok_snoc ats bs i1 i2 a1 a2 o :
  let key := bond_type_key (a_element a1) (a_element a2) o in
  bonds_ok ats bs →
  sorted2 Z.ltb i1 i2 ∉ map endpoints bs →
  Dict.get i1 ats = Some a1 →
  Dict.get i2 ats = Some a2 →
  bonds_ok ats (bs ++
    [{| b_id := Z.of_nat (length bs) + 1;
        b_type := default 0 (Dict.get key (intern_table (map b_elements bs ++ [key])));
        b_atom1 := (sorted2 Z.ltb i1 i2).1; b_atom2 := (sorted2 Z.ltb i1 i2).2;
        b_order := o; b_elements := key |}]).
Proof.
  intros key [Hids Hnd Hb] Hnew Ha1 Ha2. split.
  - rewrite map_app, length_app, Hids. simpl.
    rewrite Nat2Z.inj_add. change (Z.of_nat 1) with 1.
    rewrite seqZ_app by lia. f_equal. rewrite seqZ_cons by lia. simpl. rewrite seqZ_nil by lia. f_equal. lia.
  - rewrite map_app. simpl. apply NoDup_app. split_and!; [done| |apply NoDup_singleton].
    intros p Hp ->%list_elem_of_singleton. apply Hnew.
    unfold endpoints in *. simpl in *. by destruct (sorted2 Z.ltb i1 i2).
  - intros b [Hin|Hin%list_elem_of_singleton]%elem_of_app.
    + destruct (Hb b Hin) as (Hle & Hat & Hty). split_and!; [done..|].
      rewrite map_app. simpl. rewrite intern_table_get_snoc; [done|].
      apply list_elem_of_In, in_map, list_elem_of_In, Hin.
    + subst b. simpl. split_and!.
      * apply sorted2_Z_le.
      * destruct (sorted2_Z_cases i1 i2) as [-> | ->]; simpl.
        -- by exists a1, a2.
        -- exists a2, a1. split_and!; [done..|]. apply bond_type_key_comm.
      * rewrite map_app. simpl. fold key.
        destruct (intern_table_get_is_Some (map b_elements bs ++ [key]) key) as [t Ht].
        { apply elem_of_app. right. by left. }
        by rewrite Ht.
Qed.

Lemma bond_locals_elem_of bs p :
  p ∈ (bond_locals bs).2 ↔ p ∈ map endpoints bs.
Proof. unfold bond_locals. simpl. apply elem_of_list_to_set. Qed.

Lemma bond_locals_snoc bs b :
  bond_locals (bs ++ [b]) = ((bond_locals bs).1 + 1, {[endpoints b]} ∪ (bond_locals bs).2).
Proof.
  unfold bond_locals. simpl. f_equal.
  - rewrite length_app. simpl. lia.
  - rewrite map_app, list_to_set_app_L. simpl. set_solver.
Qed.
End bond_loop.

Section bond_loop_run.
Context `{Builtins}.

Lemma bond_step_keeps c0 bs e :
  ids_resolve c0 → bonds_ok (atoms c0) bs →
  ∃ bs', bond_step (bond_locals bs) e (with_bonds c0 bs)
           = (inr (bond_locals bs'), with_bonds c0 bs')
         ∧ bonds_ok (atoms c0) bs'.
Proof.
  intros Hres Hok.
  destruct (connects_of e) as [[i j]|] eqn:Hc.
  2:{ exists bs. by rewrite bond_step_unparsed. }
  destruct (xsd_id_to_lammps_idx c0 !! i) as [i1|] eqn:Hi.
  2:{ exists bs. split; [|done]. eapply bond_step_unknown; [done|]. by left. }
  destruct (xsd_id_to_lammps_idx c0 !! j) as [i2|] eqn:Hj.
  2:{ exists bs. split; [|done]. eapply bond_step_unknown; [done|]. by right. }
  destruct (decide (sorted2 Z.ltb i1 i2 ∈ (bond_locals bs).2)) as [Hin|Hnin].
  { exists bs. split; [|done]. unfold bond_locals in *.
    by eapply bond_step_duplicate. }
  destruct (Hres _ _ Hi) as [a1 Ha1]. destruct (Hres _ _ Hj) as [a2 Ha2].
  eexists. split.
  - unfold bond_locals at 1.
    erewrite bond_step_accepted; [|done..].
    rewrite add_bond_with_bonds. f_equal.
    rewrite bond_locals_snoc. unfold endpoints. simpl.
    by destruct (sorted2 Z.ltb i1 i2).
  - apply bonds_ok_snoc; [done| |done..].
    by rewrite <-bond_locals_elem_of.
Qed.

(** The whole bond loop runs to the end and keeps the bonds well formed. *)
Lemma bond_loop_run c0 es :
  ids_resolve c0 →
  ∃ bs, for_fold bond_step es (1, ∅) (with_bonds c0 [])
          = (inr (bond_locals bs), with_bonds c0 bs)
        ∧ bonds_ok (atoms c0) bs.
Proof.
  intros Hres.
  destruct (for_fold_invariant
    (fun loc c => ∃ bs, loc = bond_locals bs ∧ c = with_bonds c0 bs
                        ∧ bonds_ok (atoms c0) bs)
    bond_step es) with (acc := (1, ∅ : gset (Z * Z))) (s := with_bonds c0 [])
    as (loc & c & Hrun & bs & -> & -> & Hok).
  - intros loc e c _ (bs & -> & -> & Hok).
    destruct (bond_step_keeps c0 bs e Hres Hok) as (bs' & Hstep & Hok').
    exists (bond_locals bs'), (with_bonds c0 bs'). split; [done|]. by exists bs'.
  - exists []. split_and!; [done..|]. apply bonds_ok_nil.
  - by exists bs.
Qed.
End bond_loop_run.


(** ** The whole parse *)

Section parse_run.
Context `{Builtins}.

Lemma id_map_lookup start es n i :
  id_map start es !! n = Some i →
  ∃ (k : nat) e, es !! k = Some e ∧ i = start + Z.of_nat k
                 ∧ default 0 (source_id e) = n.
Proof.
  induction es as [|e es IH] using rev_ind; [done|].
  rewrite id_map_snoc. intros Hl.
  destruct (decide (default 0 (source_id e) = n)) as [Heq|Hne].
  - rewrite Heq, lookup_insert_eq in Hl. injection Hl as <-.
    exists (length es), e. split_and!; [|done..].
    rewrite lookup_app_r by lia. by rewrite Nat.sub_diag.
  - rewrite lookup_insert_ne in Hl by done.
    destruct (IH Hl) as (k & e' & Hk & -> & Hid). exists k, e'.
    split_and!; [|done..]. by apply lookup_app_l_Some.
Qed.

Lemma id_map_None start es n :
  (∀ e, e ∈ es → default 0 (source_id e) ≠ n) → id_map start es !! n = None.
Proof.
  intros Hno. destruct (id_map start es !! n) as [i|] eqn:E; [|done].
  apply id_map_lookup in E as (k & e & Hk & _ & Hid).
  exfalso. eapply Hno; [|done]. by eapply list_elem_of_lookup_2.
Qed.

Lemma atoms_state_resolves path es : ids_resolve (atoms_state path es).
Proof.
  intros n i (k & e & Hk & -> & _)%id_map_lookup. simpl.
  eexists. apply enumerate_get.
  change (map ?f ?l) with (f <$> l). by rewrite list_lookup_fmap, Hk.
Qed.

Lemma atoms_state_no_bonds path es :
  atoms_state path es = with_bonds (atoms_state path es) [].
Proof. done. Qed.

Lemma calculate_box_bounds_run c :
  calculate_box_bounds c
  = (inr tt, upd_box_bounds (box_around (Dict.values (atoms c))) c).
Proof.
  unfold calculate_box_bounds. unfold bind at 1, gets at 1.
  destruct c as [f ats bs an di aty bty anty dity ac bc anc dic box ids].
  cbn [atoms]. destruct ats as [|[i a] ats].
  - unfold ret, upd_box_bounds.
    cbn [box_bounds atoms Dict.values map box_around]. by destruct box.
  - unfold bind, ret, modify, py_min, py_max.
    cbn [Dict.values map snd]. unfold upd_box_bounds.
    cbn [xsd_file atoms bonds angles dihedrals atom_types bond_types
         angle_types dihedral_types atom_type_counter bond_type_counter
         angle_type_counter dihedral_type_counter box_bounds
         xsd_id_to_lammps_idx xlo xhi ylo yhi zlo zhi box_around].
    reflexivity.
Qed.

(** [parse_xsd] on readable atoms returns their number and leaves the
    object in a state fixed by the atoms and the stored bonds. *)
Lemma parse_elements_run path es bes :
  forallb readable es = true →
  ∃ bs, parse_elements es bes (init path)
          = (inr (Z.of_nat (length es)), final_state path es bs)
        ∧ bonds_ok (atoms (atoms_state path es)) bs.
Proof.
  intros Hr. unfold parse_elements.
  destruct (bond_loop_run (atoms_state path es) bes (atoms_state_resolves _ _))
    as (bs & Hrun & Hok).
  exists bs. split; [|done].
  unfold bind at 1. rewrite parse_atoms_readable by done.
  unfold bind at 1. unfold bind at 1.
  rewrite atoms_state_no_bonds, Hrun. unfold ret at 1.
  unfold bind at 1. rewrite calculate_box_bounds_run.
  unfold bind, gets, ret. simpl. unfold final_state. f_equal.
  unfold Dict.len. by rewrite enumerate_length, length_map.
Qed.

Lemma parse_elements_abort path es bes :
  forallb readable es = false →
  ∃ ex c, parse_elements es bes (init path) = (inl ex, c).
Proof.
  intros Hr. unfold parse_elements, bind.
  destruct (parse_atoms_unreadable path es Hr) as (ex & c & ->).
  by exists ex, c.
Qed.

Lemma parse_xsd_elements root :
  parse_xsd root
  = parse_elements (select_elements "Atom3d" root) (select_elements "Bond" root).
Proof. done. Qed.
End parse_run.

(** ** Writing only reads the object *)

Section frame.
Implicit Types (w : World).

Lemma reads_only_ret {A} (a : A) : reads_only (ret a).
Proof. done. Qed.

Lemma reads_only_raise {A} (e : exn) : reads_only (raise (A := A) e).
Proof. done. Qed.

Lemma reads_only_gets {A} (g : World -> A) : reads_only (gets g).
Proof. done. Qed.

Lemma reads_only_fopen path : reads_only (fopen path).
Proof. done. Qed.

Lemma reads_only_fwrite path s : reads_only (fwrite path s).
Proof. done. Qed.

Lemma reads_only_bind {A B} (m : M World A) (k : A -> M World B) :
  reads_only m → (∀ a, reads_only (k a)) → reads_only (bind m k).
Proof.
  intros Hm Hk w. unfold bind. specialize (Hm w).
  destruct (m w) as [[e|a] w']; simpl in *; [done|].
  by rewrite Hk.
Qed.

Lemma reads_only_getitem {K V} `{EqDecision K} (k : K) (d : dict K V) :
  reads_only (getitem (S := World) k d).
Proof. unfold getitem. by destruct (Dict.get k d). Qed.

Lemma reads_only_for_fold {B L} (body : L -> B -> M World L) l acc :
  (∀ acc v, reads_only (body acc v)) → reads_only (for_fold body l acc).
Proof.
  intros Hb. revert acc. induction l as [|v l IH]; intros acc; simpl.
  - apply reads_only_ret.
  - apply reads_only_bind; [apply Hb|apply IH].
Qed.

Lemma reads_only_for_each {B} (body : B -> M World unit) l :
  (∀ v, reads_only (body v)) → reads_only (for_each body l).
Proof. intros Hb. apply reads_only_for_fold. intros _ v. apply Hb. Qed.

Lemma reads_only_sorted_by_lookup {K} `{EqDecision K} (d : dict K Z) (l : list K) :
  reads_only (sorted_by_lookup (S := World) d l).
Proof.
  apply reads_only_bind; [|intros; apply reads_only_ret].
  apply reads_only_for_fold. intros acc v.
  apply reads_only_bind; [apply reads_only_getitem|intros; apply reads_only_ret].
Qed.
End frame.

Create HintDb frame.

#[local] Hint Resolve reads_only_ret reads_only_raise reads_only_gets
  reads_only_fopen reads_only_fwrite reads_only_getitem
  reads_only_sorted_by_lookup : frame.

Ltac frame_step :=
  first
    [ solve [auto with frame]
    | apply reads_only_for_each; intros ?
    | apply reads_only_for_fold; intros ? ?
    | apply reads_only_bind; [|intros ?]
    | match goal with
      | |- reads_only (match ?x with nil => _ | cons _ _ => _ end) => destruct x
      end ].

Section frame_write.
Context `{Builtins}.

Lemma write_lammps_data_reads_only output_file :
  reads_only (write_lammps_data output_file).
Proof. unfold write_lammps_data. repeat frame_step. Qed.
End frame_write.

(** ** What is written *)

Lemma string_app_cons (c : ascii) (s t : string) :
  (String c s ++ t)%string = String c (s ++ t)%string.
Proof. done. Qed.

Lemma string_app_assoc (s1 s2 s3 : string) :
  ((s1 ++ s2) ++ s3 = s1 ++ (s2 ++ s3))%string.
Proof.
  induction s1 as [|c s1 IH]; [done|].
  rewrite !string_app_cons. by rewrite IH.
Qed.

Lemma string_app_nil_r (s : string) : (s ++ "" = s)%string.
Proof.
  induction s as [|c s IH]; [done|].
  rewrite string_app_cons. by rewrite IH.
Qed.

Lemma join_app (l1 l2 : list string) : join (l1 ++ l2) = (join l1 ++ join l2)%string.
Proof.
  induction l1 as [|s l1 IH]; [done|].
  change (join ((s :: l1) ++ l2)) with (s ++ join (l1 ++ l2))%string.
  change (join (s :: l1)) with (s ++ join l1)%string.
  by rewrite IH, string_app_assoc.
Qed.

Lemma join_snoc (l : list string) (s : string) : join (l ++ [s]) = (join l ++ s)%string.
Proof.
  rewrite join_app. change (join [s]) with (s ++ "")%string.
  by rewrite string_app_nil_r.
Qed.

Lemma insert_by_elem_of {A} (key : A -> Z) (v x : A) (l : list A) :
  x ∈ insert_by key v l ↔ x = v ∨ x ∈ l.
Proof.
  induction l as [|y l IH]; simpl.
  - rewrite list_elem_of_singleton. set_solver.
  - destruct (key y <? key v)%Z.
    + rewrite !elem_of_cons, IH. tauto.
    + rewrite !elem_of_cons. tauto.
Qed.

Lemma py_sorted_by_elem_of {A} (key : A -> Z) (x : A) (l : list A) :
  x ∈ py_sorted_by key l ↔ x ∈ l.
Proof.
  unfold py_sorted_by. induction l as [|y l IH]; simpl; [done|].
  by rewrite insert_by_elem_of, elem_of_cons, IH.
Qed.

Lemma py_sorted_by_length {A} (key : A -> Z) (l : list A) :
  length (py_sorted_by key l) = length l.
Proof.
  unfold py_sorted_by. induction l as [|y l IH]; simpl; [done|].
  rewrite <-IH. generalize (fold_right (insert_by key) [] l). intros l'.
  induction l' as [|z l' IH']; simpl; [done|].
  destruct (key z <? key y)%Z; simpl; [by rewrite IH'|done].
Qed.

(** Sorting an ascending list of integers leaves it as it is. *)
Lemma py_sorted_by_seqZ (m : Z) (n : nat) :
  py_sorted_by id (seqZ m (Z.of_nat n)) = seqZ m (Z.of_nat n).
Proof.
  revert m. induction n as [|n IH]; intros m; [done|].
  rewrite Nat2Z.inj_succ, seqZ_cons by lia.
  replace (Z.pred (Z.succ (Z.of_nat n))) with (Z.of_nat n) by lia.
  unfold py_sorted_by in *. simpl. rewrite IH.
  destruct n as [|n]; [done|].
  rewrite Nat2Z.inj_succ, seqZ_cons by lia. simpl. unfold id.
  destruct (Z.ltb_spec (Z.succ m) m); [lia|done].
Qed.

Lemma by_number_elem_of {K} `{EqDecision K} (d : dict K Z) (k : K) :
  k ∈ by_number d → k ∈ Dict.keys d.
Proof.
  unfold by_number, decorate. intros Hin.
  apply list_elem_of_In, in_map_iff in Hin as ([k' v] & <- & Hin).
  apply list_elem_of_In, py_sorted_by_elem_of in Hin.
  apply list_elem_of_In, in_map_iff in Hin as (k0 & [= <- _] & Hin).
  by apply list_elem_of_In.
Qed.

Lemma sorted_by_lookup_run {S K} `{EqDecision K} (d : dict K Z) (s : S) :
  sorted_by_lookup d (Dict.keys d) s = (inr (by_number d), s).
Proof.
  unfold sorted_by_lookup, by_number, bind.
  assert (∀ l acc, (∀ k, k ∈ l → k ∈ Dict.keys d) →
            for_fold (fun acc v => k <- getitem v d ;; ret (acc ++ [(v, k)])) l acc s
            = (inr (acc ++ decorate d l), s)) as Hloop.
  { induction l as [|k l IH]; intros acc Hl; simpl.
    - unfold ret. by rewrite app_nil_r.
    - unfold bind at 1. unfold bind at 1. unfold getitem.
      destruct (get_is_Some k d) as [v Hv]; [apply Hl; by left|].
      rewrite Hv. simpl. rewrite IH by (intros; apply Hl; by right).
      by rewrite <-app_assoc. }
  rewrite Hloop by done. done.
Qed.

Section write_run.
Context `{Builtins}.
Implicit Types (c : Converter) (m : gmap string string) (chunks : list string).

Lemma bind_fopen {A} f (k : unit -> M World A) w :
  bind (fopen f) k w = k tt (writing f (self w) (fs w) []).
Proof. done. Qed.

Lemma fwrite_run f s c m chunks :
  fwrite f s (writing f c m chunks) = (inr tt, writing f c m (chunks ++ [s])).
Proof.
  unfold fwrite, modify, writing. cbn [self fs].
  by rewrite alter_insert_eq, join_snoc.
Qed.

Lemma bind_fwrite {A} f s (k : unit -> M World A) c m chunks :
  bind (fwrite f s) k (writing f c m chunks) = k tt (writing f c m (chunks ++ [s])).
Proof. unfold bind. by rewrite fwrite_run. Qed.

Lemma bind_gets {S A B} (g : S -> A) (k : A -> M S B) s :
  bind (gets g) k s = k (g s) s.
Proof. done. Qed.

Lemma bind_ret {S A B} (a : A) (k : A -> M S B) s :
  bind (ret a) k s = k a s.
Proof. done. Qed.

Lemma bind_bind {S A B C} (m : M S A) (k : A -> M S B) (k' : B -> M S C) s :
  bind (bind m k) k' s = bind m (fun a => bind (k a) k') s.
Proof. unfold bind. by destruct (m s) as [[e|a] s']. Qed.

(** A loop of plain writes. *)
Lemma write_rows_run {B} f (row : B -> string) (l : list B) c m chunks :
  for_each (fun v => fwrite f (row v)) l (writing f c m chunks)
  = (inr tt, writing f c m (chunks ++ map row l)).
Proof.
  unfold for_each. revert chunks. induction l as [|v l IH]; intros chunks.
  - simpl. unfold ret. by rewrite app_nil_r.
  - cbn [for_fold map]. rewrite bind_fwrite, IH. by rewrite <-app_assoc.
Qed.

(** A loop that looks each key up in a dictionary of the object first. *)
Lemma write_lookup_rows_run {K V} `{EqDecision K} f (proj : Converter -> dict K V)
    (row : K -> V -> string) (l : list K) c m chunks :
  (∀ k, k ∈ l → k ∈ Dict.keys (proj c)) →
  for_each (fun k => d <- gets (fun w => proj (self w)) ;;
                     v <- getitem k d ;; fwrite f (row k v)) l
    (writing f c m chunks)
  = (inr tt, writing f c m
       (chunks ++ omap (fun k => row k <$> Dict.get k (proj c)) l)).
Proof.
  unfold for_each. revert chunks. induction l as [|k l IH]; intros chunks Hl.
  - simpl. unfold ret. by rewrite app_nil_r.
  - cbn [for_fold omap]. rewrite bind_bind, bind_gets. cbn [self writing].
    destruct (get_is_Some k (proj c)) as [v Hv]; [apply Hl; by left|].
    unfold getitem. rewrite Hv. rewrite bind_bind, bind_ret, bind_fwrite.
    rewrite IH by (intros; apply Hl; by right).
    simpl. rewrite Hv. simpl. by rewrite <-app_assoc.
Qed.
End write_run.

Section write_text.
Context `{Builtins}.

(** [write_lammps_data] always returns, and the file holds [file_chunks]. *)
Lemma write_lammps_data_run output_file w :
  write_lammps_data output_file w
  = (inr tt, writing output_file (self w) (fs w) (file_chunks (self w))).
Proof.
  unfold write_lammps_data. destruct w as [c m]. cbn [self fs].
  rewrite bind_fopen. cbn [self fs].
  rewrite !bind_fwrite. rewrite bind_gets. cbn [self writing].
  rewrite !bind_fwrite. rewrite bind_gets. cbn [self writing].
  rewrite !bind_fwrite. rewrite bind_gets. cbn [self writing].
  unfold bind at 1. rewrite sorted_by_lookup_run.
  unfold bind at 1.
  rewrite (write_lookup_rows_run output_file atom_types
             (fun ff_type t => mass_row t ff_type)).
  2:{ intros k. apply by_number_elem_of. }
  rewrite bind_fwrite, bind_gets. cbn [self writing].
  unfold bind at 1.
  assert (∀ chunks,
    match bond_types c with
    | [] => ret tt
    | _ :: _ =>
        fwrite output_file ("# Bond Types Reference:" ++ nl)%string ;;;
        for_each (fun item => fwrite output_file (bond_type_row item))
                 (py_sorted_by snd (bond_types c)) ;;;
        fwrite output_file nl
    end (writing output_file c m chunks)
    = (inr tt, writing output_file c m (chunks ++ bond_types_section c))) as Hbt.
  { intros chunks. unfold bond_types_section. destruct (bond_types c) as [|p l].
    - unfold ret. by rewrite app_nil_r.
    - rewrite bind_fwrite. unfold bind at 1. rewrite write_rows_run.
      rewrite fwrite_run. by rewrite <-!app_assoc. }
  rewrite Hbt. rewrite !bind_fwrite, bind_gets. cbn [self writing].
  unfold bind at 1.
  rewrite (write_lookup_rows_run output_file atoms atom_row).
  2:{ intros k. by rewrite py_sorted_by_elem_of. }
  rewrite bind_fwrite, bind_gets. cbn [self writing].
  unfold file_chunks, header_section, masses_section, atoms_section,
    bonds_section, bonds_rows.
  destruct (bonds c) as [|b bs] eqn:Hb.
  - unfold ret. f_equal. f_equal. rewrite app_nil_r.
    cbn [app]. rewrite <-!app_assoc. reflexivity.
  - rewrite !bind_fwrite. unfold bind at 1. rewrite write_rows_run.
    rewrite fwrite_run. f_equal. f_equal.
    cbn [app]. rewrite <-!app_assoc. reflexivity.
Qed.
End write_text.

(** Each chunk written is a part of the text of the file. *)
Lemma join_elem_of (r : string) (chunks : list string) :
  r ∈ chunks → ∃ pre post, join chunks = (pre ++ r ++ post)%string.
Proof.
  intros (l1 & l2 & ->)%list_elem_of_split.
  exists (join l1), (join l2). by rewrite join_app.
Qed.

Lemma atoms_section_in_file `{Builtins} (c : Converter) (r : string) :
  r ∈ atoms_section c → r ∈ file_chunks c.
Proof. unfold file_chunks. intros Hr. rewrite !elem_of_app. auto 10. Qed.

Lemma written_text `{Builtins} (out : string) (c : Converter) (m : gmap string string) :
  fs (write_lammps_data out {| self := c; fs := m |}).2 !! out
  = Some (join (file_chunks c)).
Proof.
  rewrite write_lammps_data_run. cbn [snd self fs writing].
  by rewrite lookup_insert_eq.
Qed.

(** ** The order of floats *)

Ltac float_cases :=
  repeat match goal with
         | |- context [Z.compare ?a ?b] =>
             destruct (Z.compare_spec a b); try lia; try subst
         | |- context [Pos.compare ?a ?b] =>
             destruct (Pos.compare_spec a b); try lia; try subst
         end; simpl; try done; try lia.



(** Without NaN, not being below is being at or above. *)
Lemma SFleb_of_not_ltb (x y : spec_float) :
  x ≠ S754_nan → y ≠ S754_nan → SFltb y x = false → SFleb x y = true.
Proof.
  unfold SFltb, SFleb, SFcompare.
  destruct x as [sx|sx| |sx mx ex], y as [sy|sy| |sy my ey];
    repeat match goal with s : bool |- _ => destruct s end;
    try done;
    change (Pos.compare_cont Eq) with Pos.compare;
    intros _ _; float_cases.
Qed.



Lemma float_not_nan (x : float) : PrimFloat.is_nan x = false → Prim2SF x ≠ S754_nan.
Proof.
  unfold PrimFloat.is_nan. rewrite FloatAxioms.eqb_spec. intros Hx Hn. rewrite Hn in Hx. done.
Qed.

Lemma float_leb_of_not_ltb (x y : float) :
  PrimFloat.is_nan x = false → PrimFloat.is_nan y = false →
  PrimFloat.ltb y x = false → PrimFloat.leb x y = true.
Proof.
  rewrite FloatAxioms.ltb_spec, FloatAxioms.leb_spec. intros Hx Hy.
  apply SFleb_of_not_ltb; by apply float_not_nan.
Qed.



(** ** Reading the result of a successful parse *)

Section parse_result.
Context `{Builtins}.

Lemma parse_xsd_success root path n c :
  parse_xsd root (init path) = (inr n, c) →
  let es := select_elements "Atom3d" root in
  forallb readable es = true ∧ n = Z.of_nat (length es) ∧
  ∃ bs, c = final_state path es bs ∧ bonds_ok (atoms (atoms_state path es)) bs.
Proof.
  intros Hrun es. rewrite parse_xsd_elements in Hrun. fold es in Hrun.
  destruct (forallb readable es) eqn:Hr.
  - destruct (parse_elements_run path es (select_elements "Bond" root) Hr)
      as (bs & Hrun' & Hok).
    rewrite Hrun' in Hrun. injection Hrun as <- <-. eauto.
  - destruct (parse_elements_abort path es (select_elements "Bond" root) Hr)
      as (ex & c' & Hrun').
    rewrite Hrun' in Hrun. done.
Qed.

Lemma final_state_atoms path es bs :
  atoms (final_state path es bs)
  = enumerate 1 (map (record_of (intern_table (map type_key_of es))) es).
Proof. done. Qed.

Lemma final_state_bonds path es bs : bonds (final_state path es bs) = bs.
Proof. done. Qed.

Lemma final_state_atom_types path es bs :
  atom_types (final_state path es bs) = intern_table (map type_key_of es).
Proof. done. Qed.

Lemma final_state_bond_types path es bs :
  bond_types (final_state path es bs) = intern_table (map b_elements bs).
Proof. done. Qed.


(** The rows of a dictionary whose keys are already ascending. *)
Lemma rows_of_enumerate {V} (row : Z -> V -> string) (start : Z) (l : list V) :
  omap (fun k => row k <$> Dict.get k (enumerate start l))
       (py_sorted_by id (Dict.keys (enumerate start l)))
  = map (fun '(k, v) => row k v) (enumerate start l).
Proof.
  rewrite enumerate_keys, py_sorted_by_seqZ, <-enumerate_keys.
  change (map ?f ?d) with (f <$> d). rewrite list_fmap_alt.
  apply list_omap_ext. unfold Dict.keys. change (map ?f ?d) with (f <$> d).
  apply Forall2_fmap_l, Forall_Forall2_diag, Forall_forall.
  intros [k v] Hin. simpl.
  apply list_elem_of_lookup in Hin as [i Hi].
  rewrite enumerate_lookup in Hi.
  destruct (l !! i) as [v'|] eqn:Hl; [|done]. injection Hi as <- <-.
  by rewrite (enumerate_get start l i v').
Qed.

Lemma final_state_atoms_section path es bs :
  atoms_section (final_state path es bs)
  = map (fun '(k, a) => atom_row k a) (atoms (final_state path es bs)).
Proof. unfold atoms_section. rewrite final_state_atoms. apply rows_of_enumerate. Qed.
End parse_result.

(** The distinct keys in order of first appearance, by recursion on the
    sequence: the first key, then the distinct keys of the rest without it. *)
Lemma first_seen_from {K} `{EqDecision K} (acc ks : list K) :
  fold_left (fun acc k => if decide (k ∈ acc) then acc else acc ++ [k]) ks acc
  = acc ++ filter (fun x => x ∉ acc) (first_seen ks).
Proof.
  induction ks as [|k ks IH] using rev_ind.
  - by rewrite app_nil_r.
  - rewrite fold_left_app, first_seen_snoc. cbn [fold_left]. rewrite IH.
    destruct (decide (k ∈ acc)) as [Hacc|Hacc].
    + rewrite decide_True by (apply elem_of_app; by left).
      case_decide; [done|].
      rewrite filter_app, filter_cons_False, filter_nil by tauto.
      by rewrite app_nil_r.
    + destruct (decide (k ∈ first_seen ks)) as [Hseen|Hseen].
      * rewrite decide_True; [done|].
        apply elem_of_app. right. by apply list_elem_of_filter.
      * rewrite decide_False.
        -- rewrite filter_app, filter_cons_True, filter_nil by done.
           by rewrite app_assoc.
        -- intros [?|[_ ?]%list_elem_of_filter]%elem_of_app; tauto.
Qed.

Lemma first_seen_cons {K} `{EqDecision K} (k : K) (ks : list K) :
  first_seen (k :: ks) = k :: filter (fun x => x ≠ k) (first_seen ks).
Proof.
  unfold first_seen at 1. cbn [fold_left]. rewrite decide_False by apply not_elem_of_nil.
  rewrite first_seen_from. cbn [app]. f_equal.
  apply list_filter_iff. intros x. by rewrite list_elem_of_singleton.
Qed.

(** [sorted] returns its argument rearranged in ascending order of the keys. *)
Lemma insert_by_perm {A} (key : A -> Z) (v : A) (l : list A) :
  insert_by key v l ≡ₚ v :: l.
Proof.
  induction l as [|y l IH]; simpl; [done|].
  destruct (key y <? key v)%Z; [|done].
  rewrite IH. apply Permutation_swap.
Qed.

Lemma py_sorted_by_perm {A} (key : A -> Z) (l : list A) : py_sorted_by key l ≡ₚ l.
Proof.
  unfold py_sorted_by. induction l as [|y l IH]; simpl; [done|].
  by rewrite insert_by_perm, IH.
Qed.

Lemma insert_by_sorted {A} (key : A -> Z) (v : A) (l : list A) :
  Sorted (fun a b => key a <= key b) l →
  Sorted (fun a b => key a <= key b) (insert_by key v l).
Proof.
  induction l as [|y l IH]; simpl; intros Hs.
  - by repeat constructor.
  - destruct (Z.ltb_spec (key y) (key v)).
    + apply Sorted_inv in Hs as [Hs Hhd]. constructor; [by apply IH|].
      destruct l as [|z l]; simpl.
      * constructor. lia.
      * apply HdRel_inv in Hhd. destruct (Z.ltb_spec (key z) (key v)); constructor; lia.
    + constructor; [done|]. constructor. lia.
Qed.

Lemma py_sorted_by_sorted {A} (key : A -> Z) (l : list A) :
  Sorted (fun a b => key a <= key b) (py_sorted_by key l).
Proof.
  unfold py_sorted_by. induction l as [|y l IH]; simpl; [constructor|].
  by apply insert_by_sorted.
Qed.

(** Without NaN a minimum, as [min] finds it, is at or below every item. *)
Lemma is_min_lower_bound (m : float) (l : list float) :
  is_min m l → (∀ v, v ∈ l → PrimFloat.is_nan v = false) →
  ∀ v, v ∈ l → PrimFloat.leb m v = true.
Proof.
  intros [Hin Hlow] Hnan v Hv.
  apply float_leb_of_not_ltb; [by apply Hnan..|by apply Hlow].
Qed.

Lemma is_max_upper_bound (m : float) (l : list float) :
  is_max m l → (∀ v, v ∈ l → PrimFloat.is_nan v = false) →
  ∀ v, v ∈ l → PrimFloat.leb v m = true.
Proof.
  intros [Hin Hup] Hnan v Hv.
  apply float_leb_of_not_ltb; [by apply Hnan..|by apply Hup].
Qed.

(** An unqualified Components child without children of its own is passed
    over by the [or] of line 61, whose left operand is then false. *)
Example childless_components_passed_over :
  resolve_element (Elem "Atom3d" (attrs [("ID", "5")]) None
                     [Elem "Components" ∅ (Some "C") []]) = "X".
Proof. reflexivity. Qed.

(** * The claims *)

(** C1. On the document with exactly two Atom3d atoms of source IDs 5 and 9,
    elements C and H, and one Bond with Connects 5,9 and Type Single, the
    conversion returns 2 atoms with dense indices 1 and 2, stores exactly one
    bond, interns two atom types (C as 1, H as 2) and the single bond type
    (C, H, Single), and the Bonds section holds the one row [1 1 1 2]:
    [write_lammps_data] writes, to whichever path, the text given here in
    full, whose Bonds section is that row, and the driver leaves that text
    in [scenario.data]. *)
Theorem round_trip_scenario :
  let run := parse_xsd (H := Ref.builtins) scenario_doc (init "scenario.xsd") in
  let c := run.2 in
  let text :=
    join ["LAMMPS data file - converted from XSD" ++ nl; nl;
          "2 atoms" ++ nl; "1 bonds" ++ nl; "0 angles" ++ nl; "0 dihedrals" ++ nl;
          "0 impropers" ++ nl; nl;
          "2 atom types" ++ nl; "1 bond types" ++ nl; "0 angle types" ++ nl;
          "0 dihedral types" ++ nl; nl;
          "-10.000000 10.000000 xlo xhi" ++ nl;
          "-10.000000 10.000000 ylo yhi" ++ nl;
          "-10.000000 10.000000 zlo zhi" ++ nl; nl;
          "Masses" ++ nl; nl;
          "1 12.011  # C" ++ nl; "2 1.008  # H" ++ nl; nl;
          "# Bond Types Reference:" ++ nl; "#   Type 1: C-H (Single)" ++ nl; nl;
          "Atoms" ++ nl; nl;
          "1 1 1 0.000000 0.00000000 0.00000000 0.00000000" ++ nl;
          "2 1 2 0.000000 0.00000000 0.00000000 0.00000000" ++ nl; nl;
          "Bonds" ++ nl; nl;
          "1 1 1 2" ++ nl; nl]%string in
  run.1 = inr 2
  ∧ Dict.keys (atoms c) = [1; 2]
  ∧ map a_id (Dict.values (atoms c)) = ["5"; "9"]
  ∧ map a_element (Dict.values (atoms c)) = ["C"; "H"]
  ∧ length (bonds c) = 1%nat
  ∧ atom_types c = [("C", 1); ("H", 2)]
  ∧ bond_types c = [(("C", "H", "Single"), 1)]
  ∧ bonds_rows c = [("1 1 1 2" ++ nl)%string]
  ∧ bonds_section c
    = [("Bonds" ++ nl)%string; nl; ("1 1 1 2" ++ nl)%string; nl]
  ∧ (∀ out m, write_lammps_data (H := Ref.builtins) out {| self := c; fs := m |}
              = (inr tt, {| self := c; fs := <[out := text]> m |}))
  ∧ convert_one (H := Ref.builtins) "scenario.xsd" scenario_doc ∅
    = (true, {["scenario.data" := text]}).
Proof.
  intros run c text.
  assert (join (file_chunks (H := Ref.builtins) c) = text) as Htext
    by (vm_compute; reflexivity).
  split_and!; [vm_compute; reflexivity..| |].
  - intros out m. rewrite write_lammps_data_run. unfold writing. cbn [self fs].
    by rewrite Htext.
  - unfold convert_one. fold run. 
    replace run with (inr 2 : exn + Z, c) by (vm_compute; reflexivity).
    replace (py_replace ".xsd" ".data" "scenario.xsd") with "scenario.data"
      by (vm_compute; reflexivity).
    rewrite write_lammps_data_run. unfold writing. cbn [self fs].
    by rewrite Htext.
Qed.

(** C2, as the specification states it, fails: an atom whose Components child
    has no text and whose Components attribute is C gets the symbol X from
    the code, where the stated order falls through to the attribute. *)
Lemma empty_components_child_not_attribute :
  spec_resolve_element empty_child_atom = "C"
  ∧ resolve_element empty_child_atom = "X"
  ∧ resolve_element empty_child_atom ≠ spec_resolve_element empty_child_atom.
Proof. vm_compute. repeat split; [reflexivity..|discriminate]. Qed.

(** C2, amended. For an atom element without an unqualified Components
    descendant: when it has a namespace-qualified Components child, the
    symbol is that child's text if non-empty and X otherwise (the attribute
    is not consulted); when it has none, the symbol is the Components
    attribute if present and X otherwise. The record stored for the atom
    carries that symbol. *)
Theorem element_resolution_order `{Builtins} (atom_elem : Element) :
  find_desc "Components" atom_elem = None →
  match find_child (ns ++ "Components")%string atom_elem with
  | Some child =>
      (∀ t, text child = Some t → t ≠ "" → resolve_element atom_elem = t)
      ∧ (text child = None ∨ text child = Some "" → resolve_element atom_elem = "X")
  | None =>
      (∀ v, attr "Components" atom_elem = Some v → resolve_element atom_elem = v)
      ∧ (attr "Components" atom_elem = None → resolve_element atom_elem = "X")
  end
  ∧ ∀ tbl, a_element (record_of tbl atom_elem) = resolve_element atom_elem.
Proof.
  intros Hno. split; [|done].
  unfold resolve_element, components_lookup. rewrite Hno.
  destruct (find_child _ atom_elem) as [child|].
  - split.
    + intros t -> Ht. by destruct t.
    + by intros [-> | ->].
  - unfold attr_or. split.
    + by intros v ->.
    + by intros ->.
Qed.

Lemma element_resolution_order_witness :
  find_desc "Components" empty_child_atom = None
  ∧ resolve_element empty_child_atom = "X".
Proof.
  split; [reflexivity|].
  pose proof (element_resolution_order (H := Ref.builtins) empty_child_atom eq_refl)
    as [Hchild _].
  apply Hchild. by left.
Defined.

(** C10. Writing the data file returns and leaves the object as it was: the
    atoms, bonds, atom types, bond types and box bounds after
    [write_lammps_data] are those it started from; only the file changes. *)
Theorem write_leaves_model `{Builtins} (output_file : string) (w : World) :
  let w' := (write_lammps_data output_file w).2 in
  (write_lammps_data output_file w).1 = inr tt
  ∧ self w' = self w
  ∧ atoms (self w') = atoms (self w)
  ∧ bonds (self w') = bonds (self w)
  ∧ atom_types (self w') = atom_types (self w)
  ∧ bond_types (self w') = bond_types (self w)
  ∧ box_bounds (self w') = box_bounds (self w)
  ∧ ∀ other, other ≠ output_file → fs w' !! other = fs w !! other.
Proof.
  intros w'. pose proof (write_lammps_data_reads_only output_file w) as Hself.
  fold w' in Hself. split_and!; try by rewrite Hself.
  - by rewrite write_lammps_data_run.
  - intros other Hne. unfold w'. rewrite write_lammps_data_run.
    cbn [snd writing fs]. by rewrite lookup_insert_ne.
Qed.



(** C4. Within one run both tables number their distinct keys 1, 2, ... in
    order of first appearance, and every atom and bond carries the number its
    key has in the table, so a key seen again gets the number it got first.
    The atom key is the force-field label when it is present, non-empty and
    not the word unknown, and the element symbol otherwise. *)
Theorem type_interning `{Builtins} (root : Element) (path : string) (n : Z)
    (c : Converter) :
  parse_xsd root (init path) = (inr n, c) →
  let es := select_elements "Atom3d" root in
  atom_types c = intern_table (map type_key_of es)
  ∧ (∀ (i : nat) key, first_seen (map type_key_of es) !! i = Some key →
       Dict.get key (atom_types c) = Some (Z.of_nat i + 1))
  ∧ (∀ (k : nat) e, es !! k = Some e →
       ∃ a t, Dict.get (1 + Z.of_nat k) (atoms c) = Some a
              ∧ a_type_key a = Some (type_key_of e)
              ∧ a_atom_type a = Some t
              ∧ Dict.get (type_key_of e) (atom_types c) = Some t)
  ∧ bond_types c = intern_table (map b_elements (bonds c))
  ∧ (∀ (i : nat) key, first_seen (map b_elements (bonds c)) !! i = Some key →
       Dict.get key (bond_types c) = Some (Z.of_nat i + 1))
  ∧ (∀ b, b ∈ bonds c → Dict.get (b_elements b) (bond_types c) = Some (b_type b))
  ∧ (∀ e, type_key_of e =
          match attr "ForcefieldType" e with
          | Some ff => if decide (ff = "unknown" ∨ ff = "")
                       then resolve_element e else ff
          | None => resolve_element e
          end).
Proof.
  intros Hrun es.
  destruct (parse_xsd_success root path n c Hrun) as (Hr & -> & bs & -> & Hok).
  fold es in Hr |- *. split_and!.
  - done.
  - intros i key Hi. rewrite final_state_atom_types.
    apply numbered_get; [apply first_seen_NoDup|done].
  - intros k e Hk.
    destruct (intern_table_get_is_Some (map type_key_of es) (type_key_of e)) as [t Ht].
    { apply list_elem_of_In, in_map, list_elem_of_In. by eapply list_elem_of_lookup_2. }
    exists (record_of (intern_table (map type_key_of es)) e), t. split_and!; try done.
    rewrite final_state_atoms. apply enumerate_get.
    change (map ?f ?l) with (f <$> l). by rewrite list_lookup_fmap, Hk.
  - done.
  - intros i key Hi. rewrite final_state_bond_types, final_state_bonds in *.
    apply numbered_get; [apply first_seen_NoDup|done].
  - intros b Hb. rewrite final_state_bond_types, final_state_bonds in *.
    by apply (bond_ok _ _ Hok).
  - intros e. unfold type_key_of, atom_type_key, attr_or.
    destruct (attr "ForcefieldType" e) as [ff|]; cbn [default from_option];
      unfold id; [|done].
    case_decide as Hd.
    + by destruct Hd as [-> | ->].
    + destruct (String.eqb_spec ff "unknown"); [tauto|].
      destruct (String.eqb_spec ff ""); [tauto|]. reflexivity.
Qed.

Lemma type_interning_witness :
  let c := (parse_xsd (H := Ref.builtins) scenario_doc (init "a.xsd")).2 in
  atom_types c = intern_table ["C"; "H"].
Proof.
  intros c.
  destruct (type_interning (H := Ref.builtins) scenario_doc "a.xsd" 2 c) as (Hty & _).
  - vm_compute. reflexivity.
  - exact Hty.
Defined.

(** The parse depends on the bond elements through the bond loop only. *)
Lemma parse_elements_bonds_ext `{Builtins} path es l l' :
  (forallb readable es = true →
   for_fold bond_step l (1, ∅) (atoms_state path es)
   = for_fold bond_step l' (1, ∅) (atoms_state path es)) →
  parse_elements es l (init path) = parse_elements es l' (init path).
Proof.
  intros Hloop. unfold parse_elements, bind.
  destruct (forallb readable es) eqn:Hr.
  - rewrite parse_atoms_readable by done. by rewrite Hloop.
  - by destruct (parse_atoms_unreadable path es Hr) as (ex & c & ->).
Qed.

(** C5. After a successful parse no two stored bonds join the same unordered
    pair of dense indices, however often and in whichever order the document
    lists a connection; every stored bond has its smaller index first; its
    type key holds the element symbols of its two atoms, the smaller symbol
    first, and the bond order, so that the key of C-H is the key of H-C, and
    two bonds whose atoms carry the same two symbols, in either order, and
    whose orders agree have the same type. A bond element whose pair, in
    either order, was processed before is skipped without any effect. *)
Theorem bond_deduplication `{Builtins} (root : Element) (path : string) (n : Z)
    (c : Converter) :
  parse_xsd root (init path) = (inr n, c) →
  NoDup (map endpoints (bonds c))
  ∧ (∀ (k k' : nat) b b',
       bonds c !! k = Some b → bonds c !! k' = Some b' →
       endpoints b = endpoints b' ∨ endpoints b = (b_atom2 b', b_atom1 b') →
       k = k')
  ∧ (∀ b, b ∈ bonds c →
       b_atom1 b <= b_atom2 b
       ∧ (∃ a1 a2,
            Dict.get (b_atom1 b) (atoms c) = Some a1
            ∧ Dict.get (b_atom2 b) (atoms c) = Some a2
            ∧ b_elements b = bond_type_key (a_element a1) (a_element a2) (b_order b)
            ∧ (b_elements b = (a_element a1, a_element a2, b_order b)
               ∨ b_elements b = (a_element a2, a_element a1, b_order b)))
       ∧ String.leb (b_elements b).1.1 (b_elements b).1.2 = true)
  ∧ (∀ e1 e2 o, bond_type_key e1 e2 o = bond_type_key e2 e1 o)
  ∧ (∀ e1 e2 o, bond_type_key e1 e2 o
                = if String.ltb e2 e1 then (e2, e1, o) else (e1, e2, o))
  ∧ (∀ e1 e2 o, bond_type_key e1 e2 o = (e1, e2, o)
                ∨ bond_type_key e1 e2 o = (e2, e1, o))
  ∧ (∀ o, bond_type_key "C" "H" o = ("C", "H", o)
          ∧ bond_type_key "H" "C" o = ("C", "H", o))
  ∧ (∀ b b', b ∈ bonds c → b' ∈ bonds c →
       b_elements b = b_elements b' → b_type b = b_type b')
  ∧ (∀ b b' a1 a2 a1' a2', b ∈ bonds c → b' ∈ bonds c →
       Dict.get (b_atom1 b) (atoms c) = Some a1 →
       Dict.get (b_atom2 b) (atoms c) = Some a2 →
       Dict.get (b_atom1 b') (atoms c) = Some a1' →
       Dict.get (b_atom2 b') (atoms c) = Some a2' →
       (a_element a1 = a_element a1' ∧ a_element a2 = a_element a2')
       ∨ (a_element a1 = a_element a2' ∧ a_element a2 = a_element a1') →
       b_order b = b_order b' →
       b_type b = b_type b')
  ∧ (∀ bond_id processed e c' i j i1 i2,
       connects_of e = Some (i, j) →
       xsd_id_to_lammps_idx c' !! i = Some i1 →
       xsd_id_to_lammps_idx c' !! j = Some i2 →
       sorted2 Z.ltb i1 i2 ∈ processed ∨ sorted2 Z.ltb i2 i1 ∈ processed →
       bond_step (bond_id, processed) e c' = (inr (bond_id, processed), c')).
Proof.
  intros Hrun.
  destruct (parse_xsd_success root path n c Hrun) as (Hr & -> & bs & -> & Hok).
  rewrite final_state_bonds.
  assert (∀ b, b ∈ bs → b_atom1 b <= b_atom2 b) as Hle.
  { intros b Hb. by apply (bond_ok _ _ Hok). }
  split_and!.
  - apply (pairs_ok _ _ Hok).
  - intros k k' b b' Hk Hk' Hsame.
    assert (endpoints b = endpoints b') as Heq.
    { destruct Hsame as [?|Hswap]; [done|].
      pose proof (Hle b (list_elem_of_lookup_2 _ _ _ Hk)).
      pose proof (Hle b' (list_elem_of_lookup_2 _ _ _ Hk')).
      unfold endpoints in *. injection Hswap as Hs1 Hs2. f_equal; lia. }
    eapply (NoDup_lookup _ _ _ _ (pairs_ok _ _ Hok)).
    + change (map ?f ?l) with (f <$> l). by rewrite list_lookup_fmap, Hk.
    + change (map ?f ?l) with (f <$> l). by rewrite list_lookup_fmap, Hk', Heq.
  - intros b Hb. destruct (bond_ok _ _ Hok b Hb) as (? & (a1 & a2 & ? & ? & Hkey) & ?).
    split_and!; [done| |].
    + exists a1, a2. split_and!; [done..|].
      rewrite Hkey. apply bond_type_key_cases.
    + rewrite Hkey. apply bond_type_key_sorted.
  - apply bond_type_key_comm.
  - intros e1 e2 o. unfold bond_type_key, sorted2. by destruct (String.ltb e2 e1).
  - apply bond_type_key_cases.
  - intros o. split; reflexivity.
  - intros b b' Hb Hb' Hkey.
    destruct (bond_ok _ _ Hok b Hb) as (_ & _ & Ht).
    destruct (bond_ok _ _ Hok b' Hb') as (_ & _ & Ht').
    rewrite Hkey in Ht. congruence.
  - intros b b' a1 a2 a1' a2' Hb Hb' H1 H2 H1' H2' Hel Hord.
    destruct (bond_ok _ _ Hok b Hb) as (_ & (x1 & x2 & G1 & G2 & Hkey) & Ht).
    destruct (bond_ok _ _ Hok b' Hb') as (_ & (x1' & x2' & G1' & G2' & Hkey') & Ht').
    change (atoms (final_state path (select_elements "Atom3d" root) bs))
      with (atoms (atoms_state path (select_elements "Atom3d" root))) in *.
    assert (x1 = a1) by congruence. assert (x2 = a2) by congruence.
    assert (x1' = a1') by congruence. assert (x2' = a2') by congruence.
    subst x1 x2 x1' x2'.
    assert (b_elements b = b_elements b') as Hsame.
    { rewrite Hkey, Hkey'. by apply bond_type_key_eq_iff. }
    rewrite Hsame in Ht. congruence.
  - intros bond_id processed e c' i j i1 i2 Hconn Hi Hj Hseen.
    eapply bond_step_duplicate; [done..|].
    destruct Hseen as [?|?]; [done|by rewrite sorted2_Z_comm].
Qed.

Lemma bond_deduplication_witness :
  let c := (parse_xsd (H := Ref.builtins) dangling_doc (init "a.xsd")).2 in
  NoDup (map endpoints (bonds c)).
Proof.
  intros c.
  destruct (bond_deduplication (H := Ref.builtins) dangling_doc "a.xsd" 2 c)
    as (Hnd & _).
  - vm_compute. reflexivity.
  - exact Hnd.
Defined.

(** C6. A bond element naming a source ID that no atom has is dropped: the
    parse of the document is the parse of the document without that element
    (no bond is stored for it, no exception is raised, the bond-ID counter
    does not move), and the IDs of the stored bonds are 1..B in the order the
    bonds were accepted. *)
Theorem unknown_bond_dropped `{Builtins} (root : Element) (path : string)
    (l1 l2 : list Element) (e : Element) (i j : Z) :
  select_elements "Bond" root = l1 ++ e :: l2 →
  connects_of e = Some (i, j) →
  (∀ a, a ∈ select_elements "Atom3d" root → source_id a ≠ Some i)
  ∨ (∀ a, a ∈ select_elements "Atom3d" root → source_id a ≠ Some j) →
  parse_xsd root (init path)
  = parse_elements (select_elements "Atom3d" root) (l1 ++ l2) (init path)
  ∧ (∀ loc c',
       xsd_id_to_lammps_idx c' !! i = None ∨ xsd_id_to_lammps_idx c' !! j = None →
       bond_step loc e c' = (inr loc, c'))
  ∧ ∀ n c, parse_xsd root (init path) = (inr n, c) →
           map b_id (bonds c) = seqZ 1 (Z.of_nat (length (bonds c))).
Proof.
  intros Hbonds Hconn Hunknown. split_and!.
  - rewrite parse_xsd_elements, Hbonds.
    set (es := select_elements "Atom3d" root) in *.
    apply parse_elements_bonds_ext. intros Hr.
    assert (∀ m, (∀ a, a ∈ es → source_id a ≠ Some m) → id_map 1 es !! m = None) as Hnone.
    { intros m Hm. apply id_map_None. intros a Ha Heq.
      rewrite forallb_forall in Hr. specialize (Hr a (proj1 (list_elem_of_In _ _) Ha)).
      unfold readable in Hr. apply andb_true_iff in Hr as [[v Hv]%bool_decide_eq_true _].
      apply (Hm a Ha). rewrite Hv in *. simpl in Heq. by subst. }
    rewrite !for_fold_app.
    destruct (bond_loop_run (atoms_state path es) l1 (atoms_state_resolves _ _))
      as (bs & Hrun & _).
    rewrite atoms_state_no_bonds, Hrun.
    cbn [for_fold]. unfold bind at 1.
    rewrite (bond_step_unknown _ e _ i j); [done|done|].
    cbn [xsd_id_to_lammps_idx with_bonds atoms_state].
    destruct Hunknown as [Hu|Hu]; [left|right]; by apply Hnone.
  - intros loc c' Hc'. by eapply bond_step_unknown.
  - intros n c Hrun.
    destruct (parse_xsd_success root path n c Hrun) as (Hr & -> & bs & -> & Hok).
    rewrite final_state_bonds. apply (ids_ok _ _ Hok).
Qed.

Lemma unknown_bond_dropped_witness :
  bonds (parse_xsd (H := Ref.builtins) dangling_doc (init "a.xsd")).2
  = bonds (parse_elements (H := Ref.builtins)
             (select_elements "Atom3d" dangling_doc)
             (drop 1 (select_elements "Bond" dangling_doc)) (init "a.xsd")).2.
Proof.
  destruct (unknown_bond_dropped (H := Ref.builtins) dangling_doc "a.xsd"
              [] (drop 1 (select_elements "Bond" dangling_doc)) dangling_bond 5 77)
    as (Heq & _).
  - vm_compute. reflexivity.
  - vm_compute. reflexivity.
  - right. intros a Ha. vm_compute in Ha.
    apply elem_of_cons in Ha as [-> | Ha]; [vm_compute; discriminate|].
    apply elem_of_cons in Ha as [-> | Ha]; [vm_compute; discriminate|].
    by apply elem_of_nil in Ha.
  - by rewrite Heq.
Defined.



Lemma bad_xyz_position `{Builtins} (e : Element) :
  bad_xyz e → position_of e = (0%float, 0%float, 0%float).
Proof.
  unfold bad_xyz, position_of, parse_xyz. intros Hbad.
  destruct (map py_float _) as [|[x|] [|[y|] [|[z|] [|w l]]]]; try done.
  by destruct (Hbad x y z).
Qed.

(** C8. An atom element whose XYZ attribute does not read as three floats
    does not stop the parse: when the IDs and charges of the atom elements
    convert, the parse returns, and such an atom is stored at (0, 0, 0) and
    written with that position: its row in the Atoms section shows the three
    coordinates as zero, and the file [write_lammps_data] writes holds that
    row. *)
Theorem unreadable_position_defaults `{Builtins} (root : Element) (path : string) :
  let es := select_elements "Atom3d" root in
  forallb readable es = true →
  ∃ n c,
    parse_xsd root (init path) = (inr n, c)
    ∧ (∀ (k : nat) e, es !! k = Some e → bad_xyz e →
        ∃ a, atoms c !! k = Some (1 + Z.of_nat k, a)
             ∧ a_x a = 0%float ∧ a_y a = 0%float ∧ a_z a = 0%float
             ∧ atoms_section c !! k = Some (atom_row (1 + Z.of_nat k) a)
             ∧ atom_row (1 + Z.of_nat k) a
               = (py_str (1 + Z.of_nat k) ++ " 1 " ++ py_str_opt (a_atom_type a) ++ " "
                  ++ py_format_f 6 (a_charge a) ++ " "
                  ++ py_format_f 8 0%float ++ " " ++ py_format_f 8 0%float ++ " "
                  ++ py_format_f 8 0%float ++ nl)%string
             ∧ ∀ out m, ∃ pre post,
                 fs (write_lammps_data out {| self := c; fs := m |}).2 !! out
                 = Some (pre ++ atom_row (1 + Z.of_nat k) a ++ post)%string)
    ∧ ∀ out m, write_lammps_data out {| self := c; fs := m |}
               = (inr tt, writing out c m (file_chunks c)).
Proof.
  intros es Hr. rewrite parse_xsd_elements. fold es.
  destruct (parse_elements_run path es (select_elements "Bond" root) Hr)
    as (bs & Hrun & Hok).
  eexists _, _. split; [exact Hrun|]. split; [|intros; apply write_lammps_data_run].
  intros k e Hk Hbad.
  assert (atoms_section (final_state path es bs) !! k
          = Some (atom_row (1 + Z.of_nat k)
                    (record_of (intern_table (map type_key_of es)) e))) as Hrow.
  { rewrite final_state_atoms_section, final_state_atoms.
    change (map ?f ?l) with (f <$> l).
    by rewrite list_lookup_fmap, enumerate_lookup, list_lookup_fmap, Hk. }
  eexists. split_and!.
  - rewrite final_state_atoms, enumerate_lookup.
    change (map ?f ?l) with (f <$> l). by rewrite list_lookup_fmap, Hk.
  - cbn [a_x record_of]. by rewrite bad_xyz_position.
  - cbn [a_y record_of]. by rewrite bad_xyz_position.
  - cbn [a_z record_of]. by rewrite bad_xyz_position.
  - exact Hrow.
  - unfold atom_row. cbn [a_x a_y a_z record_of]. by rewrite bad_xyz_position.
  - intros out m. rewrite written_text.
    destruct (join_elem_of _ (file_chunks (final_state path es bs))
                (atoms_section_in_file _ _ (list_elem_of_lookup_2 _ _ _ Hrow)))
      as (pre & post & ->).
    by exists pre, post.
Qed.

Lemma unreadable_position_defaults_witness :
  ∃ n c a,
    parse_xsd (H := Ref.builtins) bad_xyz_doc (init "a.xsd") = (inr n, c)
    ∧ atoms c !! 0%nat = Some (1, a)
    ∧ a_x a = 0%float ∧ a_y a = 0%float ∧ a_z a = 0%float.
Proof.
  destruct (unreadable_position_defaults (H := Ref.builtins) bad_xyz_doc "a.xsd")
    as (n & c & Hrun & Hatoms & _).
  - vm_compute. reflexivity.
  - destruct (Hatoms 0%nat bad_xyz_atom) as (a & Ha & Hx & Hy & Hz & _).
    + reflexivity.
    + intros x y z. vm_compute. discriminate.
    + by exists n, c, a.
Defined.

Lemma parse_atom_without_id `{Builtins} idx e c :
  attr "ID" e = None → parse_atom idx e c = (inl TypeError, c).
Proof. intros Hid. unfold parse_atom. by rewrite Hid. Qed.

(** C9. An atom element without a source ID aborts the conversion of the
    file: [parse_xsd] raises (a [TypeError] when the atoms before it are
    readable), no atom is skipped or given a default ID, and the driver
    records the file as failed without writing any output. *)
Theorem missing_source_id_aborts `{Builtins} (root : Element) (path : string)
    (e : Element) :
  e ∈ select_elements "Atom3d" root →
  attr "ID" e = None →
  (∃ ex c, parse_xsd root (init path) = (inl ex, c))
  ∧ (∀ l1 l2, select_elements "Atom3d" root = l1 ++ e :: l2 →
       forallb readable l1 = true →
       ∃ c, parse_xsd root (init path) = (inl TypeError, c))
  ∧ ∀ files, convert_one path root files = (false, files).
Proof.
  intros Hin Hid.
  assert (forallb readable (select_elements "Atom3d" root) = false) as Hr.
  { apply not_true_is_false. intros Hall. rewrite forallb_forall in Hall.
    specialize (Hall e (proj1 (list_elem_of_In _ _) Hin)).
    unfold readable, source_id in Hall. rewrite Hid in Hall. done. }
  destruct (parse_elements_abort path _ (select_elements "Bond" root) Hr)
    as (ex & c & Hrun).
  rewrite <-parse_xsd_elements in Hrun. split_and!.
  - by exists ex, c.
  - intros l1 l2 Hes Hl1. rewrite parse_xsd_elements, Hes.
    unfold parse_elements, for_each. unfold bind at 1.
    rewrite enumerate_app, for_fold_app.
    pose proof (parse_atoms_readable path l1 Hl1) as Hrun1.
    unfold for_each in Hrun1. rewrite Hrun1.
    cbn [enumerate for_fold]. unfold bind at 1.
    rewrite parse_atom_without_id by done. by eexists.
  - intros files. unfold convert_one. by rewrite Hrun.
Qed.

Lemma missing_source_id_aborts_witness :
  (parse_xsd (H := Ref.builtins) anonymous_doc (init "a.xsd")).1 = inl TypeError
  ∧ convert_one (H := Ref.builtins) "a.xsd" anonymous_doc ∅ = (false, ∅).
Proof.
  destruct (missing_source_id_aborts (H := Ref.builtins) anonymous_doc "a.xsd"
              anonymous_atom) as (_ & Htype & Hdriver).
  - vm_compute. right. left.
  - reflexivity.
  - split; [|apply Hdriver].
    destruct (Htype (take 1 (select_elements "Atom3d" anonymous_doc)) [])
      as (c & ->); [reflexivity|vm_compute; reflexivity|reflexivity].
Defined.

(** * Further properties *)

(** ** The written file *)

Lemma omap_lookup_length {K V B} `{EqDecision K} (d : dict K V) (f : K -> V -> B)
    (l : list K) :
  (∀ k, k ∈ l → k ∈ Dict.keys d) →
  length (omap (fun k => f k <$> Dict.get k d) l) = length l.
Proof.
  induction l as [|k l IH]; intros Hl; [done|].
  cbn [omap list_omap]. destruct (get_is_Some k d) as [v Hv]; [apply Hl; by left|].
  rewrite Hv. simpl. f_equal. apply IH. intros k' Hk'. apply Hl. by right.
Qed.

Lemma by_number_length {K} `{EqDecision K} (d : dict K Z) :
  length (by_number d) = length d.
Proof.
  unfold by_number, decorate, Dict.keys.
  by rewrite length_map, py_sorted_by_length, !length_map.
Qed.

Section written_file.
Context `{Builtins}.

Lemma masses_section_length c : length (masses_section c) = length (atom_types c).
Proof.
  unfold masses_section.
  rewrite (omap_lookup_length (atom_types c) (fun ff t => mass_row t ff)).
  - apply by_number_length.
  - intros k. apply by_number_elem_of.
Qed.

Lemma atoms_section_length c : length (atoms_section c) = length (atoms c).
Proof.
  unfold atoms_section. rewrite (omap_lookup_length (atoms c) atom_row).
  - unfold Dict.keys. by rewrite py_sorted_by_length, length_map.
  - intros k. by rewrite py_sorted_by_elem_of.
Qed.

(** X1. Whatever the object holds, [write_lammps_data] returns without
    raising, replaces any previous content of the output file, and the count
    lines it writes announce exactly the numbers of rows written under
    Masses, Atoms and Bonds. *)
Theorem written_counts_match_rows (output_file : string) (w : World) :
  let c := self w in
  let w' := (write_lammps_data output_file w).2 in
  (write_lammps_data output_file w).1 = inr tt
  ∧ fs w' !! output_file = Some (join (file_chunks c))
  ∧ header_section c !! 2%nat
    = Some (py_str (Z.of_nat (length (atoms_section c))) ++ " atoms" ++ nl)%string
  ∧ header_section c !! 3%nat
    = Some (py_str (Z.of_nat (length (bonds_rows c))) ++ " bonds" ++ nl)%string
  ∧ header_section c !! 8%nat
    = Some (py_str (Z.of_nat (length (masses_section c))) ++ " atom types" ++ nl)%string
  ∧ (bonds c = [] → bonds_section c = [])
  ∧ (bond_types c = [] → bond_types_section c = []).
Proof.
  intros c w'. subst w'. rewrite write_lammps_data_run. fold c.
  split_and!.
  - done.
  - cbn [snd writing fs]. by rewrite lookup_insert_eq.
  - by rewrite atoms_section_length.
  - unfold bonds_rows. by rewrite length_map.
  - by rewrite masses_section_length.
  - unfold bonds_section. by intros ->.
  - unfold bond_types_section. by intros ->.
Qed.

(** X2. Writing the same object to the same path twice leaves the files as
    one write does: the file is rewritten, never extended. *)
Theorem write_twice_idempotent (output_file : string) (w : World) :
  write_lammps_data output_file (write_lammps_data output_file w).2
  = write_lammps_data output_file w.
Proof.
  rewrite !write_lammps_data_run. cbn [snd self fs writing].
  unfold writing. by rewrite insert_insert_eq.
Qed.
End written_file.

(** [sorted] leaves a list that is already ascending as it is. *)
Lemma py_sorted_by_ascending {A} (key : A -> Z) (l : list A) :
  Sorted (fun a b => key a <= key b) l → py_sorted_by key l = l.
Proof.
  unfold py_sorted_by. induction l as [|v l IH]; intros Hs; [done|].
  apply Sorted_inv in Hs as [Hs Hhd]. cbn [fold_right]. rewrite IH by done.
  destruct l as [|y l]; [done|]. simpl.
  apply HdRel_inv in Hhd. destruct (Z.ltb_spec (key y) (key v)); [lia|done].
Qed.

Lemma numbered_values {K} (ds : list K) :
  Dict.values (numbered ds) = seqZ 1 (Z.of_nat (length ds)).
Proof.
  unfold Dict.values, numbered. change (map ?f ?l) with (f <$> l).
  apply snd_zip. rewrite length_seqZ. lia.
Qed.

Lemma seqZ_sorted (m : Z) (n : nat) :
  Sorted (fun a b : Z => a <= b) (seqZ m (Z.of_nat n)).
Proof.
  revert m. induction n as [|n IH]; intros m; [constructor|].
  rewrite Nat2Z.inj_succ, seqZ_cons by lia.
  replace (Z.pred (Z.succ (Z.of_nat n))) with (Z.of_nat n) by lia.
  constructor; [apply IH|].
  destruct n as [|n]; [constructor|].
  rewrite Nat2Z.inj_succ, seqZ_cons by lia. constructor. lia.
Qed.

Lemma Sorted_of_map {A} (key : A -> Z) (l : list A) :
  Sorted (fun a b : Z => a <= b) (map key l) → Sorted (fun a b => key a <= key b) l.
Proof.
  induction l as [|v l IH]; intros Hs; [constructor|].
  simpl in Hs. apply Sorted_inv in Hs as [Hs Hhd]. constructor; [by apply IH|].
  destruct l as [|y l]; [constructor|]. simpl in Hhd. apply HdRel_inv in Hhd.
  by constructor.
Qed.

Lemma numbered_sorted {K} (ds : list K) :
  Sorted (fun a b : K * Z => a.2 <= b.2) (numbered ds).
Proof.
  apply Sorted_of_map. fold (Dict.values (numbered ds)).
  rewrite numbered_values. apply seqZ_sorted.
Qed.

Lemma decorate_numbered {K} `{EqDecision K} (ds : list K) :
  NoDup ds → decorate (numbered ds) (Dict.keys (numbered ds)) = numbered ds.
Proof.
  intros Hnd. rewrite numbered_keys. unfold decorate.
  apply list_eq. intros i. change (map ?f ?l) with (f <$> l).
  rewrite list_lookup_fmap.
  destruct (ds !! i) as [k|] eqn:Hk; simpl.
  - rewrite (numbered_get ds i k) by done. simpl.
    unfold numbered. symmetry. apply lookup_zip_with_Some.
    exists k, (Z.of_nat i + 1). split_and!; [done|done|].
    apply lookup_seqZ. split; [lia|]. apply lookup_lt_Some in Hk. lia.
  - symmetry. apply lookup_ge_None. rewrite numbered_length.
    by apply lookup_ge_None.
Qed.

(** In an interning table the keys sorted by number are the keys in order. *)
Lemma by_number_intern_table {K} `{EqDecision K} (ks : list K) :
  by_number (intern_table ks) = first_seen ks.
Proof.
  unfold by_number, intern_table.
  rewrite decorate_numbered by apply first_seen_NoDup.
  rewrite py_sorted_by_ascending by apply numbered_sorted.
  apply numbered_keys.
Qed.

Lemma lookup_rows_of_dict {K V B} `{EqDecision K} (d : dict K V) (f : K -> V -> B) :
  NoDup (Dict.keys d) →
  omap (fun k => f k <$> Dict.get k d) (Dict.keys d) = map (fun '(k, v) => f k v) d.
Proof.
  intros Hnd. change (map ?g d) with (g <$> d). rewrite list_fmap_alt.
  apply list_omap_ext. unfold Dict.keys. change (map ?g ?l) with (g <$> l).
  apply Forall2_fmap_l, Forall_Forall2_diag, Forall_forall.
  intros [k v] Hin. simpl.
  assert (Dict.get k d = Some v) as ->; [|done].
  clear f. induction d as [|[k' v'] d IH]; [by apply elem_of_nil in Hin|].
  unfold Dict.keys in Hnd. simpl in Hnd. apply NoDup_cons in Hnd as [Hk' Hnd].
  simpl. apply elem_of_cons in Hin as [[= <- <-]|Hin].
  - by rewrite decide_True.
  - rewrite decide_False; [by apply IH|].
    intros ->. apply Hk'. apply list_elem_of_In, in_map_iff.
    exists (k', v). split; [done|]. by apply list_elem_of_In.
Qed.

Section row_order.
Context `{Builtins}.

(** X3. After a successful parse the Masses rows list the atom types in
    ascending type number, which is the order the keys first appeared in,
    one row per type, and the bond-type reference lines do so for the bond
    types; [write_lammps_data] writes these rows, in this order, between the
    header and the Atoms section. *)
Theorem type_rows_in_first_seen_order (root : Element) (path : string) (n : Z)
    (c : Converter) :
  parse_xsd root (init path) = (inr n, c) →
  masses_section c = map (fun '(key, t) => mass_row t key) (atom_types c)
  ∧ map fst (atom_types c) = first_seen (map type_key_of (select_elements "Atom3d" root))
  ∧ map snd (atom_types c) = seqZ 1 (Z.of_nat (length (atom_types c)))
  ∧ (bond_types c ≠ [] →
     bond_types_section c
     = ["# Bond Types Reference:" ++ nl]%string
       ++ map bond_type_row (bond_types c) ++ [nl])
  ∧ map snd (bond_types c) = seqZ 1 (Z.of_nat (length (bond_types c)))
  ∧ ∀ out m,
      write_lammps_data out {| self := c; fs := m |}
      = (inr tt,
         {| self := c;
            fs := <[out := join
                     (header_section c
                      ++ ["Masses" ++ nl; nl]%string
                      ++ map (fun '(key, t) => mass_row t key) (atom_types c)
                      ++ [nl]
                      ++ match bond_types c with
                         | [] => []
                         | _ => ["# Bond Types Reference:" ++ nl]%string
                                ++ map bond_type_row (bond_types c) ++ [nl]
                         end
                      ++ ["Atoms" ++ nl; nl]%string ++ atoms_section c ++ [nl]
                      ++ bonds_section c)]> m |}).
Proof.
  intros Hrun.
  destruct (parse_xsd_success root path n c Hrun) as (Hr & -> & bs & -> & Hok).
  set (ks := map type_key_of (select_elements "Atom3d" root)).
  set (c := final_state path (select_elements "Atom3d" root) bs).
  assert (masses_section c = map (fun '(key, t) => mass_row t key) (atom_types c))
    as Hmasses.
  { unfold masses_section, c. rewrite final_state_atom_types. fold ks.
    rewrite by_number_intern_table.
    rewrite <-(numbered_keys (first_seen ks)) at 1.
    apply (lookup_rows_of_dict (intern_table ks) (fun key t => mass_row t key)).
    unfold intern_table. rewrite numbered_keys. apply first_seen_NoDup. }
  assert (bond_types_section c
          = match bond_types c with
            | [] => []
            | _ => ["# Bond Types Reference:" ++ nl]%string
                   ++ map bond_type_row (bond_types c) ++ [nl]
            end) as Hbt.
  { unfold bond_types_section, c. rewrite final_state_bond_types.
    destruct (intern_table (map b_elements bs)) as [|p l] eqn:E; [done|].
    rewrite <-E. unfold intern_table.
    by rewrite (py_sorted_by_ascending snd) by apply numbered_sorted. }
  split_and!.
  - exact Hmasses.
  - unfold c. rewrite final_state_atom_types. apply numbered_keys.
  - unfold c. rewrite final_state_atom_types.
    unfold intern_table. rewrite numbered_length. apply numbered_values.
  - intros Hne. rewrite Hbt. by destruct (bond_types c).
  - unfold c. rewrite final_state_bond_types.
    unfold intern_table. rewrite numbered_length. apply numbered_values.
  - intros out m. rewrite write_lammps_data_run. unfold writing, file_chunks.
    cbn [self fs]. by rewrite Hmasses, Hbt.
Qed.

End row_order.

Lemma type_rows_in_first_seen_order_witness :
  masses_section (H := Ref.builtins)
    (parse_xsd (H := Ref.builtins) scenario_doc (init "a.xsd")).2
  = [("1 12.011  # C" ++ nl)%string; ("2 1.008  # H" ++ nl)%string].
Proof.
  destruct (type_rows_in_first_seen_order (H := Ref.builtins) scenario_doc "a.xsd" 2
              (parse_xsd (H := Ref.builtins) scenario_doc (init "a.xsd")).2)
    as (Hrows & _).
  - vm_compute. reflexivity.
  - rewrite Hrows. vm_compute. reflexivity.
Defined.

Section atom_free.
Context `{Builtins}.

(** With no source ID known, every bond element is passed over. *)
Lemma bond_loop_without_ids (l : list Element) loc c :
  xsd_id_to_lammps_idx c = ∅ → for_fold bond_step l loc c = (inr loc, c).
Proof.
  intros Hids. induction l as [|e l IH]; [done|].
  cbn [for_fold]. unfold bind.
  destruct (connects_of e) as [[i j]|] eqn:Hc.
  - rewrite (bond_step_unknown loc e c i j); [done|done|].
    left. by rewrite Hids.
  - by rewrite bond_step_unparsed.
Qed.

(** X4. A document without atom elements parses to the untouched initial
    object and returns 0, whatever Bond elements it holds; the driver then
    writes a complete file with every count 0, an all-zero box, empty Masses
    and Atoms sections and no Bonds section. *)
Theorem atom_free_document (root : Element) (path : string)
    (files : gmap string string) :
  select_elements "Atom3d" root = [] →
  let zero := py_format_f 6 0%float in
  parse_xsd root (init path) = (inr 0, init path)
  ∧ file_chunks (init path)
    = [ "LAMMPS data file - converted from XSD" ++ nl; nl;
        "0 atoms" ++ nl; "0 bonds" ++ nl; "0 angles" ++ nl;
        "0 dihedrals" ++ nl; "0 impropers" ++ nl; nl;
        "0 atom types" ++ nl; "0 bond types" ++ nl; "0 angle types" ++ nl;
        "0 dihedral types" ++ nl; nl;
        zero ++ " " ++ zero ++ " xlo xhi" ++ nl;
        zero ++ " " ++ zero ++ " ylo yhi" ++ nl;
        zero ++ " " ++ zero ++ " zlo zhi" ++ nl; nl;
        "Masses" ++ nl; nl; nl;
        "Atoms" ++ nl; nl; nl ]%string
  ∧ convert_one path root files
    = (true, <[py_replace ".xsd" ".data" path := join (file_chunks (init path))]> files).
Proof.
  intros Hsel zero.
  assert (parse_xsd root (init path) = (inr 0, init path)) as Hrun.
  { rewrite parse_xsd_elements, Hsel. unfold parse_elements, for_each.
    cbn [enumerate for_fold]. unfold bind.
    cbn [ret]. rewrite bond_loop_without_ids by done. reflexivity. }
  split_and!; [done|reflexivity|].
  unfold convert_one. rewrite Hrun, write_lammps_data_run. reflexivity.
Qed.

End atom_free.

Lemma atom_free_document_witness :
  parse_xsd (H := Ref.builtins)
    (Elem "XSD" ∅ None [dangling_bond]) (init "empty.xsd")
  = (inr 0, init "empty.xsd").
Proof.
  refine (proj1 (atom_free_document (H := Ref.builtins) (Elem "XSD" ∅ None [dangling_bond]) "empty.xsd" ∅ _)).
  reflexivity.
Defined.

Lemma get_Some_elem_of {K V} `{EqDecision K} (k : K) (v : V) (d : dict K V) :
  Dict.get k d = Some v → (k, v) ∈ d.
Proof.
  induction d as [|[k' v'] d IH]; simpl; [done|].
  destruct (decide (k = k')) as [->|Hne].
  - intros [= ->]. by left.
  - intros Hg. right. by apply IH.
Qed.

(** A number in an interning table is the 1-based rank of its key. *)
Lemma intern_table_get_rank {K} `{EqDecision K} (ks : list K) (k : K) (t : Z) :
  Dict.get k (intern_table ks) = Some t →
  1 <= t <= Dict.len (intern_table ks)
  ∧ first_seen ks !! Z.to_nat (t - 1) = Some k.
Proof.
  intros Hg. pose proof (get_Some_keys _ _ _ Hg) as Hin.
  unfold intern_table in *. rewrite numbered_keys in Hin.
  apply list_elem_of_lookup in Hin as [i Hi].
  rewrite (numbered_get _ i k (first_seen_NoDup ks) Hi) in Hg. injection Hg as <-.
  apply lookup_lt_Some in Hi as Hlt. unfold Dict.len. rewrite numbered_length.
  split; [lia|]. by replace (Z.to_nat (Z.of_nat i + 1 - 1)) with i by lia.
Qed.

Lemma intern_table_rank_used {K} `{EqDecision K} (ks : list K) (t : Z) :
  1 <= t <= Dict.len (intern_table ks) →
  ∃ k, k ∈ ks ∧ Dict.get k (intern_table ks) = Some t.
Proof.
  unfold Dict.len, intern_table. rewrite numbered_length. intros Ht.
  destruct (lookup_lt_is_Some_2 (first_seen ks) (Z.to_nat (t - 1))) as [k Hk]; [lia|].
  exists k. split.
  - apply first_seen_elem_of. by eapply list_elem_of_lookup_2.
  - rewrite (numbered_get _ _ k (first_seen_NoDup ks) Hk). f_equal. lia.
Qed.

Section type_numbers.
Context `{Builtins}.

(** X5. After a successful parse every atom carries a type number between 1
    and the number of atom types and every such number is carried by some
    atom; the same holds of the bonds and the bond types; and both endpoints
    of every bond are dense indices between 1 and the number of atoms. *)
Theorem type_numbers_in_range (root : Element) (path : string) (n : Z)
    (c : Converter) :
  parse_xsd root (init path) = (inr n, c) →
  (∀ idx a, Dict.get idx (atoms c) = Some a →
     ∃ t, a_atom_type a = Some t ∧ 1 <= t <= Dict.len (atom_types c))
  ∧ (∀ t, 1 <= t <= Dict.len (atom_types c) →
       ∃ idx a, Dict.get idx (atoms c) = Some a ∧ a_atom_type a = Some t)
  ∧ (∀ b, b ∈ bonds c → 1 <= b_type b <= Dict.len (bond_types c))
  ∧ (∀ t, 1 <= t <= Dict.len (bond_types c) → ∃ b, b ∈ bonds c ∧ b_type b = t)
  ∧ (∀ b, b ∈ bonds c → 1 <= b_atom1 b ∧ b_atom1 b <= b_atom2 b ∧ b_atom2 b <= n).
Proof.
  intros Hrun.
  destruct (parse_xsd_success root path n c Hrun) as (Hr & -> & bs & -> & Hok).
  set (es := select_elements "Atom3d" root) in *.
  rewrite final_state_atoms, final_state_atom_types, final_state_bonds,
    final_state_bond_types.
  set (tbl := intern_table (map type_key_of es)).
  split_and!.
  - intros idx a Ha. apply get_Some_elem_of, list_elem_of_lookup in Ha as [i Hi].
    rewrite enumerate_lookup in Hi. change (map ?f ?l) with (f <$> l) in Hi.
    rewrite list_lookup_fmap in Hi.
    destruct (es !! i) as [e|] eqn:He; [|done]. injection Hi as _ <-.
    destruct (intern_table_get_is_Some (map type_key_of es) (type_key_of e)) as [t Ht].
    { apply list_elem_of_In, in_map, list_elem_of_In. by eapply list_elem_of_lookup_2. }
    exists t. split; [done|]. by apply intern_table_get_rank in Ht as [? _].
  - intros t Ht.
    destruct (intern_table_rank_used (map type_key_of es) t Ht) as (k & Hk & Hg).
    apply list_elem_of_In, in_map_iff in Hk as (e & <- & He).
    apply list_elem_of_In, list_elem_of_lookup in He as [i Hi].
    exists (1 + Z.of_nat i), (record_of tbl e). split; [|done].
    apply enumerate_get. change (map ?f ?l) with (f <$> l).
    by rewrite list_lookup_fmap, Hi.
  - intros b Hb. destruct (bond_ok _ _ Hok b Hb) as (_ & _ & Ht).
    by apply intern_table_get_rank in Ht as [? _].
  - intros t Ht.
    destruct (intern_table_rank_used (map b_elements bs) t Ht) as (k & Hk & Hg).
    apply list_elem_of_In, in_map_iff in Hk as (b & <- & Hb).
    apply list_elem_of_In in Hb. exists b. split; [done|].
    destruct (bond_ok _ _ Hok b Hb) as (_ & _ & Ht'). congruence.
  - intros b Hb.
    destruct (bond_ok _ _ Hok b Hb) as (Hle & (a1 & a2 & Ha1 & Ha2 & _) & _).
    apply get_Some_keys in Ha1, Ha2. cbn [atoms atoms_state] in Ha1, Ha2.
    rewrite enumerate_keys, length_map in Ha1, Ha2.
    apply elem_of_seqZ in Ha1, Ha2. fold es. lia.
Qed.
End type_numbers.

Lemma type_numbers_in_range_witness :
  Forall (fun b => 1 <= b_type b <= 1)
         (bonds (parse_xsd (H := Ref.builtins) dangling_doc (init "a.xsd")).2).
Proof.
  destruct (type_numbers_in_range (H := Ref.builtins) dangling_doc "a.xsd" 2
              (parse_xsd (H := Ref.builtins) dangling_doc (init "a.xsd")).2)
    as (_ & _ & Hb & _).
  - vm_compute. reflexivity.
  - apply Forall_forall. exact Hb.
Defined.

(** ** The mass of an atom type *)

Lemma upper_lower_char (c : ascii) : upper_char (lower_char c) = upper_char c.
Proof. by destruct c as [[] [] [] [] [] [] [] []]. Qed.

Lemma lower_lower_char (c : ascii) : lower_char (lower_char c) = lower_char c.
Proof. by destruct c as [[] [] [] [] [] [] [] []]. Qed.

Lemma is_ascii_letter_lower (c : ascii) :
  is_ascii_letter (lower_char c) = is_ascii_letter c.
Proof. by destruct c as [[] [] [] [] [] [] [] []]. Qed.

Lemma letters_only_idemp (s : string) : letters_only (letters_only s) = letters_only s.
Proof.
  unfold letters_only. induction s as [|c s IH]; [done|].
  cbn [string_filter]. destruct (is_ascii_letter c) eqn:E; [|done].
  cbn [string_filter]. by rewrite E, IH.
Qed.

Lemma letters_only_lower (s : string) :
  letters_only (string_map lower_char s) = string_map lower_char (letters_only s).
Proof.
  unfold letters_only. induction s as [|c s IH]; [done|].
  cbn [string_map string_filter]. rewrite is_ascii_letter_lower.
  destruct (is_ascii_letter c); [|done]. cbn [string_map]. by rewrite IH.
Qed.

Lemma string_map_length (f : ascii -> ascii) (s : string) :
  String.length (string_map f s) = String.length s.
Proof. induction s as [|c s IH]; [done|]. simpl. by rewrite IH. Qed.

(** X6. The mass written for an atom type depends on the letters of its key
    only, and not on their case: digits, punctuation and other characters
    are ignored, a key without letters gets 12.0, and each of the sixteen
    element symbols of the table gets its own mass. *)
Theorem mass_of_type_letters (key : string) :
  mass_of_type key = mass_of_type (letters_only key)
  ∧ mass_of_type (string_map lower_char key) = mass_of_type key
  ∧ (letters_only key = "" → mass_of_type key = 12%float)
  ∧ Forall (fun entry => mass_of_type entry.1 = entry.2) atomic_masses.
Proof.
  split_and!.
  - unfold mass_of_type. by rewrite letters_only_idemp.
  - unfold mass_of_type. rewrite letters_only_lower.
    destruct (letters_only key) as [|c1 rest]; [done|].
    cbn [string_map]. cbn [String.length]. rewrite string_map_length.
    assert (first_upper (String (lower_char c1) (string_map lower_char rest))
            = first_upper (String c1 rest)) as ->.
    { cbn [first_upper]. by rewrite upper_lower_char. }
    assert (first2_capitalize (String (lower_char c1) (string_map lower_char rest))
            = first2_capitalize (String c1 rest)) as ->.
    { destruct rest as [|c2 rest]; cbn [first2_capitalize string_map];
        by rewrite upper_lower_char, ?lower_lower_char. }
    done.
  - unfold mass_of_type. intros ->. reflexivity.
  - unfold atomic_masses. repeat constructor.
Qed.

(** ** What the atom loop stores *)

Section atom_fields.
Context `{Builtins}.

(** X7. After a successful parse the record of every atom carries what its
    element states: the name if any, the force-field label or the word
    unknown, the resolved element symbol, the converted charge or 0.0 when
    the Charge attribute is absent, and the three converted coordinates when
    the XYZ attribute splits into three parts that convert. *)
Theorem stored_atom_fields (root : Element) (path : string) (n : Z) (c : Converter) :
  parse_xsd root (init path) = (inr n, c) →
  ∀ (k : nat) e, select_elements "Atom3d" root !! k = Some e →
    ∃ a, Dict.get (1 + Z.of_nat k) (atoms c) = Some a
         ∧ a_name a = attr "Name" e
         ∧ a_forcefield_type a = default "unknown" (attr "ForcefieldType" e)
         ∧ a_element a = resolve_element e
         ∧ match attr "Charge" e with
           | Some s => py_float s = Some (a_charge a)
           | None => a_charge a = 0%float
           end
         ∧ ∀ sx sy sz x y z,
             split_on "," (default "0,0,0" (attr "XYZ" e)) = [sx; sy; sz] →
             py_float sx = Some x → py_float sy = Some y → py_float sz = Some z →
             a_x a = x ∧ a_y a = y ∧ a_z a = z.
Proof.
  intros Hrun k e Hk.
  destruct (parse_xsd_success root path n c Hrun) as (Hr & -> & bs & -> & Hok).
  set (es := select_elements "Atom3d" root) in *.
  exists (record_of (intern_table (map type_key_of es)) e). split_and!; try done.
  - rewrite final_state_atoms. apply enumerate_get.
    change (map ?f ?l) with (f <$> l). by rewrite list_lookup_fmap, Hk.
  - rewrite forallb_forall in Hr.
    specialize (Hr e (proj1 (list_elem_of_In _ _) (list_elem_of_lookup_2 _ _ _ Hk))).
    unfold readable in Hr. apply andb_true_iff in Hr as [_ [q Hq]%bool_decide_eq_true].
    cbn [a_charge record_of]. rewrite Hq. unfold charge_of in Hq.
    destruct (attr "Charge" e); simpl in *; congruence.
  - intros sx sy sz x y z Hsplit Hx Hy Hz.
    cbn [a_x a_y a_z record_of]. unfold position_of, parse_xyz, attr_or.
    rewrite Hsplit. cbn [map]. by rewrite Hx, Hy, Hz.
Qed.
End atom_fields.

Lemma stored_atom_fields_witness :
  ∃ a, Dict.get 2 (atoms (parse_xsd (H := Ref.builtins) bad_xyz_doc (init "a.xsd")).2)
       = Some a
       ∧ a_x a = 1.5%float ∧ a_y a = (-2)%float ∧ a_z a = 0.25%float.
Proof.
  destruct (stored_atom_fields (H := Ref.builtins) bad_xyz_doc "a.xsd" 2
              (parse_xsd (H := Ref.builtins) bad_xyz_doc (init "a.xsd")).2
              ltac:(vm_compute; reflexivity) 1%nat
              (Elem "Atom3d" (attrs [("ID", "9"); ("Components", "H");
                                     ("XYZ", "1.5,-2,0.25")]) None [])
              eq_refl)
    as (a & Ha & _ & _ & _ & _ & Hxyz).
  exists a. split; [exact Ha|].
  apply (Hxyz "1.5" "-2" "0.25"); reflexivity.
Defined.

Section atom_abort.
Context `{Builtins}.

Lemma parse_atom_bad_id idx e c s :
  attr "ID" e = Some s → py_int s = None →
  parse_atom idx e c = (inl ValueError, c).
Proof.
  intros Hid Hs. unfold parse_atom. rewrite Hid. cbn [int_of_attr].
  rewrite Hs. reflexivity.
Qed.

Lemma parse_atom_bad_charge idx e c s m q :
  attr "ID" e = Some s → py_int s = Some m →
  attr "Charge" e = Some q → py_float q = None →
  parse_atom idx e c = (inl ValueError, upd_xsd_id_to_lammps_idx (insert m idx) c).
Proof.
  intros Hid Hs Hch Hq. unfold parse_atom. rewrite Hid, Hch. cbn [int_of_attr float_of_attr].
  rewrite Hs, Hq. reflexivity.
Qed.

Lemma parse_elements_stops path l1 e l2 bes ex c :
  forallb readable l1 = true →
  parse_atom (1 + Z.of_nat (length l1)) e (atoms_state path l1) = (inl ex, c) →
  parse_elements (l1 ++ e :: l2) bes (init path) = (inl ex, c).
Proof.
  intros Hl1 Hstep. unfold parse_elements, for_each. unfold bind at 1.
  rewrite enumerate_app, for_fold_app.
  pose proof (parse_atoms_readable path l1 Hl1) as Hrun1.
  unfold for_each in Hrun1. rewrite Hrun1.
  cbn [enumerate for_fold]. unfold bind at 1. by rewrite Hstep.
Qed.

(** X8. An atom element whose ID is not an integer, or whose Charge is
    present and is not a float, aborts the parse with a [ValueError]; the
    driver records the file as failed and writes nothing. The object is left
    with the atoms read before it and no bonds; in the Charge case the ID
    lookup already holds the failing atom's source ID, pointing at a dense
    index that has no atom. *)
Theorem unreadable_atom_aborts (root : Element) (path : string)
    (l1 l2 : list Element) (e : Element) (s : string) :
  select_elements "Atom3d" root = l1 ++ e :: l2 →
  forallb readable l1 = true →
  attr "ID" e = Some s →
  (py_int s = None →
     parse_xsd root (init path) = (inl ValueError, atoms_state path l1))
  ∧ (∀ m q, py_int s = Some m → attr "Charge" e = Some q → py_float q = None →
       parse_xsd root (init path)
       = (inl ValueError,
          upd_xsd_id_to_lammps_idx (insert m (1 + Z.of_nat (length l1)))
                                   (atoms_state path l1))
       ∧ Dict.get (1 + Z.of_nat (length l1)) (atoms (atoms_state path l1)) = None)
  ∧ (readable e = false → ∀ files, convert_one path root files = (false, files)).
Proof.
  intros Hes Hl1 Hid. split_and!.
  - intros Hs. rewrite parse_xsd_elements, Hes.
    apply parse_elements_stops; [done|]. by eapply parse_atom_bad_id.
  - intros m q Hs Hch Hq. split.
    + rewrite parse_xsd_elements, Hes.
      apply parse_elements_stops; [done|]. by eapply parse_atom_bad_charge.
    + apply get_None. cbn [atoms atoms_state].
      rewrite enumerate_keys, length_map, elem_of_seqZ. lia.
  - intros He files. unfold convert_one.
    destruct (parse_atom_unreadable (1 + Z.of_nat (length l1)) e
                (atoms_state path l1) He) as (ex & c & Hstep).
    rewrite parse_xsd_elements, Hes.
    by rewrite (parse_elements_stops path l1 e l2 _ ex c Hl1 Hstep).
Qed.
End atom_abort.

Lemma unreadable_atom_aborts_witness :
  (parse_xsd (H := Ref.builtins)
     (Elem "XSD" ∅ None
        [Elem "Atom3d" (attrs [("ID", "5"); ("Charge", "-0.5")]) None [];
         Elem "Atom3d" (attrs [("ID", "9"); ("Charge", "n/a")]) None []])
     (init "a.xsd")).1 = inl ValueError.
Proof.
  destruct (unreadable_atom_aborts (H := Ref.builtins)
              (Elem "XSD" ∅ None
                 [Elem "Atom3d" (attrs [("ID", "5"); ("Charge", "-0.5")]) None [];
                  Elem "Atom3d" (attrs [("ID", "9"); ("Charge", "n/a")]) None []])
              "a.xsd"
              [Elem "Atom3d" (attrs [("ID", "5"); ("Charge", "-0.5")]) None []] []
              (Elem "Atom3d" (attrs [("ID", "9"); ("Charge", "n/a")]) None [])
              "9" eq_refl eq_refl eq_refl) as (_ & Hcharge & _).
  destruct (Hcharge 9 "n/a" eq_refl eq_refl eq_refl) as [-> _]. reflexivity.
Defined.

Section id_lookup.
Context `{Builtins}.

Lemma id_map_last start l1 e l2 m :
  source_id e = Some m →
  (∀ e', e' ∈ l2 → default 0 (source_id e') ≠ m) →
  id_map start (l1 ++ e :: l2) !! m = Some (start + Z.of_nat (length l1)).
Proof.
  intros He. induction l2 as [|x l2 IH] using rev_ind; intros Hl2.
  - rewrite id_map_snoc, He. cbn [default from_option]. unfold id.
    by rewrite lookup_insert_eq.
  - replace (l1 ++ e :: l2 ++ [x]) with ((l1 ++ e :: l2) ++ [x])
      by (by rewrite <-app_assoc).
    rewrite id_map_snoc, lookup_insert_ne.
    + apply IH. intros e' He'. apply Hl2, elem_of_app. by left.
    + apply Hl2, elem_of_app. right. by left.
Qed.

Lemma readable_source_id e m :
  readable e = true → default 0 (source_id e) = m → source_id e = Some m.
Proof.
  unfold readable. intros [[v Hv]%bool_decide_eq_true _]%andb_true_iff.
  rewrite Hv. cbn. by intros ->.
Qed.

(** X9. After a successful parse the lookup from source IDs to dense indices
    holds exactly the source IDs of the atoms, each leading to the dense
    index of the last atom carrying it: when the IDs are distinct every
    atom's ID leads to its own index, and of two atoms sharing an ID only
    the later one can be reached by bonds. *)
Theorem source_id_lookup (root : Element) (path : string) (n : Z) (c : Converter) :
  parse_xsd root (init path) = (inr n, c) →
  let es := select_elements "Atom3d" root in
  (∀ (k : nat) e m,
     es !! k = Some e → source_id e = Some m →
     (∀ (k' : nat) e', (k < k')%nat → es !! k' = Some e' → source_id e' ≠ Some m) →
     xsd_id_to_lammps_idx c !! m = Some (1 + Z.of_nat k))
  ∧ (∀ m, (∀ e, e ∈ es → source_id e ≠ Some m) → xsd_id_to_lammps_idx c !! m = None)
  ∧ (∀ m i, xsd_id_to_lammps_idx c !! m = Some i →
       ∃ (k : nat) e, es !! k = Some e ∧ source_id e = Some m ∧ i = 1 + Z.of_nat k).
Proof.
  intros Hrun es.
  destruct (parse_xsd_success root path n c Hrun) as (Hr & -> & bs & -> & Hok).
  fold es in Hr. cbn [xsd_id_to_lammps_idx final_state upd_box_bounds with_bonds atoms_state].
  fold es.
  assert (∀ e, e ∈ es → readable e = true) as Hall.
  { intros e He. rewrite forallb_forall in Hr. by apply Hr, list_elem_of_In. }
  split_and!.
  - intros k e m Hk He Hlater.
    rewrite <-(take_drop_middle es k e Hk).
    rewrite id_map_last with (m := m); [|done|].
    + rewrite length_take_le; [done|]. apply lookup_lt_Some in Hk. lia.
    + intros e' [j Hj]%list_elem_of_lookup Heq.
      rewrite lookup_drop in Hj.
      apply (Hlater (S k + j)%nat e'); [lia|done|].
      apply readable_source_id; [|done].
      by eapply Hall, list_elem_of_lookup_2.
  - intros m Hm. apply id_map_None. intros e He Heq.
    apply (Hm e He). by apply readable_source_id; [apply Hall|].
  - intros m i (k & e & Hk & -> & Hid)%id_map_lookup.
    exists k, e. split_and!; [done| |done].
    apply readable_source_id; [|done]. by eapply Hall, list_elem_of_lookup_2.
Qed.
End id_lookup.

Lemma source_id_lookup_witness :
  xsd_id_to_lammps_idx (parse_xsd (H := Ref.builtins) scenario_doc (init "a.xsd")).2
    !! 9 = Some 2.
Proof.
  destruct (source_id_lookup (H := Ref.builtins) scenario_doc "a.xsd" 2
              (parse_xsd (H := Ref.builtins) scenario_doc (init "a.xsd")).2
              ltac:(vm_compute; reflexivity)) as (Hlast & _).
  apply (Hlast 1%nat (Elem "Atom3d" (attrs [("ID", "9"); ("Components", "H")]) None []) 9).
  - reflexivity.
  - reflexivity.
  - intros k' e' Hlt Hk'. destruct k' as [|[|k']]; [lia|lia|]. discriminate Hk'.
Defined.

(** ** What the bond loop stores *)

Section malformed_bonds.
Context `{Builtins}.


End malformed_bonds.


Section bond_trace.
Context `{Builtins}.

Lemma traced_skip ids l e bs :
  traced ids l bs →
  (∀ p, resolves_to ids e p → p ∈ map endpoints bs) →
  traced ids (l ++ [e]) bs.
Proof.
  intros (Hfrom & Hall & Hlen) He. split_and!.
  - intros b Hb. destruct (Hfrom b Hb) as (l1 & e0 & l2 & -> & Hres & Hord & Hfirst).
    exists l1, e0, (l2 ++ [e]). split_and!; try done. by rewrite <-app_assoc.
  - intros e' p [Hin| ->%list_elem_of_singleton]%elem_of_app Hres; eauto.
  - rewrite length_app. simpl. lia.
Qed.

Lemma traced_store ids l e bs b :
  traced ids l bs →
  resolves_to ids e (endpoints b) →
  endpoints b ∉ map endpoints bs →
  b_order b = default "Single" (attr "Type" e) →
  (∀ p, resolves_to ids e p → p = endpoints b) →
  traced ids (l ++ [e]) (bs ++ [b]).
Proof.
  intros (Hfrom & Hall & Hlen) Hres Hnew Hord Huniq. split_and!.
  - intros b' [Hb| ->%list_elem_of_singleton]%elem_of_app.
    + destruct (Hfrom b' Hb) as (l1 & e0 & l2 & -> & Hres' & Hord' & Hfirst).
      exists l1, e0, (l2 ++ [e]). split_and!; try done. by rewrite <-app_assoc.
    + exists l, e, []. split_and!; try done.
      intros e' He' Hres'. apply Hnew. by eapply Hall.
  - intros e' p [Hin| ->%list_elem_of_singleton]%elem_of_app Hres';
      rewrite map_app; apply elem_of_app.
    + left. by eapply Hall.
    + right. rewrite (Huniq p Hres'). by left.
  - rewrite !length_app. simpl. lia.
Qed.

Lemma bond_step_traced c0 l bs e :
  ids_resolve c0 → bonds_ok (atoms c0) bs →
  traced (xsd_id_to_lammps_idx c0) l bs →
  ∃ bs', bond_step (bond_locals bs) e (with_bonds c0 bs)
           = (inr (bond_locals bs'), with_bonds c0 bs')
         ∧ bonds_ok (atoms c0) bs'
         ∧ traced (xsd_id_to_lammps_idx c0) (l ++ [e]) bs'.
Proof.
  intros Hres Hok Htr.
  destruct (connects_of e) as [[i j]|] eqn:Hc.
  2:{ exists bs. rewrite bond_step_unparsed by done. split_and!; [done..|].
      apply traced_skip; [done|]. intros p (? & ? & ? & ? & ? & _). congruence. }
  destruct (xsd_id_to_lammps_idx c0 !! i) as [i1|] eqn:Hi.
  2:{ exists bs. split_and!; [|done|].
      - eapply bond_step_unknown; [done|]. by left.
      - apply traced_skip; [done|].
        intros p (? & ? & ? & ? & Hc' & Hi' & _). congruence. }
  destruct (xsd_id_to_lammps_idx c0 !! j) as [i2|] eqn:Hj.
  2:{ exists bs. split_and!; [|done|].
      - eapply bond_step_unknown; [done|]. by right.
      - apply traced_skip; [done|].
        intros p (? & ? & ? & ? & Hc' & _ & Hj' & _). congruence. }
  assert (∀ p, resolves_to (xsd_id_to_lammps_idx c0) e p → p = sorted2 Z.ltb i1 i2)
    as Huniq.
  { intros p (? & ? & ? & ? & Hc' & Hi' & Hj' & ->). congruence. }
  destruct (decide (sorted2 Z.ltb i1 i2 ∈ (bond_locals bs).2)) as [Hin|Hnin].
  { exists bs. split_and!; [|done|].
    - unfold bond_locals in *. by eapply bond_step_duplicate.
    - apply traced_skip; [done|]. intros p ->%Huniq.
      by apply bond_locals_elem_of. }
  destruct (Hres _ _ Hi) as [a1 Ha1]. destruct (Hres _ _ Hj) as [a2 Ha2].
  assert (sorted2 Z.ltb i1 i2 ∉ map endpoints bs) as Hnin'
    by (by rewrite <-bond_locals_elem_of).
  eexists. split_and!.
  - unfold bond_locals at 1.
    erewrite bond_step_accepted; [|done..].
    rewrite add_bond_with_bonds. f_equal.
    rewrite bond_locals_snoc. unfold endpoints. simpl.
    by destruct (sorted2 Z.ltb i1 i2).
  - by apply bonds_ok_snoc.
  - apply traced_store; try done.
    + exists i, j, i1, i2. split_and!; try done.
      unfold endpoints. simpl. by destruct (sorted2 Z.ltb i1 i2).
    + unfold endpoints. simpl. by destruct (sorted2 Z.ltb i1 i2).
    + intros p ->%Huniq. unfold endpoints. simpl. by destruct (sorted2 Z.ltb i1 i2).
Qed.

Lemma bond_loop_traced c0 l :
  ids_resolve c0 →
  ∃ bs, for_fold bond_step l (1, ∅) (with_bonds c0 [])
          = (inr (bond_locals bs), with_bonds c0 bs)
        ∧ bonds_ok (atoms c0) bs
        ∧ traced (xsd_id_to_lammps_idx c0) l bs.
Proof.
  intros Hres. induction l as [|e l IH] using rev_ind.
  - exists []. split_and!; [done|apply bonds_ok_nil|].
    split_and!; [by intros b ?%elem_of_nil|by intros e p ?%elem_of_nil|done].
  - destruct IH as (bs & Hrun & Hok & Htr).
    destruct (bond_step_traced c0 l bs e Hres Hok Htr) as (bs' & Hstep & Hok' & Htr').
    exists bs'. split_and!; [|done..].
    rewrite for_fold_app, Hrun. cbn [for_fold]. unfold bind. by rewrite Hstep.
Qed.

Lemma parse_xsd_traced root path n c :
  parse_xsd root (init path) = (inr n, c) →
  traced (xsd_id_to_lammps_idx c) (select_elements "Bond" root) (bonds c).
Proof.
  intros Hrun.
  destruct (parse_xsd_success root path n c Hrun) as (Hr & -> & bs & -> & Hok).
  set (es := select_elements "Atom3d" root) in *.
  destruct (bond_loop_traced (atoms_state path es) (select_elements "Bond" root)
              (atoms_state_resolves _ _)) as (bs' & Hloop & _ & Htr).
  destruct (bond_loop_run (atoms_state path es) (select_elements "Bond" root)
              (atoms_state_resolves _ _)) as (bs'' & Hloop' & Hok'').
  assert (bonds (final_state path es bs) = bs') as Hbs.
  { rewrite parse_xsd_elements in Hrun. fold es in Hrun.
    unfold parse_elements in Hrun. unfold bind at 1 in Hrun.
    rewrite parse_atoms_readable in Hrun by done.
    unfold bind at 1 in Hrun. unfold bind at 1 in Hrun.
    rewrite atoms_state_no_bonds, Hloop in Hrun. unfold ret at 1 in Hrun.
    unfold bind at 1 in Hrun. rewrite calculate_box_bounds_run in Hrun.
    unfold bind, gets, ret in Hrun. injection Hrun as _ Hc.
    rewrite <-Hc. reflexivity. }
  rewrite Hbs. exact Htr.
Qed.
End bond_trace.

Section bond_provenance.
Context `{Builtins}.

(** X11. After a successful parse every stored bond comes from a Bond
    element whose two source IDs lead to its endpoints, carries the Type of
    the first element naming that pair (Single when it has none), and every
    Bond element whose two source IDs are known has its pair among the
    stored bonds; there are at most as many bonds as Bond elements. *)
Theorem stored_bonds_come_from_elements (root : Element) (path : string) (n : Z)
    (c : Converter) :
  parse_xsd root (init path) = (inr n, c) →
  let ids := xsd_id_to_lammps_idx c in
  let bes := select_elements "Bond" root in
  (∀ b, b ∈ bonds c →
     ∃ l1 e l2 i j i1 i2,
       bes = l1 ++ e :: l2
       ∧ connects_of e = Some (i, j) ∧ ids !! i = Some i1 ∧ ids !! j = Some i2
       ∧ (b_atom1 b, b_atom2 b) = sorted2 Z.ltb i1 i2
       ∧ b_order b = default "Single" (attr "Type" e)
       ∧ ∀ e' i' j' i1' i2',
           e' ∈ l1 → connects_of e' = Some (i', j') →
           ids !! i' = Some i1' → ids !! j' = Some i2' →
           sorted2 Z.ltb i1' i2' ≠ sorted2 Z.ltb i1 i2)
  ∧ (∀ e i j i1 i2,
       e ∈ bes → connects_of e = Some (i, j) →
       ids !! i = Some i1 → ids !! j = Some i2 →
       ∃ b, b ∈ bonds c ∧ (b_atom1 b, b_atom2 b) = sorted2 Z.ltb i1 i2)
  ∧ (length (bonds c) <= length bes)%nat.
Proof.
  intros Hrun ids bes.
  destruct (parse_xsd_traced root path n c Hrun) as (Hfrom & Hall & Hlen).
  fold ids bes in Hfrom, Hall, Hlen. split_and!; [| |done].
  - intros b Hb.
    destruct (Hfrom b Hb)
      as (l1 & e & l2 & Hsplit & (i & j & i1 & i2 & Hc & Hi & Hj & Hp) & Hord & Hfirst).
    exists l1, e, l2, i, j, i1, i2. split_and!; try done.
    intros e' i' j' i1' i2' He' Hc' Hi' Hj' Heq.
    apply (Hfirst e' He'). exists i', j', i1', i2'. split_and!; try done.
    by rewrite Heq, <-Hp.
  - intros e i j i1 i2 He Hc Hi Hj.
    assert (sorted2 Z.ltb i1 i2 ∈ map endpoints (bonds c)) as Hin.
    { apply (Hall e); [done|]. by exists i, j, i1, i2. }
    apply list_elem_of_In, in_map_iff in Hin as (b & Hb & Hin).
    exists b. split; [by apply list_elem_of_In|done].
Qed.

(** X12. A Bond element naming the same known source ID twice is not
    rejected: the atom ends up bonded to itself. *)
Theorem self_bond_is_stored (root : Element) (path : string) (n : Z)
    (c : Converter) (e : Element) (i i1 : Z) :
  parse_xsd root (init path) = (inr n, c) →
  e ∈ select_elements "Bond" root →
  connects_of e = Some (i, i) →
  xsd_id_to_lammps_idx c !! i = Some i1 →
  ∃ b, b ∈ bonds c ∧ b_atom1 b = i1 ∧ b_atom2 b = i1.
Proof.
  intros Hrun He Hc Hi.
  destruct (parse_xsd_traced root path n c Hrun) as (_ & Hall & _).
  assert (sorted2 Z.ltb i1 i1 ∈ map endpoints (bonds c)) as Hin.
  { apply (Hall e); [done|]. by exists i, i, i1, i1. }
  apply list_elem_of_In, in_map_iff in Hin as (b & Hb & Hin).
  exists b. split; [by apply list_elem_of_In|].
  unfold sorted2 in Hb. rewrite Z.ltb_irrefl in Hb. by injection Hb as -> ->.
Qed.
End bond_provenance.

Lemma stored_bonds_come_from_elements_witness :
  ∃ b, b ∈ bonds (parse_xsd (H := Ref.builtins) dangling_doc (init "a.xsd")).2
       ∧ (b_atom1 b, b_atom2 b) = (1, 2).
Proof.
  destruct (stored_bonds_come_from_elements (H := Ref.builtins) dangling_doc "a.xsd" 2
              (parse_xsd (H := Ref.builtins) dangling_doc (init "a.xsd")).2
              ltac:(vm_compute; reflexivity)) as (_ & Hall & _).
  apply (Hall (Elem "Bond" (attrs [("Connects", "5,9"); ("Type", "Single")]) None [])
              5 9 1 2).
  - vm_compute. do 2 right. left.
  - reflexivity.
  - reflexivity.
  - reflexivity.
Defined.

Lemma self_bond_is_stored_witness :
  ∃ b, b ∈ bonds (parse_xsd (H := Ref.builtins)
                    (Elem "XSD" ∅ None
                       [Elem "Atom3d" (attrs [("ID", "7")]) None [];
                        Elem "Bond" (attrs [("Connects", "7,7")]) None []])
                    (init "a.xsd")).2
       ∧ b_atom1 b = 1 ∧ b_atom2 b = 1.
Proof.
  apply (self_bond_is_stored (H := Ref.builtins)
           (Elem "XSD" ∅ None
              [Elem "Atom3d" (attrs [("ID", "7")]) None [];
               Elem "Bond" (attrs [("Connects", "7,7")]) None []])
           "a.xsd" 1 _ (Elem "Bond" (attrs [("Connects", "7,7")]) None []) 7 1).
  - vm_compute. reflexivity.
  - vm_compute. left.
  - reflexivity.
  - reflexivity.
Defined.

(** ** The batch driver *)

Section driver_facts.
Context `{Builtins}.

(** X13. The driver reports a file as failed exactly when its parse raises,
    and then no file is created or changed; when the parse returns, the
    driver reports success and the output file holds the text of the parsed
    model, all other files being as before. Writing never fails. *)
Theorem convert_one_outcome (xsd_file : string) (root : Element)
    (files : gmap string string) :
  (∃ ex c, parse_xsd root (init xsd_file) = (inl ex, c)
           ∧ convert_one xsd_file root files = (false, files))
  ∨ (∃ n c, parse_xsd root (init xsd_file) = (inr n, c)
            ∧ convert_one xsd_file root files
              = (true, <[py_replace ".xsd" ".data" xsd_file := join (file_chunks c)]> files)).
Proof.
  unfold convert_one.
  destruct (parse_xsd root (init xsd_file)) as [[ex|n] c] eqn:Hrun.
  - left. by exists ex, c.
  - right. exists n, c. split; [done|]. by rewrite write_lammps_data_run.
Qed.

Variable parse_xml : string -> option Element.

Lemma convert_file_frame xsd_file files p :
  p ≠ py_replace ".xsd" ".data" xsd_file →
  (convert_file parse_xml xsd_file files).2 !! p = files !! p.
Proof.
  intros Hp. unfold convert_file.
  destruct (files !! xsd_file ≫= parse_xml) as [root|]; [|done].
  destruct (convert_one_outcome xsd_file root files)
    as [(ex & c & _ & ->)|(n & c & _ & ->)]; [done|].
  cbn [snd]. by rewrite lookup_insert_ne.
Qed.

Lemma convert_file_flag_ext xsd_file files files' :
  files' !! xsd_file = files !! xsd_file →
  (convert_file parse_xml xsd_file files').1 = (convert_file parse_xml xsd_file files).1.
Proof.
  intros Heq. unfold convert_file. rewrite Heq.
  destruct (files !! xsd_file ≫= parse_xml) as [root|]; [|done].
  destruct (convert_one_outcome xsd_file root files')
    as [(ex & c & Hrun & ->)|(n & c & Hrun & ->)];
    destruct (convert_one_outcome xsd_file root files)
      as [(ex' & c' & Hrun' & ->)|(n' & c' & Hrun' & ->)]; try done; congruence.
Qed.

Lemma run_batch_snoc l f files :
  run_batch parse_xml (l ++ [f]) files
  = let '(results, files') := run_batch parse_xml l files in
    let '(ok, files'') := convert_file parse_xml f files' in
    (Dict.set f ok results, files'').
Proof.
  unfold run_batch. rewrite fold_left_app. cbn [fold_left].
  by destruct (fold_left _ l _) as [results files'].
Qed.

(** X14. When the names are distinct and no output path is one of the
    names, the batch gives every file the outcome it has when converted
    alone in the initial directory, in the order of the names, whatever
    happens to the other files: a failure does not stop the batch. Only
    output paths are written, and the summary counts the successes. *)
Theorem batch_converts_each_file_alone (xsd_files : list string)
    (files : gmap string string) :
  NoDup xsd_files →
  (∀ f g, f ∈ xsd_files → g ∈ xsd_files → py_replace ".xsd" ".data" f ≠ g) →
  let alone := fun f => (convert_file parse_xml f files).1 in
  let results := (run_batch parse_xml xsd_files files).1 in
  let files' := (run_batch parse_xml xsd_files files).2 in
  results = map (fun f => (f, alone f)) xsd_files
  ∧ total results = Z.of_nat (length xsd_files)
  ∧ passed results = Z.of_nat (length (List.filter alone xsd_files))
  ∧ ∀ p, (∀ f, f ∈ xsd_files → p ≠ py_replace ".xsd" ".data" f) →
         files' !! p = files !! p.
Proof.
  intros Hnd Hout alone results files'.
  assert (results = map (fun f => (f, alone f)) xsd_files
          ∧ ∀ p, (∀ f, f ∈ xsd_files → p ≠ py_replace ".xsd" ".data" f) →
                 files' !! p = files !! p) as [Hres Hframe].
  { subst results files'.
    induction xsd_files as [|f l IH] using rev_ind; [done|].
    apply NoDup_app in Hnd as (Hnd & Hfl & _).
    destruct IH as [IHres IHframe]; [done| |].
    { intros g g' Hg Hg'. apply Hout; apply elem_of_app; by left. }
    rewrite run_batch_snoc.
    destruct (run_batch parse_xml l files) as [results0 files0].
    cbn [fst snd] in IHres, IHframe.
    assert (files0 !! f = files !! f) as Hf.
    { apply IHframe. intros g Hg Heq. symmetry in Heq. revert Heq.
      apply Hout; apply elem_of_app; [by left|right; by left]. }
    pose proof (convert_file_flag_ext f files files0 Hf) as Hflag.
    destruct (convert_file parse_xml f files0) as [ok files1] eqn:Hconv.
    cbn [fst snd] in *. split.
    - rewrite map_app. cbn [map]. unfold alone at 2. rewrite <-Hflag.
      rewrite set_fresh; [by rewrite IHres|].
      apply get_None. rewrite IHres. unfold Dict.keys. rewrite map_map. cbn [fst].
      rewrite map_id. intros Hin. by apply (Hfl f Hin); left.
    - intros p Hp.
      pose proof (convert_file_frame f files0 p) as Hfr. rewrite Hconv in Hfr.
      cbn [snd] in Hfr. rewrite Hfr.
      + apply IHframe. intros g Hg. apply Hp, elem_of_app. by left.
      + apply Hp, elem_of_app. right. by left. }
  split_and!; [done| | |done].
  - unfold total, Dict.len. by rewrite Hres, length_map.
  - unfold passed, Dict.values. rewrite Hres, map_map. cbn [snd].
    f_equal. clear. induction xsd_files as [|f l IH]; [done|].
    cbn [map List.filter]. destruct (alone f); cbn [length]; [f_equal|];
      apply IH.
Qed.
End driver_facts.

Lemma batch_converts_each_file_alone_witness :
  (run_batch (H := Ref.builtins)
     (fun text => if String.eqb text "<XSD/>" then Some scenario_doc else None)
     ["a.xsd"; "b.xsd"; "c.xsd"]
     (list_to_map [("a.xsd", "<XSD/>"); ("b.xsd", "<XSD"); ("c.xsd", "<XSD/>")])).1
  = [("a.xsd", true); ("b.xsd", false); ("c.xsd", true)].
Proof.
  destruct (batch_converts_each_file_alone (H := Ref.builtins)
              (fun text => if String.eqb text "<XSD/>" then Some scenario_doc else None)
              ["a.xsd"; "b.xsd"; "c.xsd"]
              (list_to_map [("a.xsd", "<XSD/>"); ("b.xsd", "<XSD"); ("c.xsd", "<XSD/>")]))
    as (Hres & _).
  - apply NoDup_ListNoDup. repeat constructor; simpl; intuition discriminate.
  - intros f g Hf Hg.
    repeat (apply elem_of_cons in Hf as [->|Hf]); try (by apply elem_of_nil in Hf);
      repeat (apply elem_of_cons in Hg as [->|Hg]); try (by apply elem_of_nil in Hg);
      vm_compute; discriminate.
  - rewrite Hres. vm_compute. reflexivity.
Defined.

Lemma replace_from_no_dot (stem tail : string) :
  (∀ c, c ∈ list_ascii_of_string stem → c ≠ "."%char) →
  replace_from 0 ".xsd" ".data" (stem ++ tail)
  = (stem ++ replace_from 0 ".xsd" ".data" tail)%string.
Proof.
  induction stem as [|c stem IH]; intros Hno; [done|].
  rewrite !string_app_cons. cbn [replace_from String.prefix].
  destruct (ascii_dec "." c) as [<-|Hne].
  - exfalso. apply (Hno "."%char); [|done]. by left.
  - f_equal. apply IH. intros c' Hc'. apply Hno. by right.
Qed.

(** X15. For a name made of a stem without dots followed by [.xsd] the
    output path is the stem followed by [.data]; a name without dots is its
    own output path. *)
Theorem output_path_of_name (stem : string) :
  (∀ c, c ∈ list_ascii_of_string stem → c ≠ "."%char) →
  py_replace ".xsd" ".data" (stem ++ ".xsd") = (stem ++ ".data")%string
  ∧ py_replace ".xsd" ".data" stem = stem.
Proof.
  intros Hno. unfold py_replace. split.
  - by rewrite replace_from_no_dot.
  - rewrite <-(string_app_nil_r stem) at 1. rewrite replace_from_no_dot by done.
    cbn [replace_from]. apply string_app_nil_r.
Qed.

Lemma output_path_of_name_witness :
  py_replace ".xsd" ".data" "benzene.xsd" = "benzene.data".
Proof.
  refine (proj1 (output_path_of_name "benzene" _)).
  intros c Hc. vm_compute in Hc.
  repeat (apply elem_of_cons in Hc as [->|Hc]; [discriminate|]).
  by apply elem_of_nil in Hc.
Defined.

(** ** Selecting elements *)

Lemma findall_desc_tag (t : string) (root e : Element) :
  e ∈ findall_desc t root → tag e = t ∧ e ∈ flat_map iter (children root).
Proof.
  unfold findall_desc. intros [Hin Htag]%list_elem_of_In%filter_In.
  split; [|by apply list_elem_of_In].
  unfold tag_is in Htag. by apply String.eqb_eq in Htag.
Qed.

(** X16. The elements selected under a name are proper descendants of the
    root that all carry the same tag: the plain name, or the
    namespace-qualified name when no element carries the plain one. In a
    document that mixes the two, the qualified elements are not read. *)
Theorem selection_never_mixes (t : string) (root : Element) :
  (∀ e, e ∈ select_elements t root →
     e ∈ flat_map iter (children root) ∧ (tag e = t ∨ tag e = (ns ++ t)%string))
  ∧ (∀ e e', e ∈ select_elements t root → e' ∈ select_elements t root →
       tag e = tag e')
  ∧ (∀ e, e ∈ flat_map iter (children root) → tag e = t →
       select_elements t root = findall_desc t root
       ∧ ∀ e', e' ∈ select_elements t root → tag e' = t).
Proof.
  unfold select_elements. split_and!.
  - intros e He. destruct (findall_desc t root) as [|e0 l] eqn:E.
    + apply findall_desc_tag in He as [? ?]. auto.
    + rewrite <-E in He. apply findall_desc_tag in He as [? ?]. auto.
  - intros e e' He He'. destruct (findall_desc t root) as [|e0 l] eqn:E.
    + apply findall_desc_tag in He as [-> _]. by apply findall_desc_tag in He' as [-> _].
    + rewrite <-E in He, He'.
      apply findall_desc_tag in He as [-> _]. by apply findall_desc_tag in He' as [-> _].
  - intros e He Htag.
    assert (e ∈ findall_desc t root) as Hin.
    { unfold findall_desc. apply list_elem_of_In, filter_In. split.
      - by apply list_elem_of_In.
      - unfold tag_is. by apply String.eqb_eq. }
    destruct (findall_desc t root) as [|e0 l] eqn:E; [by apply elem_of_nil in Hin|].
    split; [done|]. intros e' He'. rewrite <-E in He'.
    by apply findall_desc_tag in He' as [? _].
Qed.

(** ** Types and keys *)

Lemma intern_table_get_inj {K} `{EqDecision K} (ks : list K) (k k' : K) (t : Z) :
  Dict.get k (intern_table ks) = Some t →
  Dict.get k' (intern_table ks) = Some t → k = k'.
Proof.
  intros [_ Hk]%intern_table_get_rank [_ Hk']%intern_table_get_rank. congruence.
Qed.

Section types_and_keys.
Context `{Builtins}.

(** X17. After a successful parse two atoms have the same type number
    exactly when they have the same type key, so atoms sharing a force-field
    label share a type whatever their elements are; the key of a stored bond
    is the pair of the element symbols of its two atoms, the smaller symbol
    first, with its order, and two bonds have the same type number exactly
    when their atoms carry the same two symbols, in either order, and their
    orders agree. *)
Theorem same_type_iff_same_key (root : Element) (path : string) (n : Z)
    (c : Converter) :
  parse_xsd root (init path) = (inr n, c) →
  (∀ idx idx' a a',
     Dict.get idx (atoms c) = Some a → Dict.get idx' (atoms c) = Some a' →
     (a_atom_type a = a_atom_type a' ↔ a_type_key a = a_type_key a'))
  ∧ (∀ b b', b ∈ bonds c → b' ∈ bonds c →
       (b_type b = b_type b' ↔ b_elements b = b_elements b'))
  ∧ (∀ b, b ∈ bonds c →
       ∃ a1 a2, Dict.get (b_atom1 b) (atoms c) = Some a1
                ∧ Dict.get (b_atom2 b) (atoms c) = Some a2
                ∧ b_elements b
                  = (if String.ltb (a_element a2) (a_element a1)
                     then (a_element a2, a_element a1, b_order b)
                     else (a_element a1, a_element a2, b_order b)))
  ∧ (∀ b b' a1 a2 a1' a2', b ∈ bonds c → b' ∈ bonds c →
       Dict.get (b_atom1 b) (atoms c) = Some a1 →
       Dict.get (b_atom2 b) (atoms c) = Some a2 →
       Dict.get (b_atom1 b') (atoms c) = Some a1' →
       Dict.get (b_atom2 b') (atoms c) = Some a2' →
       (b_type b = b_type b'
        ↔ ((a_element a1 = a_element a1' ∧ a_element a2 = a_element a2')
           ∨ (a_element a1 = a_element a2' ∧ a_element a2 = a_element a1'))
          ∧ b_order b = b_order b')).
Proof.
  intros Hrun.
  destruct (parse_xsd_success root path n c Hrun) as (Hr & -> & bs & -> & Hok).
  set (es := select_elements "Atom3d" root) in *.
  rewrite final_state_atoms, final_state_bonds.
  assert (∀ idx a,
            Dict.get idx (enumerate 1 (map (record_of (intern_table (map type_key_of es))) es))
            = Some a →
            ∃ e t, e ∈ es ∧ a = record_of (intern_table (map type_key_of es)) e
                   ∧ Dict.get (type_key_of e) (intern_table (map type_key_of es)) = Some t)
    as Hrec.
  { intros idx a Ha. apply get_Some_elem_of, list_elem_of_lookup in Ha as [i Hi].
    rewrite enumerate_lookup in Hi. change (map ?f ?l) with (f <$> l) in Hi.
    rewrite list_lookup_fmap in Hi.
    destruct (es !! i) as [e|] eqn:He; [|done]. injection Hi as _ <-.
    assert (e ∈ es) as Hin by (by eapply list_elem_of_lookup_2).
    destruct (intern_table_get_is_Some (map type_key_of es) (type_key_of e)) as [t Ht].
    { by apply list_elem_of_In, in_map, list_elem_of_In. }
    by exists e, t. }
  assert (∀ b b', b ∈ bs → b' ∈ bs →
            (b_type b = b_type b' ↔ b_elements b = b_elements b')) as Hbonds.
  { intros b b' Hb Hb'.
    destruct (bond_ok _ _ Hok b Hb) as (_ & _ & Ht).
    destruct (bond_ok _ _ Hok b' Hb') as (_ & _ & Ht').
    split.
    + intros Heq. rewrite Heq in Ht. by eapply intern_table_get_inj.
    + intros Heq. rewrite Heq in Ht. congruence. }
  split_and!.
  - intros idx idx' a a' Ha Ha'.
    destruct (Hrec idx a Ha) as (e & t & _ & -> & Ht).
    destruct (Hrec idx' a' Ha') as (e' & t' & _ & -> & Ht').
    cbn [a_atom_type a_type_key record_of]. rewrite Ht, Ht'. split.
    + intros [= <-]. f_equal. by eapply intern_table_get_inj.
    + intros [= Hkey]. rewrite Hkey in Ht. congruence.
  - exact Hbonds.
  - intros b Hb.
    destruct (bond_ok _ _ Hok b Hb) as (_ & (a1 & a2 & G1 & G2 & Hkey) & _).
    exists a1, a2. split_and!; [done..|].
    rewrite Hkey. unfold bond_type_key, sorted2.
    by destruct (String.ltb (a_element a2) (a_element a1)).
  - intros b b' a1 a2 a1' a2' Hb Hb' H1 H2 H1' H2'.
    destruct (bond_ok _ _ Hok b Hb) as (_ & (x1 & x2 & G1 & G2 & Hkey) & _).
    destruct (bond_ok _ _ Hok b' Hb') as (_ & (x1' & x2' & G1' & G2' & Hkey') & _).
    change (atoms (atoms_state path es))
      with (enumerate 1 (map (record_of (intern_table (map type_key_of es))) es)) in *.
    assert (x1 = a1) by congruence. assert (x2 = a2) by congruence.
    assert (x1' = a1') by congruence. assert (x2' = a2') by congruence.
    subst x1 x2 x1' x2'.
    rewrite (Hbonds b b' Hb Hb'), Hkey, Hkey'. apply bond_type_key_eq_iff.
Qed.
End types_and_keys.

Lemma same_type_iff_same_key_witness :
  Forall (fun b =>
            Forall (fun b' => b_type b = b_type b' ↔ b_elements b = b_elements b')
                   (bonds (parse_xsd (H := Ref.builtins) dangling_doc (init "a.xsd")).2))
         (bonds (parse_xsd (H := Ref.builtins) dangling_doc (init "a.xsd")).2).
Proof.
  destruct (same_type_iff_same_key (H := Ref.builtins) dangling_doc "a.xsd" 2
              (parse_xsd (H := Ref.builtins) dangling_doc (init "a.xsd")).2
              ltac:(vm_compute; reflexivity)) as (_ & Hb & _).
  apply Forall_forall. intros b Hin. apply Forall_forall. intros b' Hin'.
  by apply Hb.
Defined.

(** The text of an unqualified Components descendant counts only when that
    descendant has child elements itself. *)
Lemma resolve_element_unqualified (atom_elem found : Element) :
  find_desc "Components" atom_elem = Some found →
  (children found ≠ [] →
     resolve_element atom_elem
     = match text found with Some (String c t) => String c t | _ => "X" end)
  ∧ (children found = [] →
     resolve_element atom_elem
     = match find_child (ns ++ "Components")%string atom_elem with
       | Some child => match text child with Some (String c t) => String c t | _ => "X" end
       | None => default "X" (attr "Components" atom_elem)
       end).
Proof.
  intros Hfound. unfold resolve_element, components_lookup, truthy. rewrite Hfound.
  split.
  - by destruct (children found).
  - intros ->. by destruct (find_child _ atom_elem).
Qed.

(** X18. An atom element that states its element only through an
    unqualified Components child without children of its own is stored after
    a successful parse with the symbol of its Components attribute, or X when
    it has none, whatever the text of that child is; without a force-field
    label it is then typed by that symbol. *)
Theorem childless_components_child_ignored `{Builtins} (root : Element)
    (path : string) (n : Z) (c : Converter) (k : nat) (e found : Element) :
  parse_xsd root (init path) = (inr n, c) →
  select_elements "Atom3d" root !! k = Some e →
  find_desc "Components" e = Some found →
  children found = [] →
  find_child (ns ++ "Components")%string e = None →
  ∃ a, Dict.get (1 + Z.of_nat k) (atoms c) = Some a
       ∧ a_element a = default "X" (attr "Components" e)
       ∧ (attr "ForcefieldType" e = None →
          a_type_key a = Some (default "X" (attr "Components" e))).
Proof.
  intros Hrun Hk Hfound Hchildless Hns.
  destruct (parse_xsd_success root path n c Hrun) as (Hr & -> & bs & -> & Hok).
  set (es := select_elements "Atom3d" root) in *.
  destruct (resolve_element_unqualified e found Hfound) as [_ Hres].
  specialize (Hres Hchildless). rewrite Hns in Hres.
  exists (record_of (intern_table (map type_key_of es)) e). split_and!.
  - rewrite final_state_atoms. apply enumerate_get.
    change (map ?f ?l) with (f <$> l). by rewrite list_lookup_fmap, Hk.
  - done.
  - intros Hff. cbn [a_type_key record_of]. unfold type_key_of, attr_or.
    rewrite Hff, Hres. reflexivity.
Qed.

Lemma childless_components_child_ignored_witness :
  ∃ a, Dict.get 1 (atoms (parse_xsd (H := Ref.builtins)
                            (Elem "XSD" ∅ None
                               [Elem "Atom3d" (attrs [("ID", "5")]) None
                                  [Elem "Components" ∅ (Some "C") []]])
                            (init "a.xsd")).2) = Some a
       ∧ a_element a = "X".
Proof.
  destruct (childless_components_child_ignored (H := Ref.builtins)
              (Elem "XSD" ∅ None
                 [Elem "Atom3d" (attrs [("ID", "5")]) None
                    [Elem "Components" ∅ (Some "C") []]])
              "a.xsd" 1 _ 0%nat
              (Elem "Atom3d" (attrs [("ID", "5")]) None
                 [Elem "Components" ∅ (Some "C") []])
              (Elem "Components" ∅ (Some "C") [])
              ltac:(vm_compute; reflexivity) eq_refl eq_refl eq_refl eq_refl)
    as (a & Ha & Hel & _).
  by exists a.
Defined.

(** ** When the parse succeeds *)

Section parse_outcome.
Context `{Builtins}.

(** X19. The parse of a document returns exactly when every atom element has
    an ID that converts to an integer and a Charge that is absent or converts
    to a float; Bond elements, positions, names and labels never make it
    fail. *)
Theorem parse_succeeds_iff_atoms_readable (root : Element) (path : string) :
  (∃ n c, parse_xsd root (init path) = (inr n, c))
  ↔ Forall (λ e, (∃ s m, attr "ID" e = Some s ∧ py_int s = Some m)
                 ∧ (attr "Charge" e = None
                    ∨ ∃ q v, attr "Charge" e = Some q ∧ py_float q = Some v))
           (select_elements "Atom3d" root).
Proof.
  set (es := select_elements "Atom3d" root).
  assert (∀ e, readable e = true ↔
            (∃ s m, attr "ID" e = Some s ∧ py_int s = Some m)
            ∧ (attr "Charge" e = None
               ∨ ∃ q v, attr "Charge" e = Some q ∧ py_float q = Some v)) as Hread.
  { intros e. unfold readable, source_id, charge_of.
    rewrite andb_true_iff, !bool_decide_eq_true. split.
    - intros [[m Hm] [v Hv]]. split.
      + destruct (attr "ID" e) as [s|]; [|done]. by exists s, m.
      + destruct (attr "Charge" e) as [q|]; [|by left]. right. by exists q, v.
    - intros [(s & m & -> & Hm) Hch]. split; [by exists m|].
      destruct Hch as [->|(q & v & -> & Hv)]; by eexists. }
  rewrite Forall_forall. split.
  - intros (n & c & Hrun) e He.
    destruct (parse_xsd_success root path n c Hrun) as (Hr & _).
    apply Hread. rewrite forallb_forall in Hr. by apply Hr, list_elem_of_In.
  - intros Hall.
    assert (forallb readable es = true) as Hr.
    { apply forallb_forall. intros e He. by apply Hread, Hall, list_elem_of_In. }
    destruct (parse_elements_run path es (select_elements "Bond" root) Hr)
      as (bs & Hrun & _).
    rewrite parse_xsd_elements. eauto.
Qed.

(** X20. Bond elements have no effect on what is read of the atoms: two
    documents with the same atom elements give the same outcome, return
    value, atoms, atom types, source-ID lookup and box, whatever their Bond
    elements are. *)
Theorem bonds_do_not_affect_atoms (root root' : Element) (path : string) :
  select_elements "Atom3d" root = select_elements "Atom3d" root' →
  (parse_xsd root (init path)).1 = (parse_xsd root' (init path)).1
  ∧ atoms (parse_xsd root (init path)).2 = atoms (parse_xsd root' (init path)).2
  ∧ atom_types (parse_xsd root (init path)).2
    = atom_types (parse_xsd root' (init path)).2
  ∧ atom_type_counter (parse_xsd root (init path)).2
    = atom_type_counter (parse_xsd root' (init path)).2
  ∧ xsd_id_to_lammps_idx (parse_xsd root (init path)).2
    = xsd_id_to_lammps_idx (parse_xsd root' (init path)).2
  ∧ box_bounds (parse_xsd root (init path)).2
    = box_bounds (parse_xsd root' (init path)).2.
Proof.
  intros Hsame.
  rewrite !parse_xsd_elements, <-Hsame.
  set (es := select_elements "Atom3d" root).
  destruct (forallb readable es) eqn:Hr.
  - destruct (parse_elements_run path es (select_elements "Bond" root) Hr)
      as (bs & -> & _).
    destruct (parse_elements_run path es (select_elements "Bond" root') Hr)
      as (bs' & -> & _).
    by split_and!.
  - rewrite (parse_elements_bonds_ext path es (select_elements "Bond" root)
               (select_elements "Bond" root')) by congruence.
    by split_and!.
Qed.
End parse_outcome.

Lemma bonds_do_not_affect_atoms_witness :
  atoms (parse_xsd (H := Ref.builtins) scenario_doc (init "a.xsd")).2
  = atoms (parse_xsd (H := Ref.builtins) dangling_doc (init "a.xsd")).2.
Proof.
  destruct (bonds_do_not_affect_atoms (H := Ref.builtins) scenario_doc dangling_doc
              "a.xsd") as (_ & Hatoms & _).
  - vm_compute. reflexivity.
  - exact Hatoms.
Defined.
